(** * The job lifecycle of the resume optimiser client (frontend/src/App.tsx)

    A shallow embedding of the [App] component: its seven [useState] cells,
    the stream [useEffect] (lines 34-78), [handleSubmit] (lines 80-131), the
    "Start a new job" button (line 267) and the [disabled] attributes of the
    form (lines 196-233), together with the part of the browser the component
    talks to: [EventSource] objects, [fetch] calls, synthesized download
    clicks and the console.

    JavaScript values are kept dynamically typed, as [JSON.parse] and
    [response.json()] return them ([any] in the source).

    An event is taken in layers. [handle] is the handler it runs and
    [commit] the effects of the commit that follows; [step] and [run] put
    these two together, for renders that succeed. [render] is the evaluation
    of the JSX (lines 139-352), which throws on values outside the types of
    the state cells, and [mount_step] and [tree_run] are the component in the
    page: handler, render, effects, and the unmount of the tree when the
    render or an effect throws (main.tsx sets up no error boundary). *)

From Stdlib Require Import Floats.
From stdpp Require Import base strings list gmap.

#[local] Set Warnings "-register-all".
#[local] Open Scope string_scope.

(** ** JavaScript values *)

Module JS.

(** An [Error] object, as far as the component looks at it ([err.message]). *)
Record JSError : Type := { err_name : string; err_message : string }.

(** The outcome of evaluating an expression or awaiting a promise: a value,
    or a thrown error (a rejection). *)
Inductive Completion (A : Type) : Type :=
| Normal (a : A)
| Throw (e : JSError).
Arguments Normal {A} a.
Arguments Throw {A} e.

#[global] Instance Completion_ret : MRet Completion := @Normal.
#[global] Instance Completion_bind : MBind Completion :=
  fun A B f m => match m with Normal a => f a | Throw e => Throw e end.

(** What [JSON.parse] produces, plus [undefined] (the value of a missing
    property). Numbers are IEEE doubles; objects are finite maps from
    property names. *)
Inductive JSValue : Type :=
| JUndefined
| JNull
| JBool (b : bool)
| JNumber (x : float)
| JString (s : string)
| JArray (l : list JSValue)
| JObject (m : gmap string JSValue).

(** The host: the built-ins whose exact results depend on the engine, and the
    build-time configuration. *)
Class Engine : Type := {
  (** [JSON.parse(text)] *)
  JSON_parse : string -> Completion JSValue;
  (** [Number.prototype.toString] *)
  Number_toString : float -> string;
  (** the [TypeError] of reading property [k] of [null] or [undefined] *)
  null_read_error : JSValue -> string -> JSError;
  (** the [TypeError] "Cannot convert object to primitive value" *)
  to_primitive_error : JSError;
  (** [new EventSource(url)] throws a [SyntaxError] when [url] does not parse *)
  EventSource_ctor : string -> Completion unit;
  (** [import.meta.env.VITE_API_URL] *)
  VITE_API_URL : option string;
}.

(** ToBoolean: what [!v], [v || w] and [v ? a : b] test. *)
Definition truthy (v : JSValue) : bool :=
  match v with
  | JUndefined | JNull => false
  | JBool b => b
  | JNumber x => negb (PrimFloat.is_zero x || PrimFloat.is_nan x)
  | JString s => negb (String.eqb s "")
  | JArray _ | JObject _ => true
  end.

(** [v || w] *)
Definition js_or (v w : JSValue) : JSValue := if truthy v then v else w.

(** [v === "s"] for a string literal. *)
Definition strict_eq_string (v : JSValue) (s : string) : bool :=
  match v with
  | JString t => String.eqb t s
  | _ => false
  end.

(** [Object.is(x, y)] where [y] was just produced (by a literal or by a
    parse): primitives are compared by value, a fresh array or object is
    identical to nothing that existed before. *)
Definition Object_is (x y : JSValue) : bool :=
  match x, y with
  | JUndefined, JUndefined => true
  | JNull, JNull => true
  | JBool a, JBool b => Bool.eqb a b
  | JNumber a, JNumber b => PrimFloat.Leibniz.eqb a b
  | JString a, JString b => String.eqb a b
  | _, _ => false
  end.

Section WithEngine.
Context `{Engine}.

(** [v.k] for the property names the component reads ([type], [data],
    [report], [filename], [error], [job_id]): none of them is defined on a
    built-in prototype, so only an object's own properties can supply them.
    Reading a property of [null] or [undefined] throws. *)
Definition get (v : JSValue) (k : string) : Completion JSValue :=
  match v with
  | JUndefined | JNull => Throw (null_read_error v k)
  | JObject m => Normal (default JUndefined (m !! k))
  | _ => Normal JUndefined
  end.

(** ToString, as template literals, [new Error(msg)] and DOM string
    attributes apply it. An array is joined with commas
    ([Array.prototype.join]: [null] and [undefined] elements give the empty
    string); a parsed object gives "[object Object]", unless it has an own
    [toString] property, which, being no function, leaves no way to a
    primitive. *)
Fixpoint ToString (v : JSValue) : Completion string :=
  match v with
  | JUndefined => Normal "undefined"
  | JNull => Normal "null"
  | JBool b => Normal (if b then "true" else "false")
  | JNumber x => Normal (Number_toString x)
  | JString s => Normal s
  | JArray l =>
      let element (x : JSValue) : Completion string :=
        match x with
        | JUndefined | JNull => Normal ""
        | _ => ToString x
        end in
      (fix join (l : list JSValue) : Completion string :=
         match l with
         | [] => Normal ""
         | [x] => element x
         | x :: xs =>
             match element x with
             | Normal s =>
                 match join xs with
                 | Normal r => Normal (s ++ "," ++ r)
                 | Throw e => Throw e
                 end
             | Throw e => Throw e
             end
         end) l
  | JObject m =>
      match m !! "toString" with
      | None => Normal "[object Object]"
      | Some _ => Throw to_primitive_error
      end
  end.

(** [new Error(msg)]: the message is [ToString(msg)] (for [msg] other than
    [undefined]); the conversion itself may throw. *)
Definition new_Error (msg : JSValue) : Completion JSError :=
  match msg with
  | JUndefined => Normal {| err_name := "Error"; err_message := "" |}
  | _ => s ← ToString msg; Normal {| err_name := "Error"; err_message := s |}
  end.

(** [import.meta.env.VITE_API_URL || 'http://localhost:5000'] (lines 37, 94) *)
Definition API_URL : string :=
  match VITE_API_URL with
  | Some s => if String.eqb s "" then "http://localhost:5000" else s
  | None => "http://localhost:5000"
  end.

End WithEngine.

End JS.
Export JS.

(** ** The component's state and its surroundings *)

(** [useState<'idle' | 'loading' | 'success' | 'error'>] (line 19) *)
Inductive JobStatus : Type := idle | loading | success | error.

#[global] Instance JobStatus_eq_dec : EqDecision JobStatus.
Proof. solve_decision. Defined.

(** A [File] picked in the resume input. *)
Record File : Type := { file_name : string; file_bytes : list Byte.byte }.

(** The session [supabase.auth.getSession()] resolves with. *)
Record Session : Type := { access_token : string }.

(** The [Response] of [fetch]: [ok] is derived from the status code, and
    [json] is what [await response.json()] settles to. *)
Record Response : Type := {
  res_status : Z;
  statusText : string;
  json : Completion JSValue;
}.

Definition ok (r : Response) : bool :=
  (200 <=? res_status r)%Z && (res_status r <=? 299)%Z.

(** An [EventSource] object: its URL, the [jobId] its handlers closed over
    (line 53), and whether [close()] was called on it. *)
Record EventSource : Type := {
  es_url : string;
  es_jobId : JSValue;
  es_closed : bool;
}.

(** A [fetch] call (lines 105-112). *)
Record Request : Type := {
  req_url : string;
  req_method : string;
  req_authorization : option string;
  req_form_url : string;
  req_form_resume : File;
}.

(** A click on a synthesized download link (lines 52-57), tagged with the
    [EventSource] whose handler made it. *)
Record Download : Type := {
  dl_source : nat;
  href : string;
  download : string;
}.

(** Where an invocation of the async [handleSubmit] is suspended. The
    continuation at [await getSession()] holds the [url] and [resumeFile] of
    the render it was called in. *)
Inductive HandleSubmit : Type :=
| AtGetSession (url : string) (resumeFile : File)
| AtFetch
| Returned.

Record App : Type := {
  (* useState cells, lines 17-24 *)
  url : string;
  resumeFile : option File;
  status : JobStatus;
  errorMessage : JSValue;
  jobId : JSValue;
  logs : list JSValue;
  report : JSValue;
  (* how often the jobId cell received a value not Object.is to its content:
     the identity of the dependency of the stream effect *)
  jobId_rev : nat;
  (* every EventSource constructed so far, and the one the pending cleanup
     of the stream effect will close *)
  sources : list EventSource;
  cleanup : option nat;
  (* invocations of handleSubmit that passed validation *)
  calls : list HandleSubmit;
  (* fetch calls, download clicks, console.error calls, oldest first *)
  requests : list Request;
  downloads : list Download;
  console : list (string * JSError);
}.

Definition initial : App :=
  {| url := ""; resumeFile := None; status := idle; errorMessage := JString "";
     jobId := JNull; logs := []; report := JNull; jobId_rev := 0;
     sources := []; cleanup := None; calls := []; requests := [];
     downloads := []; console := [] |}.

(** *** State setters *)

Definition setUrl (v : string) (a : App) : App :=
  {| url := v; resumeFile := resumeFile a; status := status a;
     errorMessage := errorMessage a; jobId := jobId a; logs := logs a;
     report := report a; jobId_rev := jobId_rev a; sources := sources a;
     cleanup := cleanup a; calls := calls a; requests := requests a;
     downloads := downloads a; console := console a |}.

Definition setResumeFile (v : option File) (a : App) : App :=
  {| url := url a; resumeFile := v; status := status a;
     errorMessage := errorMessage a; jobId := jobId a; logs := logs a;
     report := report a; jobId_rev := jobId_rev a; sources := sources a;
     cleanup := cleanup a; calls := calls a; requests := requests a;
     downloads := downloads a; console := console a |}.

Definition setStatus (v : JobStatus) (a : App) : App :=
  {| url := url a; resumeFile := resumeFile a; status := v;
     errorMessage := errorMessage a; jobId := jobId a; logs := logs a;
     report := report a; jobId_rev := jobId_rev a; sources := sources a;
     cleanup := cleanup a; calls := calls a; requests := requests a;
     downloads := downloads a; console := console a |}.

Definition setErrorMessage (v : JSValue) (a : App) : App :=
  {| url := url a; resumeFile := resumeFile a; status := status a;
     errorMessage := v; jobId := jobId a; logs := logs a;
     report := report a; jobId_rev := jobId_rev a; sources := sources a;
     cleanup := cleanup a; calls := calls a; requests := requests a;
     downloads := downloads a; console := console a |}.

(** [setJobId(v)]: React keeps the cell (and so the effect's dependency) as
    it is when [Object.is] finds the new value identical to the old one. *)
Definition setJobId (v : JSValue) (a : App) : App :=
  if Object_is (jobId a) v then a else
  {| url := url a; resumeFile := resumeFile a; status := status a;
     errorMessage := errorMessage a; jobId := v; logs := logs a;
     report := report a; jobId_rev := S (jobId_rev a); sources := sources a;
     cleanup := cleanup a; calls := calls a; requests := requests a;
     downloads := downloads a; console := console a |}.

Definition setLogs (v : list JSValue) (a : App) : App :=
  {| url := url a; resumeFile := resumeFile a; status := status a;
     errorMessage := errorMessage a; jobId := jobId a; logs := v;
     report := report a; jobId_rev := jobId_rev a; sources := sources a;
     cleanup := cleanup a; calls := calls a; requests := requests a;
     downloads := downloads a; console := console a |}.

Definition setReport (v : JSValue) (a : App) : App :=
  {| url := url a; resumeFile := resumeFile a; status := status a;
     errorMessage := errorMessage a; jobId := jobId a; logs := logs a;
     report := v; jobId_rev := jobId_rev a; sources := sources a;
     cleanup := cleanup a; calls := calls a; requests := requests a;
     downloads := downloads a; console := console a |}.

(** *** The surroundings *)

Definition set_sources (v : list EventSource) (a : App) : App :=
  {| url := url a; resumeFile := resumeFile a; status := status a;
     errorMessage := errorMessage a; jobId := jobId a; logs := logs a;
     report := report a; jobId_rev := jobId_rev a; sources := v;
     cleanup := cleanup a; calls := calls a; requests := requests a;
     downloads := downloads a; console := console a |}.

Definition set_cleanup (v : option nat) (a : App) : App :=
  {| url := url a; resumeFile := resumeFile a; status := status a;
     errorMessage := errorMessage a; jobId := jobId a; logs := logs a;
     report := report a; jobId_rev := jobId_rev a; sources := sources a;
     cleanup := v; calls := calls a; requests := requests a;
     downloads := downloads a; console := console a |}.

Definition set_calls (v : list HandleSubmit) (a : App) : App :=
  {| url := url a; resumeFile := resumeFile a; status := status a;
     errorMessage := errorMessage a; jobId := jobId a; logs := logs a;
     report := report a; jobId_rev := jobId_rev a; sources := sources a;
     cleanup := cleanup a; calls := v; requests := requests a;
     downloads := downloads a; console := console a |}.

Definition set_requests (v : list Request) (a : App) : App :=
  {| url := url a; resumeFile := resumeFile a; status := status a;
     errorMessage := errorMessage a; jobId := jobId a; logs := logs a;
     report := report a; jobId_rev := jobId_rev a; sources := sources a;
     cleanup := cleanup a; calls := calls a; requests := v;
     downloads := downloads a; console := console a |}.

Definition set_downloads (v : list Download) (a : App) : App :=
  {| url := url a; resumeFile := resumeFile a; status := status a;
     errorMessage := errorMessage a; jobId := jobId a; logs := logs a;
     report := report a; jobId_rev := jobId_rev a; sources := sources a;
     cleanup := cleanup a; calls := calls a; requests := requests a;
     downloads := v; console := console a |}.

Definition set_console (v : list (string * JSError)) (a : App) : App :=
  {| url := url a; resumeFile := resumeFile a; status := status a;
     errorMessage := errorMessage a; jobId := jobId a; logs := logs a;
     report := report a; jobId_rev := jobId_rev a; sources := sources a;
     cleanup := cleanup a; calls := calls a; requests := requests a;
     downloads := downloads a; console := v |}.

(** [eventSource.close()] on the i-th EventSource. *)
Definition close_source (es : EventSource) : EventSource :=
  {| es_url := es_url es; es_jobId := es_jobId es; es_closed := true |}.

Definition close (i : nat) (a : App) : App :=
  set_sources (alter close_source i (sources a)) a.

(** [dlLink.click()] (line 56) *)
Definition click (d : Download) (a : App) : App :=
  set_downloads (downloads a ++ [d]) a.

(** [console.error(label, err)] (line 65) *)
Definition console_error (label : string) (err : JSError) (a : App) : App :=
  set_console (console a ++ [(label, err)]) a.

(** Whether the i-th EventSource exists and is not closed. *)
Definition is_open (a : App) (i : nat) : bool :=
  match sources a !! i with
  | Some es => negb (es_closed es)
  | None => false
  end.

(** ** Handlers *)

(** A handler body: it updates the component as it goes and may throw half
    way, keeping the updates made so far. *)
Definition Handler (A : Type) : Type := App -> App * Completion A.

Module Handler.

Definition ret {A} (x : A) : Handler A := fun a => (a, Normal x).

Definition bind {A B} (m : Handler A) (k : A -> Handler B) : Handler B :=
  fun a =>
    match m a with
    | (a', Normal x) => k x a'
    | (a', Throw e) => (a', Throw e)
    end.

(** an expression that may throw *)
Definition eval {A} (c : Completion A) : Handler A := fun a => (a, c).

(** a statement that updates the component *)
Definition exec (f : App -> App) : Handler unit := fun a => (f a, Normal tt).

(** [try { body } catch (err) { handler }] *)
Definition try_catch (body : Handler unit) (handler : JSError -> App -> App)
    : App -> App :=
  fun a =>
    match body a with
    | (a', Normal _) => a'
    | (a', Throw err) => handler err a'
    end.

End Handler.

Declare Scope handler_scope.
Delimit Scope handler_scope with handler.
Notation "'let*' x := m 'in' k" := (Handler.bind m (fun x => k))
  (at level 10, x name, m at level 100, k at level 200) : handler_scope.
Notation "m ;; k" := (Handler.bind m (fun _ => k))
  (at level 100, k at level 200, right associativity) : handler_scope.

Section Component.
Context `{Engine}.

(** *** The stream effect (lines 34-78) *)

(** The cleanup returned by the previous run of the effect (lines 75-77), if
    that run got as far as returning one. *)
Definition run_cleanup (a : App) : App :=
  match cleanup a with
  | Some i => set_cleanup None (close i a)
  | None => a
  end.

(** The body of the effect, in a render with the state [a]. *)
Definition stream_effect (a : App) : Completion App :=
  if negb (truthy (jobId a)) || bool_decide (status a = error) then Normal a
  else
    id ← ToString (jobId a);
    let u := API_URL ++ "/api/stream-job/" ++ id in
    _ ← EventSource_ctor u;
    let eventSource := {| es_url := u; es_jobId := jobId a; es_closed := false |} in
    Normal (set_cleanup (Some (length (sources a)))
              (set_sources (sources a ++ [eventSource]) a)).

(** [eventSource.onmessage] (lines 40-67) of the i-th EventSource, created
    in a render whose job identifier was [jobId]. *)
Definition onmessage (i : nat) (jobId : JSValue) (event_data : string)
    : App -> App :=
  Handler.try_catch
    (let* data := Handler.eval (JSON_parse event_data) in
     let* type := Handler.eval (get data "type") in
     if strict_eq_string type "log" then
       let* line := Handler.eval (get data "data") in
       Handler.exec (fun a => setLogs (logs a ++ [line]) a)
     else if strict_eq_string type "complete" then
       let* r := Handler.eval (get data "report") in
       Handler.exec (setReport (js_or r (JObject ∅)));;
       Handler.exec (setStatus success);;
       Handler.exec (close i);;
       let* filename := Handler.eval (get data "filename") in
       if truthy filename then
         let* id := Handler.eval (ToString jobId) in
         let href := API_URL ++ "/api/download-pdf/" ++ id in
         let* download := Handler.eval (ToString filename) in
         Handler.exec
           (click {| dl_source := i; href := href; download := download |})
       else Handler.ret tt
     else if strict_eq_string type "error" then
       let* msg := Handler.eval (get data "data") in
       Handler.exec
         (setErrorMessage (js_or msg (JString "Unknown error during streaming")));;
       Handler.exec (setStatus error);;
       Handler.exec (close i)
     else Handler.ret tt)%handler
    (console_error "SSE Parse logic error").

(** [eventSource.onerror] (lines 69-73) *)
Definition onerror (i : nat) (a : App) : App :=
  let a := setErrorMessage (JString "Lost connection to server") a in
  let a := setStatus error a in
  close i a.

(** *** handleSubmit (lines 80-131) *)

(** The [catch] of [handleSubmit] (lines 127-130). *)
Definition handleSubmit_catch (err : JSError) (a : App) : App :=
  let a := setErrorMessage (JString (err_message err)) a in
  setStatus error a.

(** [handleSubmit] up to its first [await] (lines 81-98). An invocation that
    passes the validation is suspended at [getSession()]. *)
Definition handleSubmit (a : App) : App :=
  match String.eqb (url a) "", resumeFile a with
  | false, Some file =>
      let call := AtGetSession (url a) file in
      let a := setStatus loading a in
      let a := setErrorMessage (JString "") a in
      let a := setLogs [] a in
      let a := setReport JNull a in
      let a := setJobId JNull a in
      set_calls (calls a ++ [call]) a
  | _, _ =>
      (* !url || !resumeFile *)
      let a := setErrorMessage
        (JString "Please provide both a Job URL and your base Resume PDF.") a in
      setStatus error a
  end.

(** From the settling of [getSession()] to the [fetch] call (lines 98-112),
    for the k-th invocation. *)
Definition handleSubmit_getSession (k : nat) (url : string) (resumeFile : File)
    (settled : Completion (option Session)) (a : App) : App :=
  match settled with
  | Normal session =>
      let token := access_token <$> session in
      let authorization :=
        match token with
        | Some t => if String.eqb t "" then None else Some ("Bearer " ++ t)
        | None => None
        end in
      let request :=
        {| req_url := API_URL ++ "/api/start-optimization";
           req_method := "POST";
           req_authorization := authorization;
           req_form_url := url;
           req_form_resume := resumeFile |} in
      set_calls (<[k := AtFetch]> (calls a))
        (set_requests (requests a ++ [request]) a)
  | Throw err =>
      handleSubmit_catch err (set_calls (<[k := Returned]> (calls a)) a)
  end.

(** The message of a response that is not ok (lines 115-121). *)
Definition errorMsg (response : Response) : JSValue :=
  let errorMsg := JString "Failed to start optimization job." in
  match errorData ← json response; error ← get errorData "error";
        Normal (js_or error errorMsg) with
  | Normal errorMsg => errorMsg
  | Throw _ => JString ("Server error: " ++ statusText response)
  end.

(** What the [try] block yields once [fetch] has settled (lines 105-126):
    the value handed to [setJobId], or the error that reaches the [catch]. *)
Definition job_id_of (settled : Completion Response) : Completion JSValue :=
  response ← settled;
  if negb (ok response) then
    err ← new_Error (errorMsg response);
    Throw err
  else
    data ← json response;
    get data "job_id".

(** From the settling of [fetch] to the end (lines 105-130), for the k-th
    invocation. Nothing is written between the two awaits of this stretch, so
    it is taken in one go. *)
Definition handleSubmit_fetch (k : nat) (settled : Completion Response)
    (a : App) : App :=
  let a := set_calls (<[k := Returned]> (calls a)) a in
  match job_id_of settled with
  | Normal job_id => setJobId job_id a
  | Throw err => handleSubmit_catch err a
  end.

(** The "Start a new job" button (line 267). *)
Definition start_new_job (a : App) : App :=
  let a := setStatus idle a in
  let a := setUrl "" a in
  let a := setJobId JNull a in
  let a := setReport JNull a in
  setLogs [] a.

(** ** The event loop *)

(** What can happen to the mounted component: the user acts on the form, a
    promise that an invocation of [handleSubmit] awaits settles, or an
    EventSource fires. The download link carries no listener, so whatever
    becomes of a download reaches no handler and is no event. *)
Inductive Event : Type :=
| ChangeUrl (value : string)                    (* line 192 *)
| ChangeFile (file : option File)               (* lines 209, 224 *)
| Submit                                        (* line 178 *)
| StartNewJob                                   (* line 267 *)
| SessionSettled (k : nat) (settled : Completion (option Session))  (* line 98 *)
| FetchSettled (k : nat) (settled : Completion Response)      (* lines 105, 117, 125 *)
| Message (i : nat) (data : string)             (* a message on EventSource i *)
| ConnectionError (i : nat).                    (* an error on EventSource i *)

(** [disabled={status === 'loading' || status === 'success'}]
    (lines 196, 211, 226, 233) *)
Definition disabled (a : App) : bool :=
  bool_decide (status a = loading) || bool_decide (status a = success).

(** The handler an event runs, if any: form controls do nothing while
    disabled, the reset button exists only in status success, a promise
    settles once, and a closed EventSource dispatches nothing. *)
Definition handle (e : Event) (a : App) : App :=
  match e with
  | ChangeUrl value => if disabled a then a else setUrl value a
  | ChangeFile file => if disabled a then a else setResumeFile file a
  | Submit => if disabled a then a else handleSubmit a
  | StartNewJob =>
      if bool_decide (status a = success) then start_new_job a else a
  | SessionSettled k settled =>
      match calls a !! k with
      | Some (AtGetSession url resumeFile) =>
          handleSubmit_getSession k url resumeFile settled a
      | _ => a
      end
  | FetchSettled k settled =>
      match calls a !! k with
      | Some AtFetch => handleSubmit_fetch k settled a
      | _ => a
      end
  | Message i data =>
      match sources a !! i with
      | Some eventSource =>
          if es_closed eventSource then a
          else onmessage i (es_jobId eventSource) data a
      | None => a
      end
  | ConnectionError i => if is_open a i then onerror i a else a
  end.

(** The effects of the commit that follows a handler, given that the render
    in between succeeds (the render itself is [render], further down, and
    [mount_step] takes handler, render and effects in their order): the
    stream effect has [jobId] as its only dependency (line 78), so it runs
    again, after the cleanup of its previous run, exactly when [jobId]
    changed. An error thrown by the effect is caught by nothing. *)
Definition commit (before after : App) : Completion App :=
  if Nat.eqb (jobId_rev before) (jobId_rev after) then Normal after
  else stream_effect (run_cleanup after).

(** An event whose render succeeds: the handler, then the effects. Every
    state of the mounted component is reached by such steps ([tree_run]
    adds the render, and stops where it throws). *)
Definition step (a : App) (e : Event) : Completion App :=
  commit a (handle e a).

Fixpoint run (a : App) (events : list Event) : Completion App :=
  match events with
  | [] => Normal a
  | e :: events => a' ← step a e; run a' events
  end.

End Component.

(** ** Stream messages, as the claims speak of them *)

Section Envelopes.
Context `{Engine}.

(** The [type] of a message: the string in the [type] field of a payload
    that parses to an object. *)
Definition event_type (data : string) : option string :=
  match JSON_parse data with
  | Normal (JObject m) =>
      match m !! "type" with
      | Some (JString t) => Some t
      | _ => None
      end
  | _ => None
  end.

(** A field of a message ([undefined] when it is absent). *)
Definition event_field (data : string) (k : string) : JSValue :=
  match JSON_parse data with
  | Normal (JObject m) => default JUndefined (m !! k)
  | _ => JUndefined
  end.

(** A terminal message: a complete or an error event. *)
Definition terminal (data : string) : bool :=
  match event_type data with
  | Some t => String.eqb t "complete" || String.eqb t "error"
  | None => false
  end.

(** The lines of the log events among some messages, in order. *)
Definition log_lines (messages : list string) : list JSValue :=
  omap (fun data =>
          match event_type data with
          | Some t => if String.eqb t "log" then Some (event_field data "data")
                      else None
          | None => None
          end) messages.

(** The messages [messages] arriving on the i-th EventSource. *)
Definition on_stream (i : nat) (messages : list string) : list Event :=
  Message i <$> messages.

(** What the complete branch does after closing the stream (lines 51-58),
    as a function of its own: a click, or the catch of the handler when a
    conversion to a string throws. *)
Definition trigger_download (i : nat) (jobId filename : JSValue) (a : App) : App :=
  if truthy filename then
    match ToString jobId with
    | Normal id =>
        match ToString filename with
        | Normal name =>
            click {| dl_source := i;
                     href := API_URL ++ "/api/download-pdf/" ++ id;
                     download := name |} a
        | Throw err => console_error "SSE Parse logic error" err a
        end
    | Throw err => console_error "SSE Parse logic error" err a
    end
  else a.

(** The message of the local validation (line 83). *)
Definition validation_message : JSValue :=
  JString "Please provide both a Job URL and your base Resume PDF.".

(** An event of the i-th EventSource. *)
Definition on_source (i : nat) (e : Event) : Prop :=
  match e with
  | Message j _ | ConnectionError j => j = i
  | _ => False
  end.


(** Whether a value is an object with an own property [k]. *)
Definition has_property (v : JSValue) (k : string) : bool :=
  match v with
  | JObject m => bool_decide (is_Some (m !! k))
  | _ => false
  end.

(** The error message C8 names for a response that is not ok: the error
    field of the body when the body parses as JSON and carries one, and
    otherwise the message derived from the status. *)
Definition claimed_error_message (r : Response) : JSValue :=
  match json r with
  | Normal (JObject m) =>
      match m !! "error" with
      | Some e => e
      | None => JString ("Server error: " ++ statusText r)
      end
  | _ => JString ("Server error: " ++ statusText r)
  end.

(** ** Invariants of the reachable states *)

(** Only the EventSource the pending cleanup will close can be open, and it
    is open only while the status is loading. *)
Definition open_is_current (a : App) : Prop :=
  forall i, is_open a i = true -> cleanup a = Some i /\ status a = loading.

(** A cleanup is pending only for a job identifier that passed the guard of
    the effect. *)
Definition cleanup_has_job (a : App) : Prop :=
  forall i, cleanup a = Some i -> truthy (jobId a) = true.

(** Only the latest invocation of [handleSubmit] can still be running, and
    while it runs the state is the one its reset left. *)
Definition one_call (a : App) : Prop :=
  forall k c, calls a !! k = Some c -> c <> Returned ->
    S k = length (calls a) /\ status a = loading /\ jobId a = JNull /\
    errorMessage a = JString "" /\ logs a = [] /\ report a = JNull.

(** Every download was clicked by a different EventSource, closed since,
    and points at the job of that EventSource. *)
Definition downloads_ok (a : App) : Prop :=
  NoDup (dl_source <$> downloads a) /\
  forall d, d ∈ downloads a ->
    exists es id, sources a !! dl_source d = Some es /\ es_closed es = true /\
      ToString (es_jobId es) = Normal id /\
      href d = API_URL ++ "/api/download-pdf/" ++ id.

Record Inv (a : App) : Prop := {
  inv_open : open_is_current a;
  inv_cleanup : cleanup_has_job a;
  inv_calls : one_call a;
  inv_downloads : downloads_ok a;
}.

End Envelopes.

(** ** A concrete host, for running the component on examples *)

Module Demo.

(** JSON text, written out field by field. *)
Definition quoted (s : string) : string :=
  String (Ascii.ascii_of_nat 34) (s ++ String (Ascii.ascii_of_nat 34) "").

Definition field (k v : string) : string := quoted k ++ ":" ++ v.

Definition object (fields : list string) : string :=
  "{" ++ String.concat "," fields ++ "}".

Definition log_text (line : string) : string :=
  object [field "type" (quoted "log"); field "data" (quoted line)].

Definition log_value (line : string) : JSValue :=
  JObject (<["type" := JString "log"]> (<["data" := JString line]> ∅)).

Definition report_82 : JSValue :=
  JObject (<["match_score" := JNumber 82%float]>
          (<["chosen_keywords" := JArray [JString "SQL"]]>
          (<["missing_keywords" := JArray [JString "Go"]]> ∅))).

Definition complete_text : string :=
  object [field "type" (quoted "complete");
          field "report"
            (object [field "match_score" "82";
                     field "chosen_keywords" ("[" ++ quoted "SQL" ++ "]");
                     field "missing_keywords" ("[" ++ quoted "Go" ++ "]")]);
          field "filename" (quoted "tailored.pdf")].

Definition complete_value : JSValue :=
  JObject (<["type" := JString "complete"]>
          (<["report" := report_82]>
          (<["filename" := JString "tailored.pdf"]> ∅))).

Definition error_text (msg : string) : string :=
  object [field "type" (quoted "error"); field "data" (quoted msg)].

Definition error_value (msg : string) : JSValue :=
  JObject (<["type" := JString "error"]> (<["data" := JString msg]> ∅)).

Definition job_text (id : string) : string :=
  object [field "job_id" (quoted id)].

Definition job_value (id : string) : JSValue :=
  JObject (<["job_id" := JString id]> ∅).

Definition quota_text : string :=
  object [field "error" (quoted "quota exceeded")].

Definition quota_value : JSValue :=
  JObject (<["error" := JString "quota exceeded"]> ∅).

(** The texts the demo parser knows; anything else is a syntax error. *)
Definition known : list (string * JSValue) :=
  [ (log_text "parsing", log_value "parsing");
    (log_text "scoring", log_value "scoring");
    (complete_text, complete_value);
    (error_text "upstream timeout", error_value "upstream timeout");
    (job_text "abc", job_value "abc");
    (quota_text, quota_value);
    ("null", JNull);
    ("{}", JObject ∅) ].

Definition syntax_error : JSError :=
  {| err_name := "SyntaxError"; err_message := "Unexpected token" |}.

Definition type_error (msg : string) : JSError :=
  {| err_name := "TypeError"; err_message := msg |}.

Definition parse (text : string) : Completion JSValue :=
  match list_find (fun entry => String.eqb (fst entry) text = true) known with
  | Some (_, (_, v)) => Normal v
  | None => Throw syntax_error
  end.

Definition engine : Engine :=
  {| JSON_parse := parse;
     (* the examples convert no number to a string *)
     Number_toString := fun _ => "0";
     null_read_error := fun _ k =>
       type_error ("Cannot read properties of null (reading '" ++ k ++ "')");
     to_primitive_error := type_error "Cannot convert object to primitive value";
     EventSource_ctor := fun _ => Normal tt;
     VITE_API_URL := Some "https://api.example" |}.

Definition resume_pdf : File :=
  {| file_name := "resume.pdf"; file_bytes := [] |}.

Definition response (code : Z) (text : string) (body : string) : Response :=
  {| res_status := code; statusText := text; json := parse body |}.

(** Filling the form, submitting it, an anonymous session and the request
    going out. *)
Definition submitted : list Event :=
  [ ChangeUrl "https://x"; ChangeFile (Some resume_pdf); Submit;
    SessionSettled 0 (Normal None) ].

(** ... and the server answering with the job identifier abc. *)
Definition started : list Event :=
  submitted ++ [ FetchSettled 0 (Normal (response 200 "OK" (job_text "abc"))) ].

(** The state a run from the initial state ends in. *)
Definition state_after (events : list Event) : App :=
  match @run engine initial events with
  | Normal a => a
  | Throw _ => initial
  end.

End Demo.

(** ** Further invariants of the lifecycle *)

Section Lifecycle.
Context `{Engine}.

(** Whether an invocation of [handleSubmit] is suspended at an await. *)
Definition running (c : HandleSubmit) : bool :=
  match c with
  | Returned => false
  | _ => true
  end.

Definition has_pending (a : App) : bool := existsb running (calls a).

(** Whether some EventSource is open. *)
Definition any_open (a : App) : bool :=
  existsb (fun es => negb (es_closed es)) (sources a).

(** The arrows of the status machine: what one event can make of the
    status. *)
Definition transition (s s' : JobStatus) : bool :=
  match s, s' with
  | idle, idle | idle, loading | idle, error => true
  | loading, loading | loading, success | loading, error => true
  | success, success | success, idle => true
  | error, error | error, loading => true
  | _, _ => false
  end.

(** What every [fetch] of the component looks like (lines 105-112). *)
Definition request_ok (r : Request) : Prop :=
  req_method r = "POST" /\
  req_url r = API_URL ++ "/api/start-optimization" /\
  req_form_url r <> "" /\
  (req_authorization r = None \/
   exists token, token <> "" /\ req_authorization r = Some ("Bearer " ++ token)).

(** The status says what the other cells hold. *)
Definition idle_is_clean (a : App) : Prop :=
  status a = idle ->
  logs a = [] /\ report a = JNull /\ jobId a = JNull /\
  errorMessage a = JString "".

Definition report_with_success (a : App) : Prop :=
  if bool_decide (status a = success) then truthy (report a) = true
  else report a = JNull.

Definition success_has_job (a : App) : Prop :=
  status a = success -> errorMessage a = JString "" /\ is_Some (cleanup a).

Definition loading_has_cause (a : App) : Prop :=
  status a = loading ->
  errorMessage a = JString "" /\
  (has_pending a = true \/ any_open a = true \/ truthy (jobId a) = false).

(** The EventSource of the pending cleanup was made for the current job
    identifier. *)
Definition cleanup_is_current (a : App) : Prop :=
  forall i, cleanup a = Some i ->
    exists es id, sources a !! i = Some es /\ es_jobId es = jobId a /\
      ToString (jobId a) = Normal id /\
      es_url es = API_URL ++ "/api/stream-job/" ++ id.

(** Requests go out one per invocation, after the session settled. *)
Definition requests_follow_calls (a : App) : Prop :=
  Forall request_ok (requests a) /\
  length (requests a) <= length (calls a) /\
  forall k url file, calls a !! k = Some (AtGetSession url file) ->
    url <> "" /\ length (requests a) <= k.

Record Inv2 (a : App) : Prop := {
  inv_idle : idle_is_clean a;
  inv_report : report_with_success a;
  inv_success : success_has_job a;
  inv_loading : loading_has_cause a;
  inv_current : cleanup_is_current a;
  inv_requests : requests_follow_calls a;
}.

End Lifecycle.

(** ** What the component renders (lines 133-137, 256-331) *)

Section Rendering.
Context `{Engine}.

(** [getGridCols] (lines 133-137) *)
Definition getGridCols (a : App) : string :=
  if bool_decide (status a = success) then "grid-cols-1 lg:grid-cols-3"
  else if bool_decide (status a = loading) then "grid-cols-1 lg:grid-cols-2"
  else "grid-cols-1 max-w-2xl mx-auto".

(** The conditions under which the boxes are rendered: the error box
    (line 256), the log panel (line 275), the note in the empty log panel
    (line 284) and the report card (line 296). The form is always there. *)
Definition error_box_visible (a : App) : bool :=
  bool_decide (status a = error).

Definition log_panel_visible (a : App) : bool :=
  bool_decide (status a = loading) || bool_decide (status a = success)
  || (bool_decide (status a = error) && Nat.ltb 0 (length (logs a))).

Definition waiting_note_visible (a : App) : bool :=
  Nat.eqb (length (logs a)) 0 && bool_decide (status a = loading).

Definition report_card_visible (a : App) : bool :=
  bool_decide (status a = success).

(** The boxes in the grid: the form, the log panel, the report card. *)
Definition boxes (a : App) : nat :=
  (1 + (if log_panel_visible a then 1 else 0)
     + (if report_card_visible a then 1 else 0))%nat.

(** [v?.k], for the property names of a report ([match_score], [error],
    [raw], [chosen_keywords], [missing_keywords]): [undefined] for [null] and
    [undefined], and for the other values what [v.k] gives. *)
Definition get_optional (v : JSValue) (k : string) : JSValue :=
  match v with
  | JObject m => default JUndefined (m !! k)
  | _ => JUndefined
  end.

(** [report?.match_score || '-'] (line 309) *)
Definition match_score_shown (report : JSValue) : JSValue :=
  js_or (get_optional report "match_score") (JString "-").

(** [report?.error || report?.raw] (line 314): whether the raw output is
    shown in place of the keyword lists. *)
Definition raw_output_shown (report : JSValue) : bool :=
  truthy (js_or (get_optional report "error") (get_optional report "raw")).

(** [report.raw || report.error] (line 317), evaluated when the raw output
    is shown. *)
Definition raw_output (report : JSValue) : Completion JSValue :=
  raw ← get report "raw";
  if truthy raw then Normal raw else get report "error".

End Rendering.

Section RenderingLists.
Context `{Engine}.
(** [String.prototype.toLowerCase], and the [TypeError] of calling a property
    that is no function. *)
Variable toLowerCase : string -> string.
Variable not_a_function : JSValue -> string -> JSError.

(** [s.includes(sub)] *)
Fixpoint includes (s sub : string) : bool :=
  String.prefix sub s ||
  match s with
  | EmptyString => false
  | String _ rest => includes rest sub
  end.

(** The class of a log line (line 288):
    [log.toLowerCase().includes('error') ? 'text-rose-400' : ''].
    Only a string has [toLowerCase]. *)
Definition log_class (log : JSValue) : Completion string :=
  match log with
  | JString s =>
      Normal (if includes (toLowerCase s) "error" then "text-rose-400" else "")
  | JUndefined | JNull => Throw (null_read_error log "toLowerCase")
  | _ => Throw (not_a_function log "toLowerCase")
  end.

(** [logs.map(...)] (lines 287-289): the classes of the lines, in order. *)
Fixpoint log_classes (logs : list JSValue) : Completion (list string) :=
  match logs with
  | [] => Normal []
  | log :: logs =>
      c ← log_class log; cs ← log_classes logs; Normal (c :: cs)
  end.

(** [report?.k?.map(kw => chip) || placeholder] (lines 327-331, 340-344):
    the keywords that get a chip, or [None] for the placeholder "None".
    Only an array has [map]; the array of chips is truthy even when empty. *)
Definition keyword_chips (report : JSValue) (k : string)
    : Completion (option (list JSValue)) :=
  match get_optional report k with
  | JUndefined | JNull => Normal None
  | JArray kws => Normal (Some kws)
  | v => Throw (not_a_function v "map")
  end.

End RenderingLists.

(** ** The login form (frontend/src/Login.tsx) *)

Module Login.

(** The two calls to the identity provider (lines 21, 28). *)
Inductive AuthMethod : Type := signUp | signInWithPassword.

Record AuthCall : Type := {
  call_method : AuthMethod;
  call_email : string;
  call_password : string;
}.

(** An invocation of the async [handleAuth]: suspended at its await, in the
    branch that [isSignUp] chose when it was called, or finished. *)
Inductive HandleAuth : Type :=
| AtAuth (method : AuthMethod)
| Finished.

Record State : Type := {
  (* useState cells, lines 6-11 *)
  isSignUp : bool;
  email : string;
  password : string;
  loading : bool;
  errorMsg : string;
  successMsg : string;
  (* the calls made to the identity provider, oldest first, and the
     invocations of handleAuth *)
  auth_calls : list AuthCall;
  invocations : list HandleAuth;
}.

Definition initial : State :=
  {| isSignUp := false; email := ""; password := ""; loading := false;
     errorMsg := ""; successMsg := ""; auth_calls := []; invocations := [] |}.

Definition setIsSignUp (v : bool) (s : State) : State :=
  {| isSignUp := v; email := email s; password := password s;
     loading := loading s; errorMsg := errorMsg s; successMsg := successMsg s;
     auth_calls := auth_calls s; invocations := invocations s |}.

Definition setEmail (v : string) (s : State) : State :=
  {| isSignUp := isSignUp s; email := v; password := password s;
     loading := loading s; errorMsg := errorMsg s; successMsg := successMsg s;
     auth_calls := auth_calls s; invocations := invocations s |}.

Definition setPassword (v : string) (s : State) : State :=
  {| isSignUp := isSignUp s; email := email s; password := v;
     loading := loading s; errorMsg := errorMsg s; successMsg := successMsg s;
     auth_calls := auth_calls s; invocations := invocations s |}.

Definition setLoading (v : bool) (s : State) : State :=
  {| isSignUp := isSignUp s; email := email s; password := password s;
     loading := v; errorMsg := errorMsg s; successMsg := successMsg s;
     auth_calls := auth_calls s; invocations := invocations s |}.

Definition setErrorMsg (v : string) (s : State) : State :=
  {| isSignUp := isSignUp s; email := email s; password := password s;
     loading := loading s; errorMsg := v; successMsg := successMsg s;
     auth_calls := auth_calls s; invocations := invocations s |}.

Definition setSuccessMsg (v : string) (s : State) : State :=
  {| isSignUp := isSignUp s; email := email s; password := password s;
     loading := loading s; errorMsg := errorMsg s; successMsg := v;
     auth_calls := auth_calls s; invocations := invocations s |}.

Definition set_auth_calls (v : list AuthCall) (s : State) : State :=
  {| isSignUp := isSignUp s; email := email s; password := password s;
     loading := loading s; errorMsg := errorMsg s; successMsg := successMsg s;
     auth_calls := v; invocations := invocations s |}.

Definition set_invocations (v : list HandleAuth) (s : State) : State :=
  {| isSignUp := isSignUp s; email := email s; password := password s;
     loading := loading s; errorMsg := errorMsg s; successMsg := successMsg s;
     auth_calls := auth_calls s; invocations := v |}.

(** [handleAuth] up to its await (lines 13-31): the call goes out with the
    email and the password of this render. *)
Definition handleAuth (s : State) : State :=
  let method := if isSignUp s then signUp else signInWithPassword in
  let call := {| call_method := method; call_email := email s;
                 call_password := password s |} in
  let s := setLoading true s in
  let s := setErrorMsg "" s in
  let s := setSuccessMsg "" s in
  let s := set_auth_calls (auth_calls s ++ [call]) s in
  set_invocations (invocations s ++ [AtAuth method]) s.

(** What the provider's promise settles to: [{ error }] with [error] null
    or an error object, or a rejection. *)
Definition AuthResult : Type := Completion (option JSError).

(** [handleAuth] from its await on (lines 21-39), for the k-th invocation:
    an error, returned or thrown, goes to the [catch]; [finally] ends the
    loading. *)
Definition handleAuth_settled (k : nat) (method : AuthMethod)
    (settled : AuthResult) (s : State) : State :=
  let s := set_invocations (<[k := Finished]> (invocations s)) s in
  let s :=
    match settled with
    | Normal None =>
        match method with
        | signUp => setSuccessMsg "Check your email for the confirmation link!" s
        | signInWithPassword => s
        end
    | Normal (Some err) => setErrorMsg (err_message err) s
    | Throw err => setErrorMsg (err_message err) s
    end in
  setLoading false s.

Inductive Event : Type :=
| ChangeEmail (value : string)          (* line 72 *)
| ChangePassword (value : string)       (* line 87 *)
| Toggle                                (* line 123 *)
| Submit                                (* line 62 *)
| Settled (k : nat) (settled : AuthResult).

(** The handler of an event: the submit button is disabled while loading
    (line 110); the fields and the toggle never are. [Submit] is the submit
    event of the form reaching [handleAuth]: a submission the browser turns
    down itself (both fields are required, line 74 and 89) is no event. *)
Definition step (s : State) (e : Event) : State :=
  match e with
  | ChangeEmail value => setEmail value s
  | ChangePassword value => setPassword value s
  | Toggle => setIsSignUp (negb (isSignUp s)) s
  | Submit => if loading s then s else handleAuth s
  | Settled k settled =>
      match invocations s !! k with
      | Some (AtAuth method) => handleAuth_settled k method settled s
      | _ => s
      end
  end.

Definition run (s : State) (events : list Event) : State :=
  foldl step s events.

(** Typing into the fields or switching the mode. *)
Definition is_edit (e : Event) : bool :=
  match e with
  | ChangeEmail _ | ChangePassword _ | Toggle => true
  | _ => false
  end.

Definition confirmation : string :=
  "Check your email for the confirmation link!".

(** An invocation is suspended exactly while [loading] is set; it is the
    latest one, and both messages are empty then. The messages never show
    together, and each invocation made one call. *)
Record Inv (s : State) : Prop := {
  inv_loading :
    loading s = true -> exists method, last (invocations s) = Some (AtAuth method);
  inv_pending :
    forall k method, invocations s !! k = Some (AtAuth method) ->
      S k = length (invocations s) /\ loading s = true /\
      errorMsg s = "" /\ successMsg s = "";
  inv_messages :
    (errorMsg s = "" \/ successMsg s = "") /\
    (successMsg s = "" \/ successMsg s = confirmation);
  inv_calls : length (auth_calls s) = length (invocations s);
}.

End Login.

(** ** More examples for the concrete host *)

Module Demo2.

(** A log event without a data field, and a complete event whose list of
    chosen keywords is a string. *)
Definition bare_log_text : string :=
  Demo.object [Demo.field "type" (Demo.quoted "log")].

Definition bare_log_value : JSValue :=
  JObject (<["type" := JString "log"]> ∅).

Definition odd_report : gmap string JSValue :=
  <["match_score" := JNumber 0%float]>
  (<["chosen_keywords" := JString "SQL"]>
  (<["missing_keywords" := JArray []]> ∅)).

Definition odd_complete_text : string :=
  Demo.object
    [Demo.field "type" (Demo.quoted "complete");
     Demo.field "report"
       (Demo.object [Demo.field "match_score" "0";
                     Demo.field "chosen_keywords" (Demo.quoted "SQL");
                     Demo.field "missing_keywords" "[]"])].

Definition odd_complete_value : JSValue :=
  JObject (<["type" := JString "complete"]>
          (<["report" := JObject odd_report]> ∅)).

Definition parse (text : string) : Completion JSValue :=
  if String.eqb text bare_log_text then Normal bare_log_value
  else if String.eqb text odd_complete_text then Normal odd_complete_value
  else Demo.parse text.

Definition engine : Engine :=
  {| JSON_parse := parse;
     Number_toString := @Number_toString Demo.engine;
     null_read_error := @null_read_error Demo.engine;
     to_primitive_error := @to_primitive_error Demo.engine;
     EventSource_ctor := @EventSource_ctor Demo.engine;
     VITE_API_URL := @VITE_API_URL Demo.engine |}.

Definition state_after (events : list Event) : App :=
  match @run engine initial events with
  | Normal a => a
  | Throw _ => initial
  end.

(** For text that is in lower case already. *)
Definition toLowerCase (s : string) : string := s.

Definition not_a_function (v : JSValue) (k : string) : JSError :=
  Demo.type_error (k ++ " is not a function").

(** A job identifier that does not convert to a string. *)
Definition odd_job : JSValue :=
  JObject (<["job_id" := JObject (<["toString" := JNull]> ∅)]> ∅).

Definition odd_job_response : Response :=
  {| res_status := 200; statusText := "OK"; json := Normal odd_job |}.

(** The report of scenario E of the specification. *)
Definition fallback_report : JSValue :=
  JObject (<["error" := JString "bad json"]> (<["raw" := JString "{...}"]> ∅)).

(** A stream that failed after one log line. *)
Definition failed : list Event :=
  Demo.started ++
  [ Message 0 (Demo.log_text "parsing");
    Message 0 (Demo.error_text "upstream timeout") ].

(** A job that completed. *)
Definition completed : list Event :=
  Demo.started ++ [ Message 0 Demo.complete_text ].

Definition failed_to_fetch : JSError := Demo.type_error "Failed to fetch".

(** The login form switched to sign-up, with credentials typed in. *)
Definition signing_up : Login.State :=
  Login.run Login.initial
    [ Login.Toggle; Login.ChangeEmail "a@b.c"; Login.ChangePassword "secret" ].

End Demo2.

(** ** The render, and what becomes of the tree *)

(** Whether a value is a string. *)
Definition is_string (v : JSValue) : bool :=
  match v with
  | JString _ => true
  | _ => false
  end.

(** What React accepts as a child of an element: strings and numbers are
    text, booleans, [null] and [undefined] render nothing, an array is laid
    out element by element, and an object (a parsed one is never an element)
    makes React throw. *)
Fixpoint valid_child (v : JSValue) : bool :=
  match v with
  | JObject _ => false
  | JArray l => forallb valid_child l
  | _ => true
  end.

(** Unmounting the component runs the cleanup of the stream effect
    (lines 75-77). *)
Definition unmount (a : App) : App := run_cleanup a.

(** An open connection is the one the pending cleanup of the effect will
    close. *)
Definition open_is_registered (a : App) : Prop :=
  forall i, is_open a i = true -> cleanup a = Some i.

(** The component in the page: mounted with its state, or unmounted by an
    error that nothing caught (main.tsx sets up no error boundary), with what
    the state was then. *)
Inductive Tree : Type :=
| Mounted (a : App)
| Unmounted (a : App) (err : JSError).

Definition tree_state (t : Tree) : App :=
  match t with
  | Mounted a => a
  | Unmounted a _ => a
  end.

Definition is_mounted (t : Tree) : bool :=
  match t with
  | Mounted _ => true
  | Unmounted _ _ => false
  end.

Section Tree.
Context `{Engine}.
(** [String.prototype.toLowerCase], the [TypeError] of calling a property
    that is no function, and the error React throws for an object among the
    children of an element. *)
Variable toLowerCase : string -> string.
Variable not_a_function : JSValue -> string -> JSError.
Variable invalid_child : JSValue -> JSError.

(** React laying out a value put between tags, [{v}]. *)
Definition child (v : JSValue) : Completion unit :=
  if valid_child v then Normal tt else Throw (invalid_child v).

Fixpoint children (l : list JSValue) : Completion unit :=
  match l with
  | [] => Normal tt
  | v :: l => _ ← child v; children l
  end.

(** The expressions of the report card (lines 309-344), in the order of
    the JSX: the score, then the raw output or the two keyword lists. The
    result lists the values that end up between tags; the placeholder of an
    absent keyword list is a literal. *)
Definition report_card (report : JSValue) : Completion (list JSValue) :=
  let score := match_score_shown report in
  if raw_output_shown report then
    raw ← raw_output report;
    Normal [score; raw]
  else
    chosen ← keyword_chips not_a_function report "chosen_keywords";
    missing ← keyword_chips not_a_function report "missing_keywords";
    Normal (score :: default [] chosen ++ default [] missing)%list.

(** Rendering the component in the state [a] (lines 139-352): first the
    body of [App] evaluates the JSX, where the classes of the log lines
    (line 288) and the keyword lists (lines 327, 340) can throw; then React
    lays out the elements, where the error message (line 261) and the values
    of the report card must be valid children. The log lines are strings once
    their classes are computed. Nothing else of the JSX depends on a value
    that came over the network. *)
Definition render (a : App) : Completion unit :=
  _ ← (if log_panel_visible a
       then log_classes toLowerCase not_a_function (logs a) else Normal []);
  card ← (if report_card_visible a then report_card (report a) else Normal []);
  _ ← (if error_box_visible a then child (errorMessage a) else Normal tt);
  children card.

(** An event on the mounted component: the handler runs (its state updates
    are batched), React renders the new state, and the effects of that
    render run ([commit]). An error thrown by the render or by the effect
    unmounts the tree; the effect that throws has changed nothing by then,
    and its previous cleanup has run. Where no cell changed React may skip
    the render: its outcome is then that of the render before, the render
    being a function of the state. *)
Definition mount_step (a : App) (e : Event) : Tree :=
  let b := handle e a in
  match render b with
  | Normal _ =>
      match commit a b with
      | Normal a' => Mounted a'
      | Throw err => Unmounted (unmount b) err
      end
  | Throw err => Unmounted (unmount b) err
  end.

(** An event after the unmount: the form is gone and the state setters do
    nothing any more, but a promise still settles and an EventSource that
    nobody closed still fires, and their handlers still act on what is
    around the component. *)
Definition after_unmount (e : Event) (a : App) : App :=
  match e with
  | ChangeUrl _ | ChangeFile _ | Submit | StartNewJob => a
  | _ =>
      let b := handle e a in
      set_console (console b)
        (set_downloads (downloads b)
           (set_requests (requests b)
              (set_calls (calls b) (set_sources (sources b) a))))
  end.

Definition tree_step (t : Tree) (e : Event) : Tree :=
  match t with
  | Mounted a => mount_step a e
  | Unmounted a err => Unmounted (after_unmount e a) err
  end.

Definition tree_run (t : Tree) (events : list Event) : Tree :=
  foldl tree_step t events.

End Tree.

(** ** Envelopes outside their type, a second job, and a state for the
    cleanup *)

Module Demo3.

(** An error event without data, one with empty data, and one whose data is
    an object. *)
Definition bare_error_text : string :=
  Demo.object [Demo.field "type" (Demo.quoted "error")].

Definition bare_error_value : JSValue :=
  JObject (<["type" := JString "error"]> ∅).

Definition object_error_text : string :=
  Demo.object
    [Demo.field "type" (Demo.quoted "error");
     Demo.field "data" (Demo.object [Demo.field "code" "1"])].

Definition object_error_value : JSValue :=
  JObject (<["type" := JString "error"]>
          (<["data" := JObject (<["code" := JNumber 1%float]> ∅)]> ∅)).

Definition parse (text : string) : Completion JSValue :=
  if String.eqb text bare_error_text then Normal bare_error_value
  else if String.eqb text (Demo.error_text "") then Normal (Demo.error_value "")
  else if String.eqb text object_error_text then Normal object_error_value
  else Demo2.parse text.

Definition engine : Engine :=
  {| JSON_parse := parse;
     Number_toString := @Number_toString Demo.engine;
     null_read_error := @null_read_error Demo.engine;
     to_primitive_error := @to_primitive_error Demo.engine;
     EventSource_ctor := @EventSource_ctor Demo.engine;
     VITE_API_URL := @VITE_API_URL Demo.engine |}.

(** The error of React for an object among the children. *)
Definition invalid_child (v : JSValue) : JSError :=
  {| err_name := "Error";
     err_message := "Objects are not valid as a React child" |}.

(** The tree of this host, and what it is after some events on the freshly
    mounted component. *)
Definition run_tree (t : Tree) (events : list Event) : Tree :=
  @tree_run engine Demo2.toLowerCase Demo2.not_a_function invalid_child
    t events.

Definition step_tree (a : App) (e : Event) : Tree :=
  @mount_step engine Demo2.toLowerCase Demo2.not_a_function invalid_child a e.

Definition tree_after (events : list Event) : Tree :=
  run_tree (Mounted initial) events.

Definition state_after (events : list Event) : App :=
  match @run engine initial events with
  | Normal a => a
  | Throw _ => initial
  end.

(** The job abc started, its stream open. *)
Definition started : App := state_after Demo.started.

(** The server answering the job-start request with a job identifier. *)
Definition job_response (id : string) : Response :=
  {| res_status := 200; statusText := "OK"; json := Normal (Demo.job_value id) |}.


(** A state the component does not reach by itself: the stream of job abc
    is open while the answer to a job-start request is still awaited. *)
Definition racing : App :=
  set_calls [AtFetch] (Demo.state_after Demo.started).

(** ... and the answer arriving, with the job identifier xyz. *)
Definition answered : Event :=
  FetchSettled 0 (Normal (job_response "xyz")).

(** Answers to the job-start request that are not ok: the error field is an
    object, or an object with a [toString] property. *)
Definition rejected (error : JSValue) : Response :=
  {| res_status := 500; statusText := "Internal Server Error";
     json := Normal (JObject (<["error" := error]> ∅)) |}.

Definition coded_error : JSValue :=
  JObject (<["code" := JNumber 1%float]> ∅).

Definition opaque_error : JSValue :=
  JObject (<["toString" := JNull]> ∅).

End Demo3.

(** * Properties *)

Section Properties.
Context `{Engine}.

(** ** The message handler, case by case *)

Ltac unfold_handler :=
  unfold onmessage, trigger_download, Handler.try_catch, Handler.bind,
    Handler.eval, Handler.exec, Handler.ret.

Lemma onmessage_malformed i j data a err :
  JSON_parse data = Throw err ->
  onmessage i j data a = console_error "SSE Parse logic error" err a.
Proof. intros Hp. unfold_handler. by rewrite Hp. Qed.

Lemma onmessage_log i j data a :
  event_type data = Some "log" ->
  onmessage i j data a = setLogs (logs a ++ [event_field data "data"]) a.
Proof.
  unfold event_type, event_field. unfold_handler.
  destruct (JSON_parse data) as [[]|]; try done.
  simpl. destruct (m !! "type") as [[]|]; try done.
  by intros [= ->].
Qed.

Lemma onmessage_complete i j data a :
  event_type data = Some "complete" ->
  onmessage i j data a =
  trigger_download i j (event_field data "filename")
    (close i (setStatus success (setReport
      (js_or (event_field data "report") (JObject ∅)) a))).
Proof.
  unfold event_type, event_field. unfold_handler.
  destruct (JSON_parse data) as [[]|]; try done.
  simpl. destruct (m !! "type") as [[]|]; try done.
  intros [= ->]. simpl.
  destruct (truthy _); [|done].
  destruct (ToString j); [|done]. simpl.
  by destruct (ToString _).
Qed.

Lemma onmessage_error i j data a :
  event_type data = Some "error" ->
  onmessage i j data a =
  close i (setStatus error (setErrorMessage
    (js_or (event_field data "data") (JString "Unknown error during streaming"))
    a)).
Proof.
  unfold event_type, event_field. unfold_handler.
  destruct (JSON_parse data) as [[]|]; try done.
  simpl. destruct (m !! "type") as [[]|]; try done.
  by intros [= ->].
Qed.

(** Any other payload is ignored, or dropped with a line on the console. *)
Lemma onmessage_other i j data a :
  terminal data = false -> log_lines [data] = [] ->
  onmessage i j data a = a \/
  exists err, onmessage i j data a = console_error "SSE Parse logic error" err a.
Proof.
  unfold terminal, log_lines, event_type. unfold_handler. simpl.
  destruct (JSON_parse data) as [[]|]; simpl; eauto.
  destruct (m !! "type") as [[]|]; simpl; eauto.
  intros [Hc He]%orb_false_elim Hl.
  destruct (String.eqb s "log"); [done|]. rewrite Hc, He. eauto.
Qed.

Lemma terminal_complete data : event_type data = Some "complete" -> terminal data = true.
Proof. unfold terminal. by intros ->. Qed.

Lemma terminal_error data : event_type data = Some "error" -> terminal data = true.
Proof. unfold terminal. by intros ->. Qed.

Lemma log_lines_log data :
  event_type data = Some "log" -> log_lines [data] = [event_field data "data"].
Proof. unfold log_lines. simpl. by intros ->. Qed.

(** The case analysis that the handler makes, as a proof rule. *)
Lemma onmessage_cases (P : App -> Prop) i j data a :
  (event_type data = Some "log" ->
   P (setLogs (logs a ++ [event_field data "data"]) a)) ->
  (event_type data = Some "complete" ->
   P (trigger_download i j (event_field data "filename")
        (close i (setStatus success (setReport
           (js_or (event_field data "report") (JObject ∅)) a))))) ->
  (event_type data = Some "error" ->
   P (close i (setStatus error (setErrorMessage
        (js_or (event_field data "data")
           (JString "Unknown error during streaming")) a)))) ->
  (terminal data = false -> log_lines [data] = [] -> P a) ->
  (forall err, terminal data = false -> log_lines [data] = [] ->
   P (console_error "SSE Parse logic error" err a)) ->
  P (onmessage i j data a).
Proof.
  intros Hlog Hcomplete Herror Hignored Hdropped.
  destruct (event_type data) as [t|] eqn:Ht.
  - destruct (String.eqb_spec t "log") as [->|Hl].
    { rewrite onmessage_log by done. auto. }
    destruct (String.eqb_spec t "complete") as [->|Hc].
    { rewrite onmessage_complete by done. auto. }
    destruct (String.eqb_spec t "error") as [->|He].
    { rewrite onmessage_error by done. auto. }
    apply String.eqb_neq in Hl, Hc, He.
    assert (terminal data = false) as Hterm
      by (unfold terminal; by rewrite Ht, Hc, He).
    assert (log_lines [data] = []) as Hnone
      by (unfold log_lines; simpl; by rewrite Ht, Hl).
    destruct (onmessage_other i j data a Hterm Hnone) as [->|[err ->]]; auto.
  - assert (terminal data = false) as Hterm by (unfold terminal; by rewrite Ht).
    assert (log_lines [data] = []) as Hnone
      by (unfold log_lines; simpl; by rewrite Ht).
    destruct (onmessage_other i j data a Hterm Hnone) as [->|[err ->]]; auto.
Qed.

Lemma trigger_download_frame i j filename a :
  let a' := trigger_download i j filename a in
  status a' = status a /\ report a' = report a /\ logs a' = logs a /\
  errorMessage a' = errorMessage a /\ sources a' = sources a.
Proof. simpl. unfold trigger_download. by repeat case_match. Qed.

(** A message handler writes neither the job identifier nor anything the
    submission owns. *)
Lemma onmessage_frame i j data a :
  let a' := onmessage i j data a in
  jobId a' = jobId a /\ jobId_rev a' = jobId_rev a /\ cleanup a' = cleanup a /\
  calls a' = calls a /\ requests a' = requests a /\ url a' = url a /\
  resumeFile a' = resumeFile a.
Proof.
  simpl. apply onmessage_cases; intros; try done.
  unfold trigger_download. by repeat case_match.
Qed.

(** It leaves the EventSources alone, or closes its own. *)
Lemma onmessage_sources i j data a :
  sources (onmessage i j data a) = sources a \/
  sources (onmessage i j data a) = alter close_source i (sources a).
Proof.
  apply onmessage_cases; intros; auto.
  right. by destruct (trigger_download_frame i j (event_field data "filename")
    (close i (setStatus success (setReport
       (js_or (event_field data "report") (JObject ∅)) a))))
    as (_ & _ & _ & _ & ->).
Qed.

(** ** Open connections, the cleanup and the effect *)

Lemma is_open_sources a b i :
  sources a = sources b -> is_open a i = is_open b i.
Proof. unfold is_open. by intros ->. Qed.

Lemma is_open_lookup a i es :
  sources a !! i = Some es -> es_closed es = false -> is_open a i = true.
Proof. unfold is_open. by intros -> ->. Qed.

Lemma is_open_inv a i :
  is_open a i = true ->
  exists es, sources a !! i = Some es /\ es_closed es = false.
Proof.
  unfold is_open. destruct (sources a !! i) as [es|]; [|done].
  intros Hc%negb_true_iff. eauto.
Qed.

Lemma is_open_close i a j :
  is_open (close i a) j = is_open a j && negb (Nat.eqb i j).
Proof.
  unfold is_open, close. simpl.
  destruct (Nat.eqb_spec i j) as [->|Hne].
  - rewrite list_lookup_alter_eq. destruct (sources a !! j); simpl; [|done].
    by rewrite andb_false_r.
  - rewrite list_lookup_alter_ne by done.
    destruct (sources a !! j); simpl; [|done]. by rewrite andb_true_r.
Qed.

Lemma is_open_close_same i a : is_open (close i a) i = false.
Proof. rewrite is_open_close, Nat.eqb_refl. apply andb_false_r. Qed.

Lemma is_open_alter_close a b i j :
  sources b = alter close_source j (sources a) ->
  is_open b i = true -> is_open a i = true.
Proof.
  intros Hs. rewrite (is_open_sources b (close j a)) by done.
  rewrite is_open_close. by intros [? _]%andb_true_iff.
Qed.

Lemma Object_is_null x : Object_is x JNull = true -> x = JNull.
Proof. by destruct x. Qed.

Lemma run_cleanup_eq a :
  run_cleanup a = set_cleanup None (set_sources (sources (run_cleanup a)) a).
Proof.
  destruct a as [? ? ? ? ? ? ? ? ? cl ? ? ? ?]. unfold run_cleanup. simpl.
  by destruct cl.
Qed.

Lemma run_cleanup_closes a :
  (forall i, is_open a i = true -> cleanup a = Some i) ->
  forall i, is_open (run_cleanup a) i = false.
Proof.
  intros Hopen i. unfold run_cleanup.
  destruct (cleanup a) as [c|] eqn:Hc.
  - change (is_open (close c a) i = false). rewrite is_open_close.
    destruct (is_open a i) eqn:Hi; [|done].
    apply Hopen in Hi. simplify_eq. by rewrite Nat.eqb_refl.
  - destruct (is_open a i) eqn:Hi; [|done]. apply Hopen in Hi. congruence.
Qed.

Lemma run_cleanup_sources a i es :
  sources a !! i = Some es -> es_closed es = true ->
  sources (run_cleanup a) !! i = Some es.
Proof.
  intros Hi Hc. unfold run_cleanup. destruct (cleanup a) as [c|]; [|done].
  simpl. destruct (decide (c = i)) as [->|Hne].
  - rewrite list_lookup_alter_eq, Hi. simpl. f_equal.
    destruct es. simpl in *. by subst.
  - by rewrite list_lookup_alter_ne.
Qed.

Lemma run_cleanup_length a :
  length (sources (run_cleanup a)) = length (sources a).
Proof.
  unfold run_cleanup. destruct (cleanup a); [|done]. simpl. apply length_alter.
Qed.

Lemma commit_unchanged b a :
  jobId_rev b = jobId_rev a -> commit b a = Normal a.
Proof. intros Hr. unfold commit. by rewrite Hr, Nat.eqb_refl. Qed.

Lemma commit_changed b a :
  jobId_rev b <> jobId_rev a -> commit b a = stream_effect (run_cleanup a).
Proof.
  intros Hr. unfold commit.
  by destruct (Nat.eqb_spec (jobId_rev b) (jobId_rev a)).
Qed.

(** The effect opens nothing, or one EventSource for a truthy job
    identifier. *)
Lemma stream_effect_sources a a' :
  stream_effect a = Normal a' ->
  sources a' = sources a \/
  (truthy (jobId a) = true /\
   exists es, es_closed es = false /\ es_jobId es = jobId a /\
     sources a' = (sources a ++ [es])%list).
Proof.
  unfold stream_effect. destruct (truthy (jobId a)); simpl.
  2:{ intros [= <-]. by left. }
  case_bool_decide; simpl.
  { intros [= <-]. by left. }
  destruct (ToString _); [simpl|done].
  destruct (EventSource_ctor _); [simpl|done].
  intros [= <-]. right. split; [done|].
  eexists (Build_EventSource _ _ _). by split_and!.
Qed.

(** The effect touches the EventSources and its own cleanup, no state. *)
Lemma commit_frame b a a' :
  commit b a = Normal a' ->
  url a' = url a /\ resumeFile a' = resumeFile a /\ status a' = status a /\
  errorMessage a' = errorMessage a /\ jobId a' = jobId a /\
  logs a' = logs a /\ report a' = report a /\ jobId_rev a' = jobId_rev a /\
  calls a' = calls a /\ requests a' = requests a /\
  downloads a' = downloads a /\ console a' = console a.
Proof.
  unfold commit. destruct (Nat.eqb _ _).
  { intros [= <-]. by split_and!. }
  rewrite run_cleanup_eq. unfold stream_effect. simpl.
  destruct (negb _ || _); simpl.
  { intros [= <-]. by split_and!. }
  destruct (ToString _); [simpl|done].
  destruct (EventSource_ctor _); [simpl|done].
  intros [= <-]. by split_and!.
Qed.

(** Only handlers that leave the EventSources alone write the job
    identifier. *)
Lemma handle_changes_job e a :
  jobId_rev (handle e a) <> jobId_rev a ->
  sources (handle e a) = sources a /\ cleanup (handle e a) = cleanup a.
Proof.
  destruct e as [v|f| | |k r|k r|i d|i]; simpl.
  - by destruct (disabled a).
  - by destruct (disabled a).
  - destruct (disabled a); [done|]. unfold handleSubmit, setJobId.
    by repeat case_match.
  - case_bool_decide; [|done]. unfold start_new_job, setJobId.
    by repeat case_match.
  - destruct (calls a !! k) as [[u f| |]|]; try done. by destruct r.
  - destruct (calls a !! k) as [[u f| |]|]; try done.
    unfold handleSubmit_fetch, setJobId. by repeat case_match.
  - destruct (sources a !! i) as [es|]; [|done].
    destruct (es_closed es); [done|].
    by destruct (onmessage_frame i (es_jobId es) d a) as (_ & -> & _).
  - by destruct (is_open a i).
Qed.

Lemma step_message a i es data :
  sources a !! i = Some es -> es_closed es = false ->
  step a (Message i data) = Normal (onmessage i (es_jobId es) data a).
Proof.
  intros Hl Hc. unfold step. simpl. rewrite Hl, Hc.
  apply commit_unchanged. symmetry. apply onmessage_frame.
Qed.

Lemma step_message_closed a i data :
  is_open a i = false -> step a (Message i data) = Normal a.
Proof.
  unfold is_open, step. simpl. intros Hi.
  destruct (sources a !! i) as [es|]; [|by apply commit_unchanged].
  destruct (es_closed es); [by apply commit_unchanged|done].
Qed.

Lemma step_connection_error a i :
  is_open a i = true -> step a (ConnectionError i) = Normal (onerror i a).
Proof. intros Hi. unfold step. simpl. rewrite Hi. by apply commit_unchanged. Qed.

Lemma run_app xs ys a :
  run a (xs ++ ys) = a' ← run a xs; run a' ys.
Proof.
  revert a. induction xs as [|x xs IH]; intros a; simpl; [done|].
  destruct (step a x) as [b|err]; simpl; [apply IH|done].
Qed.

(** A closed EventSource delivers nothing. *)
Lemma run_closed i events : forall a,
  is_open a i = false -> Forall (on_source i) events ->
  run a events = Normal a.
Proof.
  induction events as [|e events IH]; intros a Hi Hall; simpl; [done|].
  inversion Hall as [|? ? He Hall']; subst.
  assert (step a e = Normal a) as ->.
  { destruct e; simpl in He; try done; subst.
    - by apply step_message_closed.
    - unfold step. simpl. rewrite Hi. by apply commit_unchanged. }
  simpl. by apply IH.
Qed.

(** ** The invariant is kept by every step *)

Lemma Inv_initial : Inv initial.
Proof.
  split.
  - intros i. unfold is_open. change (sources initial) with (@nil EventSource).
    by rewrite lookup_nil.
  - intros i. done.
  - intros k c. change (calls initial) with (@nil HandleSubmit).
    by rewrite lookup_nil.
  - split; simpl; [constructor|]. intros d Hd. by apply elem_of_nil in Hd.
Qed.

(** The effect, run on a change of the job identifier, re-establishes the
    invariant. *)
Lemma stream_effect_Inv b a' :
  (forall i, is_open b i = true -> cleanup b = Some i) ->
  one_call b -> downloads_ok b ->
  (truthy (jobId b) = true -> status b = error \/ status b = loading) ->
  stream_effect (run_cleanup b) = Normal a' -> Inv a'.
Proof.
  intros Hopen Hcalls [Hnd Hdl] Hst.
  pose proof (run_cleanup_closes b Hopen) as Hclosed.
  pose proof (run_cleanup_sources b) as Hkeep.
  rewrite run_cleanup_eq in *.
  set (srcs := sources (run_cleanup b)) in *.
  unfold stream_effect. simpl.
  destruct (truthy (jobId b)) eqn:Ht; simpl.
  2:{ intros [= <-]. split.
      - intros i Hi. by rewrite Hclosed in Hi.
      - intros i. done.
      - exact Hcalls.
      - split; [done|]. intros d Hd. simpl.
        destruct (Hdl d Hd) as (es & id & ? & ? & ? & ?). eauto 10. }
  case_bool_decide as Hs; simpl.
  { intros [= <-]. split.
    - intros i Hi. by rewrite Hclosed in Hi.
    - intros i. done.
    - exact Hcalls.
    - split; [done|]. intros d Hd. simpl.
      destruct (Hdl d Hd) as (es & id & ? & ? & ? & ?). eauto 10. }
  destruct (ToString (jobId b)) as [id|]; [simpl|done].
  destruct (EventSource_ctor _) as [[]|]; [simpl|done].
  intros [= <-]. split.
  - intros i. unfold is_open. simpl. intros Hi.
    destruct (decide (i < length srcs)) as [Hlt|Hge].
    + specialize (Hclosed i). unfold is_open in Hclosed. simpl in Hclosed.
      rewrite lookup_app_l in Hi by done. congruence.
    + destruct (decide (i = length srcs)) as [->|Hne].
      * split; [done|]. destruct Hst as [?|?]; done.
      * rewrite lookup_ge_None_2 in Hi; [done|].
        rewrite length_app. simpl. lia.
  - intros i _. done.
  - intros k c Hk Hc. destruct (Hcalls k c Hk Hc) as (?&?&Hj&?).
    rewrite Hj in Ht. done.
  - split; [done|]. intros d Hd. simpl.
    destruct (Hdl d Hd) as (es & id' & Hl & ? & ? & ?).
    exists es, id'. split_and!; try done.
    apply lookup_app_l_Some. by apply Hkeep.
Qed.

(** The invariant only looks at some of the fields. *)
Lemma Inv_frame a b :
  Inv a ->
  sources b = sources a -> cleanup b = cleanup a -> status b = status a ->
  jobId b = jobId a -> calls b = calls a -> errorMessage b = errorMessage a ->
  logs b = logs a -> report b = report a -> downloads b = downloads a ->
  Inv b.
Proof.
  intros [Ho Hc Hk Hd] Hs Hcl Hst Hj Hca He Hl Hr Hdl. split.
  - intros i. rewrite (is_open_sources b a), Hcl, Hst by done. apply Ho.
  - intros i. rewrite Hcl, Hj. apply Hc.
  - intros k c. rewrite Hca, Hst, Hj, He, Hl, Hr. apply Hk.
  - unfold downloads_ok. rewrite Hdl, Hs. apply Hd.
Qed.

(** Outside of status loading nothing is in flight. *)
Lemma Inv_idle a :
  Inv a -> status a <> loading ->
  (forall i, is_open a i = false) /\
  (forall k c, calls a !! k = Some c -> c = Returned).
Proof.
  intros [Ho _ Hk _] Hst. split.
  - intros i. destruct (is_open a i) eqn:Hi; [|done].
    by destruct (Ho i Hi).
  - intros k c Hc. destruct c as [u f| |]; [| |done];
      by destruct (Hk k _ Hc) as (_ & ? & _).
Qed.

(** While a call of [handleSubmit] runs, or while the job identifier is
    falsy, no connection is open. *)
Lemma Inv_no_job a :
  Inv a -> truthy (jobId a) = false -> forall i, is_open a i = false.
Proof.
  intros [Ho Hc _ _] Hj i. destruct (is_open a i) eqn:Hi; [|done].
  destruct (Ho i Hi) as [Hcl _]. apply Hc in Hcl. congruence.
Qed.

Lemma disabled_false a :
  disabled a = false -> status a <> loading /\ status a <> success.
Proof.
  unfold disabled. intros Hd. apply orb_false_elim in Hd as [H1 H2].
  apply bool_decide_eq_false in H1, H2. done.
Qed.

Lemma Inv_handleSubmit a a' :
  Inv a -> disabled a = false -> commit a (handleSubmit a) = Normal a' -> Inv a'.
Proof.
  intros HI Hd. apply disabled_false in Hd as [Hl _].
  destruct (Inv_idle a HI Hl) as [Hopen Hret].
  pose proof HI as [Ho Hc Hk Hdl].
  unfold handleSubmit.
  destruct (String.eqb (url a) "") eqn:Hu; [|destruct (resumeFile a) as [file|]].
  1,3: rewrite commit_unchanged by done; intros [= <-]; split;
    [ intros i; rewrite (is_open_sources _ a) by done; by rewrite Hopen
    | exact Hc
    | intros k c Hkc Hne; simpl in Hkc; by rewrite (Hret k c Hkc) in Hne
    | exact Hdl ].
  unfold setJobId. simpl.
  destruct (Object_is (jobId a) JNull) eqn:Hj.
  - apply Object_is_null in Hj.
    rewrite commit_unchanged by done. intros [= <-]. split.
    + intros i. rewrite (is_open_sources _ a) by done. by rewrite Hopen.
    + exact Hc.
    + intros k c. simpl. intros Hkc Hne.
      apply lookup_snoc_Some in Hkc as [[Hlt Hkc]|[-> <-]].
      * by rewrite (Hret k c Hkc) in Hne.
      * rewrite length_app. simpl. split_and!; try done. lia.
    + exact Hdl.
  - rewrite commit_changed by (simpl; lia).
    apply stream_effect_Inv.
    + intros i. rewrite (is_open_sources _ a) by done. by rewrite Hopen.
    + intros k c. simpl. intros Hkc Hne.
      apply lookup_snoc_Some in Hkc as [[Hlt Hkc]|[-> <-]].
      * by rewrite (Hret k c Hkc) in Hne.
      * rewrite length_app. simpl. split_and!; try done. lia.
    + exact Hdl.
    + simpl. done.
Qed.

Lemma Inv_start_new_job a a' :
  Inv a -> status a = success -> commit a (start_new_job a) = Normal a' -> Inv a'.
Proof.
  intros HI Hs.
  assert (status a <> loading) as Hl by (rewrite Hs; done).
  destruct (Inv_idle a HI Hl) as [Hopen Hret].
  pose proof HI as [Ho Hc Hk Hdl].
  unfold start_new_job, setJobId. simpl.
  destruct (Object_is (jobId a) JNull) eqn:Hj.
  - rewrite commit_unchanged by done. intros [= <-]. split.
    + intros i. rewrite (is_open_sources _ a) by done. by rewrite Hopen.
    + exact Hc.
    + intros k c Hkc Hne. simpl in Hkc. by rewrite (Hret k c Hkc) in Hne.
    + exact Hdl.
  - rewrite commit_changed by (simpl; lia).
    apply stream_effect_Inv.
    + intros i. rewrite (is_open_sources _ a) by done. by rewrite Hopen.
    + intros k c Hkc Hne. simpl in Hkc. by rewrite (Hret k c Hkc) in Hne.
    + exact Hdl.
    + simpl. done.
Qed.

(** With a connection open, no call of [handleSubmit] is running. *)
Lemma Inv_open_no_call a i :
  Inv a -> is_open a i = true ->
  forall k c, calls a !! k = Some c -> c = Returned.
Proof.
  intros [Ho Hc Hk _] Hi k c Hkc.
  destruct (Ho i Hi) as [Hcl _]. apply Hc in Hcl.
  destruct c as [u f| |]; [| |done];
    destruct (Hk k _ Hkc) as (_ & _ & Hj & _); try done;
    by rewrite Hj in Hcl.
Qed.

(** A message that is no terminal event leaves the invariant alone. *)
Lemma Inv_streaming a b i :
  Inv a -> is_open a i = true ->
  sources b = sources a -> cleanup b = cleanup a -> status b = status a ->
  jobId b = jobId a -> calls b = calls a -> downloads b = downloads a ->
  Inv b.
Proof.
  intros HI Hi Hs Hcl Hst Hj Hca Hdl.
  pose proof (Inv_open_no_call a i HI Hi) as Hret.
  destruct HI as [Ho Hc Hk Hd]. split.
  - intros i'. rewrite (is_open_sources b a), Hcl, Hst by done. apply Ho.
  - intros i'. rewrite Hcl, Hj. apply Hc.
  - intros k c. rewrite Hca. intros Hkc Hne. by rewrite (Hret k c Hkc) in Hne.
  - unfold downloads_ok. rewrite Hdl, Hs. apply Hd.
Qed.

(** Closing the open connection leaves nothing open, whatever the status
    becomes. *)
Lemma Inv_closed a b i :
  Inv a -> is_open a i = true ->
  sources b = alter close_source i (sources a) -> cleanup b = cleanup a ->
  jobId b = jobId a -> calls b = calls a -> downloads b = downloads a ->
  Inv b.
Proof.
  intros HI Hi Hs Hcl Hj Hca Hdl.
  pose proof (Inv_open_no_call a i HI Hi) as Hret.
  destruct HI as [Ho Hc Hk [Hnd Hd]]. split.
  - intros i'. rewrite (is_open_sources b (close i a)) by done.
    rewrite is_open_close. intros Hi'. apply andb_true_iff in Hi' as [Hi' Hne].
    destruct (Ho i Hi) as [Hci _]. destruct (Ho i' Hi') as [Hci' _].
    assert (i = i') as -> by congruence. by rewrite Nat.eqb_refl in Hne.
  - intros i'. rewrite Hcl, Hj. apply Hc.
  - intros k c. rewrite Hca. intros Hkc Hne. by rewrite (Hret k c Hkc) in Hne.
  - split; rewrite Hdl; [done|]. intros d Hin.
    destruct (Hd d Hin) as (es & id & Hl & Hcd & Hid & Hh).
    exists es, id. split_and!; try done. rewrite Hs.
    rewrite list_lookup_alter_ne; [done|]. intros Heq.
    unfold is_open in Hi. rewrite Heq, Hl, Hcd in Hi. done.
Qed.

Lemma Inv_trigger_download a i es filename :
  Inv a -> sources a !! i = Some es -> es_closed es = true ->
  i ∉ dl_source <$> downloads a ->
  Inv (trigger_download i (es_jobId es) filename a).
Proof.
  intros HI Hl Hcl Hfresh. unfold trigger_download.
  destruct (truthy filename); [|done].
  destruct (ToString (es_jobId es)) as [id|] eqn:Hid.
  2:{ eapply Inv_frame; [exact HI|done..]. }
  destruct (ToString filename) as [name|].
  2:{ eapply Inv_frame; [exact HI|done..]. }
  destruct HI as [Ho Hc Hk [Hnd Hd]]. split; [done..|]. split; simpl.
  - rewrite fmap_app. simpl. apply NoDup_app. split_and!; [done| |].
    + intros x Hx Hx'. apply list_elem_of_singleton in Hx'. by subst.
    + apply NoDup_singleton.
  - intros d Hin. apply elem_of_app in Hin as [Hin|Hin]; [by apply Hd|].
    apply list_elem_of_singleton in Hin as ->. simpl. eauto 10.
Qed.

Lemma Inv_complete a i es filename r :
  Inv a -> sources a !! i = Some es -> es_closed es = false ->
  Inv (trigger_download i (es_jobId es) filename
         (close i (setStatus success (setReport r a)))).
Proof.
  intros HI Hl Hcl.
  pose proof (is_open_lookup a i es Hl Hcl) as Hi.
  replace (es_jobId es) with (es_jobId (close_source es)) by done.
  apply Inv_trigger_download.
  - by eapply (Inv_closed a _ i).
  - simpl. by rewrite list_lookup_alter_eq, Hl.
  - done.
  - simpl. intros Hin. apply list_elem_of_fmap in Hin as (d & -> & Hin).
    destruct HI as [_ _ _ [_ Hd]].
    destruct (Hd d Hin) as (es' & id & Hl' & Hcd & _). congruence.
Qed.

(** Once the running call has returned, none is running. *)
Lemma one_call_returned a k c :
  one_call a -> calls a !! k = Some c -> c <> Returned ->
  forall k' c', <[k := Returned]> (calls a) !! k' = Some c' -> c' = Returned.
Proof.
  intros Hk Hkc Hne k' c' Hl.
  apply list_lookup_insert_Some in Hl as [(-> & -> & _)|[Hkk Hl]]; [done|].
  destruct c' as [u f| |]; [| |done];
    destruct (Hk k' _ Hl) as (Hlen' & _); try done;
    destruct (Hk k c Hkc Hne) as (Hlen & _); lia.
Qed.

Lemma Inv_handleSubmit_getSession a k url resumeFile settled :
  Inv a -> calls a !! k = Some (AtGetSession url resumeFile) ->
  Inv (handleSubmit_getSession k url resumeFile settled a).
Proof.
  intros HI Hkc.
  assert (AtGetSession url resumeFile <> Returned) as Hne by done.
  pose proof HI as [Ho Hc Hk Hd].
  destruct (Hk k _ Hkc Hne) as (Hlen & Hst & Hj & He & Hlg & Hr).
  assert (forall i, is_open a i = false) as Hopen
    by (apply Inv_no_job; [done|by rewrite Hj]).
  unfold handleSubmit_getSession. destruct settled as [session|err].
  - split; [done..| |done].
    intros k' c'. simpl. intros Hl Hne'.
    rewrite length_insert.
    apply list_lookup_insert_Some in Hl as [(-> & _ & _)|[Hkk Hl]]; [done|].
    exact (Hk k' c' Hl Hne').
  - split.
    + intros i. rewrite (is_open_sources _ a) by done. by rewrite Hopen.
    + exact Hc.
    + intros k' c' Hl Hne'. simpl in Hl.
      by rewrite (one_call_returned a k _ Hk Hkc Hne k' c' Hl) in Hne'.
    + exact Hd.
Qed.

Lemma Inv_handleSubmit_fetch a a' k settled :
  Inv a -> calls a !! k = Some AtFetch ->
  commit a (handleSubmit_fetch k settled a) = Normal a' -> Inv a'.
Proof.
  intros HI Hkc.
  assert (AtFetch <> Returned) as Hne by done.
  pose proof HI as [Ho Hc Hk Hd].
  destruct (Hk k _ Hkc Hne) as (Hlen & Hst & Hj & He & Hlg & Hr).
  assert (forall i, is_open a i = false) as Hopen
    by (apply Inv_no_job; [done|by rewrite Hj]).
  pose proof (one_call_returned a k _ Hk Hkc Hne) as Hret.
  unfold handleSubmit_fetch. destruct (job_id_of settled) as [job_id|err].
  - unfold setJobId. simpl. destruct (Object_is (jobId a) job_id).
    + rewrite commit_unchanged by done. intros [= <-]. split; [done..| |done].
      intros k' c' Hl Hne'. simpl in Hl. by rewrite (Hret k' c' Hl) in Hne'.
    + rewrite commit_changed by (simpl; lia). apply stream_effect_Inv.
      * intros i. rewrite (is_open_sources _ a) by done. by rewrite Hopen.
      * intros k' c' Hl Hne'. simpl in Hl. by rewrite (Hret k' c' Hl) in Hne'.
      * exact Hd.
      * simpl. auto.
  - rewrite commit_unchanged by done. intros [= <-]. split.
    + intros i. rewrite (is_open_sources _ a) by done. by rewrite Hopen.
    + exact Hc.
    + intros k' c' Hl Hne'. simpl in Hl. by rewrite (Hret k' c' Hl) in Hne'.
    + exact Hd.
Qed.

Lemma Inv_onmessage a i es data :
  Inv a -> sources a !! i = Some es -> es_closed es = false ->
  Inv (onmessage i (es_jobId es) data a).
Proof.
  intros HI Hl Hcl. pose proof (is_open_lookup a i es Hl Hcl) as Hi.
  apply onmessage_cases; intros.
  - by eapply (Inv_streaming a _ i).
  - by apply Inv_complete.
  - by eapply (Inv_closed a _ i).
  - done.
  - by eapply Inv_frame.
Qed.

Theorem Inv_step a e a' : Inv a -> step a e = Normal a' -> Inv a'.
Proof.
  intros HI. unfold step. destruct e as [v|f| | |k r|k r|i d|i]; simpl.
  - destruct (disabled a); rewrite commit_unchanged by done; intros [= <-];
      [done|by eapply Inv_frame].
  - destruct (disabled a); rewrite commit_unchanged by done; intros [= <-];
      [done|by eapply Inv_frame].
  - destruct (disabled a) eqn:Hd.
    + rewrite commit_unchanged by done. by intros [= <-].
    + by apply Inv_handleSubmit.
  - case_bool_decide as Hs.
    + by apply Inv_start_new_job.
    + rewrite commit_unchanged by done. by intros [= <-].
  - destruct (calls a !! k) as [[u f| |]|] eqn:Hk;
      rewrite commit_unchanged by (try done; by destruct r);
      intros [= <-]; try done.
    by apply Inv_handleSubmit_getSession.
  - destruct (calls a !! k) as [[u f| |]|] eqn:Hk;
      try (rewrite commit_unchanged by done; by intros [= <-]).
    by apply Inv_handleSubmit_fetch.
  - destruct (sources a !! i) as [es|] eqn:Hl;
      [destruct (es_closed es) eqn:Hcl|];
      try (rewrite commit_unchanged by done; by intros [= <-]).
    rewrite commit_unchanged by (symmetry; apply onmessage_frame).
    intros [= <-]. by apply Inv_onmessage.
  - destruct (is_open a i) eqn:Hi;
      rewrite commit_unchanged by done; intros [= <-]; [|done].
    by eapply (Inv_closed a _ i).
Qed.

Theorem Inv_run events : forall a a', Inv a -> run a events = Normal a' -> Inv a'.
Proof.
  induction events as [|e events IH]; intros a a' HI; simpl.
  - by intros [= <-].
  - destruct (step a e) as [b|err] eqn:Hs; [simpl|done].
    intros Hr. eapply IH; [|exact Hr]. by eapply Inv_step.
Qed.

Corollary Inv_reachable events a : run initial events = Normal a -> Inv a.
Proof. apply Inv_run, Inv_initial. Qed.

(** ** Submission *)

Lemma handleSubmit_invalid a :
  url a = "" \/ resumeFile a = None ->
  handleSubmit a = setStatus error (setErrorMessage validation_message a).
Proof.
  unfold handleSubmit. intros [Hu|Hf].
  - rewrite Hu. simpl. by destruct (resumeFile a).
  - rewrite Hf. by destruct (String.eqb (url a) "").
Qed.

(** C5: a submission in which the URL string or the resume file is missing
    ends in status error with the validation message; it issues no request,
    starts no call to the session provider, opens or closes no stream and
    assigns no job identifier. With the form enabled, this is the whole
    effect of the submit event. *)
Theorem C5_missing_input_rejected a :
  url a = "" \/ resumeFile a = None ->
  let a' := handleSubmit a in
  status a' = error /\ errorMessage a' = validation_message /\
  requests a' = requests a /\ calls a' = calls a /\ sources a' = sources a /\
  jobId a' = jobId a /\ jobId_rev a' = jobId_rev a /\
  (disabled a = false -> step a Submit = Normal a').
Proof.
  intros Hm. simpl. rewrite (handleSubmit_invalid a Hm). split_and!; try done.
  intros Hd. unfold step. simpl. rewrite Hd, (handleSubmit_invalid a Hm).
  by rewrite commit_unchanged.
Qed.

(** C10: a submission that fails the local validation writes the status and
    the error message and nothing else: the job identifier, the log buffer
    and the report are the ones of before, and so is every other cell and
    everything around the component. *)
Theorem C10_validation_failure_frame a :
  url a = "" \/ resumeFile a = None ->
  let a' := handleSubmit a in
  jobId a' = jobId a /\ logs a' = logs a /\ report a' = report a /\
  url a' = url a /\ resumeFile a' = resumeFile a /\
  jobId_rev a' = jobId_rev a /\ sources a' = sources a /\
  cleanup a' = cleanup a /\ calls a' = calls a /\ requests a' = requests a /\
  downloads a' = downloads a /\ console a' = console a /\
  (disabled a = false -> step a Submit = Normal a').
Proof.
  intros Hm. simpl. rewrite (handleSubmit_invalid a Hm). split_and!; try done.
  intros Hd. unfold step. simpl. rewrite Hd, (handleSubmit_invalid a Hm).
  by rewrite commit_unchanged.
Qed.

(** C7: a submission with a URL and a file, in the very step of the submit
    event (no request has gone out yet, the call is waiting for the
    session), sets the status to loading and clears the log buffer, the
    report, the job identifier and the error message. *)
Theorem C7_valid_submission_resets a file :
  disabled a = false -> url a <> "" -> resumeFile a = Some file ->
  exists a', step a Submit = Normal a' /\
    status a' = loading /\ logs a' = [] /\ report a' = JNull /\
    jobId a' = JNull /\ errorMessage a' = JString "" /\
    requests a' = requests a /\
    calls a' = (calls a ++ [AtGetSession (url a) file])%list.
Proof.
  intros Hd Hu Hf. unfold step. simpl. rewrite Hd.
  unfold handleSubmit. rewrite Hf.
  apply String.eqb_neq in Hu. rewrite Hu.
  unfold setJobId. simpl. destruct (Object_is (jobId a) JNull) eqn:Hj.
  - apply Object_is_null in Hj. rewrite commit_unchanged by done.
    eexists. split; [done|]. by split_and!.
  - rewrite commit_changed by (simpl; lia).
    rewrite run_cleanup_eq. unfold stream_effect. simpl.
    eexists. split; [done|]. by split_and!.
Qed.

(** ** Stream messages *)

(** C6: a message whose payload is no JSON changes neither the status, the
    log buffer, the report nor the error message (nor any other cell, stream
    or download); the handler returns normally, having written the parse
    error to the console. *)
Theorem C6_malformed_message_dropped a i data err :
  JSON_parse data = Throw err ->
  exists a', step a (Message i data) = Normal a' /\
    status a' = status a /\ logs a' = logs a /\ report a' = report a /\
    errorMessage a' = errorMessage a /\ jobId a' = jobId a /\
    sources a' = sources a /\ downloads a' = downloads a /\
    requests a' = requests a /\
    (is_open a i = true ->
     console a' = (console a ++ [("SSE Parse logic error", err)])%list).
Proof.
  intros Hp. destruct (is_open a i) eqn:Hi.
  - unfold is_open in Hi. destruct (sources a !! i) as [es|] eqn:Hl; [|done].
    apply negb_true_iff in Hi.
    rewrite (step_message a i es data Hl Hi), (onmessage_malformed _ _ _ _ err Hp).
    eexists. split; [done|]. by split_and!.
  - rewrite step_message_closed by done. eexists. split; [done|]. by split_and!.
Qed.

(** Messages that are no terminal events: the log events among them append
    their lines, and nothing else of the job changes. *)
Lemma step_nonterminal a i es data :
  sources a !! i = Some es -> es_closed es = false -> terminal data = false ->
  exists b, step a (Message i data) = Normal b /\
    sources b = sources a /\ logs b = (logs a ++ log_lines [data])%list /\
    status b = status a /\ errorMessage b = errorMessage a /\
    report b = report a /\ downloads b = downloads a.
Proof.
  intros Hl Hc Ht. rewrite (step_message a i es data Hl Hc).
  eexists. split; [done|].
  apply onmessage_cases.
  - intros Hlog. rewrite (log_lines_log data Hlog). by split_and!.
  - intros Hcomplete%terminal_complete. congruence.
  - intros Herror%terminal_error. congruence.
  - intros _ ->. rewrite app_nil_r. by split_and!.
  - intros err _ ->. simpl. rewrite app_nil_r. by split_and!.
Qed.

Lemma log_lines_cons data pre :
  log_lines (data :: pre) = (log_lines [data] ++ log_lines pre)%list.
Proof.
  unfold log_lines. simpl.
  by destruct (event_type data) as [t|]; [destruct (String.eqb t "log")|].
Qed.

Lemma run_nonterminal i pre : forall a,
  is_open a i = true -> Forall (fun data => terminal data = false) pre ->
  exists a', run a (on_stream i pre) = Normal a' /\
    is_open a' i = true /\ logs a' = (logs a ++ log_lines pre)%list /\
    status a' = status a /\ errorMessage a' = errorMessage a /\
    report a' = report a /\ sources a' = sources a /\
    downloads a' = downloads a.
Proof.
  induction pre as [|data pre IH]; intros a Hi Hall.
  { exists a. simpl. rewrite app_nil_r. by split_and!. }
  inversion Hall as [|? ? Ht Hall']; subst.
  destruct (is_open_inv a i Hi) as (es & Hl & Hc).
  destruct (step_nonterminal a i es data Hl Hc Ht)
    as (b & Hstep & Hs & Hlg & Hst & Hem & Hr & Hd).
  destruct (IH b) as (a' & Hrun & Ho & Hlg' & Hst' & Hem' & Hr' & Hs' & Hd');
    [by rewrite (is_open_sources b a)|done|].
  assert (run a (on_stream i (data :: pre)) = Normal a') as Hrun'
    by (simpl; by rewrite Hstep).
  exists a'.
  rewrite Hrun', Hlg', Hlg, Hst', Hst, Hem', Hem, Hr', Hr, Hs', Hs, Hd', Hd.
  split_and!; try done.
  by rewrite (log_lines_cons data pre), app_assoc.
Qed.

(** The step that opens a stream finds the log buffer empty. *)
Lemma opened_logs a0 e a i :
  Inv a0 -> step a0 e = Normal a ->
  is_open a0 i = false -> is_open a i = true -> logs a = [].
Proof.
  intros HI Hstep Hc Ho. unfold step in Hstep.
  pose proof (commit_frame _ _ _ Hstep) as (_&_&_&_&_&Hlogs&_&Hrev&_).
  rewrite Hlogs.
  assert (jobId_rev (handle e a0) = jobId_rev a0 ->
          sources (handle e a0) = sources a0 \/
          (exists j, sources (handle e a0) = alter close_source j (sources a0)) ->
          False) as Hsame.
  { intros Hr Hs. rewrite commit_unchanged in Hstep by done.
    injection Hstep as <-. destruct Hs as [Hs|[j Hs]].
    - rewrite (is_open_sources _ a0) in Ho by done. congruence.
    - apply (is_open_alter_close a0 _ i j Hs) in Ho. congruence. }
  destruct e as [v|f| | |k r|k r|j d|j]; simpl in *.
  - exfalso. apply Hsame; destruct (disabled a0); auto.
  - exfalso. apply Hsame; destruct (disabled a0); auto.
  - destruct (disabled a0); [exfalso; by apply Hsame; auto|].
    unfold handleSubmit in *.
    destruct (String.eqb (url a0) ""); [exfalso; by apply Hsame; auto|].
    destruct (resumeFile a0); [|exfalso; by apply Hsame; auto].
    unfold setJobId. simpl. by repeat case_match.
  - case_bool_decide; [|exfalso; by apply Hsame; auto].
    unfold start_new_job, setJobId. simpl. by repeat case_match.
  - exfalso. destruct (calls a0 !! k) as [[u f| |]|];
      try (by apply Hsame; auto).
    apply Hsame; [by destruct r|left; by destruct r].
  - destruct (calls a0 !! k) as [[u f| |]|] eqn:Hk;
      try (exfalso; by apply Hsame; auto).
    destruct HI as [_ _ Hcalls _].
    destruct (Hcalls k _ Hk) as (_&_&_&_&Hl&_); [done|].
    unfold handleSubmit_fetch, setJobId. simpl.
    destruct (job_id_of r); [|done]. by repeat case_match.
  - exfalso. destruct (sources a0 !! j) as [es|]; [|by apply Hsame; auto].
    destruct (es_closed es); [by apply Hsame; auto|].
    apply Hsame; [apply onmessage_frame|].
    destruct (onmessage_sources j (es_jobId es) d a0); eauto.
  - exfalso. apply Hsame; destruct (is_open a0 j); eauto.
Qed.

(** ** One stream at a time *)

(** No handler opens a connection, and none touches the cleanup of the
    effect. *)
Lemma handle_sources e a :
  sources (handle e a) = sources a \/
  exists j, sources (handle e a) = alter close_source j (sources a).
Proof.
  destruct e as [v|f| | |k r|k r|i d|i]; simpl.
  - left. by destruct (disabled a).
  - left. by destruct (disabled a).
  - left. destruct (disabled a); [done|]. unfold handleSubmit, setJobId.
    by repeat case_match.
  - left. case_bool_decide; [|done]. unfold start_new_job, setJobId.
    by repeat case_match.
  - left. destruct (calls a !! k) as [[u f| |]|]; try done. by destruct r.
  - left. destruct (calls a !! k) as [[u f| |]|]; try done.
    unfold handleSubmit_fetch, setJobId. by repeat case_match.
  - destruct (sources a !! i) as [es|]; [|by left].
    destruct (es_closed es); [by left|].
    destruct (onmessage_sources i (es_jobId es) d a); eauto.
  - destruct (is_open a i); eauto.
Qed.

Lemma handle_open e a i : is_open (handle e a) i = true -> is_open a i = true.
Proof.
  destruct (handle_sources e a) as [Hs|[j Hs]].
  - by rewrite (is_open_sources _ a).
  - by apply (is_open_alter_close a _ i j).
Qed.

Lemma handle_length e a : length (sources (handle e a)) = length (sources a).
Proof.
  destruct (handle_sources e a) as [->|[j ->]]; [done|apply length_alter].
Qed.

Lemma handle_cleanup e a : cleanup (handle e a) = cleanup a.
Proof.
  destruct e as [v|f| | |k r|k r|i d|i]; simpl.
  - by destruct (disabled a).
  - by destruct (disabled a).
  - destruct (disabled a); [done|]. unfold handleSubmit, setJobId.
    by repeat case_match.
  - case_bool_decide; [|done]. unfold start_new_job, setJobId.
    by repeat case_match.
  - destruct (calls a !! k) as [[u f| |]|]; try done. by destruct r.
  - destruct (calls a !! k) as [[u f| |]|]; try done.
    unfold handleSubmit_fetch, setJobId. by repeat case_match.
  - destruct (sources a !! i) as [es|]; [|done].
    destruct (es_closed es); [done|].
    by destruct (onmessage_frame i (es_jobId es) d a) as (_ & _ & -> & _).
  - by destruct (is_open a i).
Qed.

Lemma handle_registered e a :
  open_is_registered a -> open_is_registered (handle e a).
Proof.
  intros Hreg i Hi. rewrite handle_cleanup. by apply Hreg, (handle_open e).
Qed.

Lemma unmount_closes a :
  open_is_registered a -> forall i, is_open (unmount a) i = false.
Proof. apply run_cleanup_closes. Qed.

(** The effect, run after the cleanup, registers the connection it opens. *)
Lemma stream_effect_registered b a' :
  open_is_registered b ->
  stream_effect (run_cleanup b) = Normal a' ->
  open_is_registered a' /\
  (forall i, i < length (sources b) -> is_open a' i = false) /\
  length (sources a') <= S (length (sources b)) /\
  (truthy (jobId b) = false ->
     length (sources a') = length (sources b) /\
     forall i, is_open a' i = false).
Proof.
  intros Hreg.
  pose proof (run_cleanup_closes b Hreg) as Hclosed.
  pose proof (run_cleanup_length b) as Hlen.
  rewrite run_cleanup_eq in *.
  set (srcs := sources (run_cleanup b)) in *.
  unfold stream_effect. simpl in *.
  destruct (truthy (jobId b)) eqn:Ht; simpl.
  2:{ intros [= <-]. split_and!; try done.
      - intros i Hi. by rewrite Hclosed in Hi.
      - simpl. lia. }
  case_bool_decide as Hs; simpl.
  { intros [= <-]. split_and!; try done.
    - intros i Hi. by rewrite Hclosed in Hi.
    - simpl. lia. }
  destruct (ToString _); [simpl|done].
  destruct (EventSource_ctor _); [simpl|done].
  intros [= <-].
  assert (forall i, i < length srcs ->
    is_open (set_cleanup (Some (length srcs))
      (set_sources (srcs ++ [{| es_url := API_URL ++ "/api/stream-job/" ++ a;
                                es_jobId := jobId b; es_closed := false |}]) b))
      i = false) as Hold.
  { intros i Hlt. specialize (Hclosed i). unfold is_open in *. simpl in *.
    by rewrite lookup_app_l. }
  split_and!; try done.
  - intros i Hi. simpl. f_equal.
    destruct (decide (i < length srcs)) as [Hlt|Hge].
    { by rewrite Hold in Hi. }
    unfold is_open in Hi. simpl in Hi.
    destruct ((srcs ++ _)%list !! i) eqn:Hl; [|done].
    apply lookup_lt_Some in Hl. rewrite length_app in Hl. simpl in Hl. lia.
  - intros i Hlt. apply Hold. lia.
  - simpl. rewrite length_app. simpl. lia.
Qed.

(** C1: at most one stream connection is open at any time. In every state
    the component reaches, an open connection is the one the pending cleanup
    of the effect will close, so there is at most one, and there is none
    while the job identifier is cleared (null, or any other falsy value);
    unmounting closes it. In every state in which an open connection is the
    one the cleanup holds (the states the component reaches among them),
    whenever an event changes the job identifier the cleanup runs before the
    body of the effect and closes the connection, so that the body runs with
    every connection closed; in the state the step ends in, every connection
    that existed before is closed, at most one has been added, none if the
    new identifier is cleared, and an open connection is again the one the
    cleanup holds. *)
Theorem C1_one_stream :
  (forall events a, run initial events = Normal a ->
     open_is_registered a /\
     (forall i j, is_open a i = true -> is_open a j = true -> i = j) /\
     (truthy (jobId a) = false -> forall i, is_open a i = false) /\
     (jobId a = JNull -> forall i, is_open a i = false) /\
     (forall i, is_open (unmount a) i = false) /\
     forall e, jobId_rev (handle e a) <> jobId_rev a ->
       step a e = stream_effect (run_cleanup (handle e a)) /\
       (forall i, is_open (run_cleanup (handle e a)) i = false) /\
       forall a', step a e = Normal a' ->
         (forall i, i < length (sources a) -> is_open a' i = false) /\
         length (sources a') <= S (length (sources a)) /\
         (truthy (jobId a') = false ->
            length (sources a') = length (sources a) /\
            forall i, is_open a' i = false) /\
         (jobId a' = JNull -> length (sources a') = length (sources a))) /\
  (forall a e, open_is_registered a ->
     (forall i j, is_open a i = true -> is_open a j = true -> i = j) /\
     (forall i, is_open (unmount a) i = false) /\
     (jobId_rev (handle e a) <> jobId_rev a ->
        step a e = stream_effect (run_cleanup (handle e a)) /\
        forall i, is_open (run_cleanup (handle e a)) i = false) /\
     forall a', step a e = Normal a' ->
       open_is_registered a' /\
       (forall i j, is_open a' i = true -> is_open a' j = true -> i = j) /\
       (jobId_rev (handle e a) <> jobId_rev a ->
          (forall i, i < length (sources a) -> is_open a' i = false) /\
          length (sources a') <= S (length (sources a)) /\
          (truthy (jobId a') = false ->
             length (sources a') = length (sources a) /\
             forall i, is_open a' i = false) /\
          (jobId a' = JNull -> length (sources a') = length (sources a)))).
Proof.
  assert (forall a, open_is_registered a ->
    forall i j, is_open a i = true -> is_open a j = true -> i = j) as Hone.
  { intros a Hreg i j Hi Hj. apply Hreg in Hi, Hj. congruence. }
  assert (forall a e, open_is_registered a ->
    (jobId_rev (handle e a) <> jobId_rev a ->
       step a e = stream_effect (run_cleanup (handle e a)) /\
       forall i, is_open (run_cleanup (handle e a)) i = false) /\
    forall a', step a e = Normal a' ->
      open_is_registered a' /\
      (jobId_rev (handle e a) <> jobId_rev a ->
         (forall i, i < length (sources a) -> is_open a' i = false) /\
         length (sources a') <= S (length (sources a)) /\
         (truthy (jobId a') = false ->
            length (sources a') = length (sources a) /\
            forall i, is_open a' i = false) /\
         (jobId a' = JNull -> length (sources a') = length (sources a))))
    as Hchange.
  { intros a e Hreg.
    pose proof (handle_registered e a Hreg) as Hreg'. split.
    - intros Hrev. split; [unfold step; apply commit_changed; congruence|].
      by apply run_cleanup_closes.
    - intros a' Hstep. unfold step in Hstep.
      pose proof (commit_frame _ _ _ Hstep) as (_ & _ & _ & _ & Hjob & _).
      destruct (decide (jobId_rev (handle e a) = jobId_rev a)) as [Hsame|Hrev].
      { rewrite commit_unchanged in Hstep by done. by injection Hstep as <-. }
      rewrite commit_changed in Hstep by congruence.
      destruct (stream_effect_registered _ _ Hreg' Hstep)
        as (Hr & Hold & Hlen & Hnone).
      rewrite handle_length in Hold, Hlen, Hnone. rewrite <- Hjob in Hnone.
      split; [done|]. intros _. split_and!; try done.
      intros Hnull. apply Hnone. by rewrite Hnull. }
  split.
  - intros events a Hreach. pose proof (Inv_reachable _ _ Hreach) as HI.
    pose proof HI as [Ho _ _ _].
    assert (open_is_registered a) as Hreg
      by (intros i Hi; by destruct (Ho i Hi)).
    split_and!; try done.
    + by apply Hone.
    + by apply Inv_no_job.
    + intros Hj. apply Inv_no_job; [done|]. by rewrite Hj.
    + by apply unmount_closes.
    + intros e Hrev. destruct (Hchange a e Hreg) as [Hcleanup Hstep].
      destruct (Hcleanup Hrev) as [Heq Hclosed]. split_and!; try done.
      intros a' Ha'. destruct (Hstep a' Ha') as [_ Hafter]. by apply Hafter.
  - intros a e Hreg. destruct (Hchange a e Hreg) as [Hcleanup Hstep].
    split_and!.
    + by apply Hone.
    + by apply unmount_closes.
    + done.
    + intros a' Ha'. destruct (Hstep a' Ha') as [Hreg' Hafter].
      split_and!; [done|by apply Hone|done].
Qed.

(** ** The download *)




(** ** The answer to the job-start request *)

Lemma get_absent v k :
  v <> JNull -> v <> JUndefined -> has_property v k = false ->
  get v k = Normal JUndefined.
Proof.
  intros Hn Hu Hp. destruct v; simpl in *; try done.
  apply bool_decide_eq_false in Hp. destruct (m !! k) eqn:E; [|done].
  exfalso. apply Hp. by eexists.
Qed.

Lemma new_Error_truthy e s :
  truthy e = true -> ToString e = Normal s ->
  new_Error e = Normal {| err_name := "Error"; err_message := s |}.
Proof.
  intros Ht Hs. unfold new_Error. destruct e; try done; by rewrite Hs.
Qed.

(** A response that is not ok ends in the catch of [handleSubmit]. *)
Lemma job_id_of_not_ok r :
  ok r = false ->
  exists err, job_id_of (Normal r) = Throw err /\
    match new_Error (errorMsg r) with
    | Normal e => err = e
    | Throw e => err = e
    end.
Proof.
  intros Hok. unfold job_id_of. simpl. rewrite Hok. simpl.
  destruct (new_Error (errorMsg r)) as [e|e]; simpl; by eexists.
Qed.

(** C8, as the code has it: a response to the job-start request that is not
    2xx sets the status to error, sets no job identifier and opens no
    stream. When the body parses and its error field is non-empty (truthy),
    the error message is that field converted to a string: a string field is
    taken as it is, an object gives "[object Object]", and when the
    conversion throws (an object with a toString property of its own) the
    message is the one of the TypeError thrown. The message is "Failed to
    start optimization job." when the body parses to a value other than null
    whose error field is absent or empty (falsy), and "Server error: "
    followed by the status text when the body does not parse, or parses to
    null. These cases are all there are. *)
Theorem C8_rejected_job_start events a k r :
  run initial events = Normal a ->
  calls a !! k = Some AtFetch ->
  ok r = false ->
  exists a',
    step a (FetchSettled k (Normal r)) = Normal a' /\
    status a' = error /\
    jobId a' = JNull /\ jobId a' = jobId a /\ sources a' = sources a /\
    (forall i, is_open a' i = false) /\
    (forall v e s, json r = Normal v -> get v "error" = Normal e ->
       truthy e = true -> ToString e = Normal s ->
       errorMessage a' = JString s) /\
    (forall v s, json r = Normal v -> get v "error" = Normal (JString s) ->
       s <> "" -> errorMessage a' = JString s) /\
    (forall v m, json r = Normal v -> get v "error" = Normal (JObject m) ->
       m !! "toString" = None ->
       errorMessage a' = JString "[object Object]") /\
    (forall v e err, json r = Normal v -> get v "error" = Normal e ->
       truthy e = true -> ToString e = Throw err ->
       errorMessage a' = JString (err_message err)) /\
    (forall v e, json r = Normal v -> get v "error" = Normal e ->
       truthy e = false ->
       errorMessage a' = JString "Failed to start optimization job.") /\
    (forall v err, json r = Normal v -> get v "error" = Throw err ->
       errorMessage a' = JString ("Server error: " ++ statusText r)) /\
    (json r = Normal JNull ->
       errorMessage a' = JString ("Server error: " ++ statusText r)) /\
    (forall err, json r = Throw err ->
       errorMessage a' = JString ("Server error: " ++ statusText r)) /\
    ((exists err, json r = Throw err) \/
     (exists v err, json r = Normal v /\ get v "error" = Throw err) \/
     (exists v e, json r = Normal v /\ get v "error" = Normal e /\
        (truthy e = false \/
         truthy e = true /\
         ((exists s, ToString e = Normal s) \/
          (exists err, ToString e = Throw err))))).
Proof.
  intros Hreach Hk Hok. pose proof (Inv_reachable _ _ Hreach) as HI.
  pose proof HI as [_ _ Hcalls _].
  destruct (Hcalls k _ Hk) as (_ & _ & Hj & _); [done|].
  destruct (job_id_of_not_ok r Hok) as (err & Hthrow & Herr).
  assert (forall v e s, json r = Normal v -> get v "error" = Normal e ->
       truthy e = true -> ToString e = Normal s -> err_message err = s) as Hfield.
  { intros v e s Hv He Ht Hs. unfold errorMsg in Herr. rewrite Hv in Herr.
    simpl in Herr. rewrite He in Herr. simpl in Herr.
    unfold js_or in Herr. rewrite Ht in Herr.
    rewrite (new_Error_truthy e s Ht Hs) in Herr. by subst. }
  eexists. unfold step. simpl. rewrite Hk.
  unfold handleSubmit_fetch. rewrite Hthrow.
  rewrite commit_unchanged by done. split; [done|]. simpl.
  split_and!; try done.
  - intros i. rewrite (is_open_sources _ a) by done.
    apply Inv_no_job; [done|]. by rewrite Hj.
  - intros v e s Hv He Ht Hs. by rewrite (Hfield v e s Hv He Ht Hs).
  - intros v s Hv He Hs. rewrite (Hfield v (JString s) s Hv He); [done| |done].
    simpl. apply String.eqb_neq in Hs. by rewrite Hs.
  - intros v m Hv He Hm.
    rewrite (Hfield v (JObject m) "[object Object]" Hv He); [done|done|].
    simpl. by rewrite Hm.
  - intros v e err' Hv He Ht Hs. unfold errorMsg in Herr. rewrite Hv in Herr.
    simpl in Herr. rewrite He in Herr. simpl in Herr.
    unfold js_or in Herr. rewrite Ht in Herr.
    unfold new_Error in Herr. rewrite Hs in Herr.
    destruct e; simpl in *; try done; by subst.
  - intros v e Hv He Ht. unfold errorMsg in Herr. rewrite Hv in Herr.
    simpl in Herr. rewrite He in Herr. simpl in Herr.
    unfold js_or in Herr. rewrite Ht in Herr. simpl in Herr. by subst.
  - intros v e Hv He. unfold errorMsg in Herr. rewrite Hv in Herr.
    simpl in Herr. rewrite He in Herr. simpl in Herr. by subst.
  - intros Hv. unfold errorMsg in Herr. rewrite Hv in Herr.
    simpl in Herr. by subst.
  - intros e Hv. unfold errorMsg in Herr. rewrite Hv in Herr.
    simpl in Herr. by subst.
  - destruct (json r) as [v|e]; [|left; by eexists]. right.
    destruct (get v "error") as [e|e] eqn:He; [|left; by exists v, e]. right.
    exists v, e. split_and!; try done.
    destruct (truthy e); [right|by left]. split; [done|].
    destruct (ToString e); [left|right]; by eexists.
Qed.

(** The state in which nothing is in flight while the status is loading
    does not move. *)
Lemma stuck a :
  status a = loading ->
  (forall i, is_open a i = false) ->
  (forall k c, calls a !! k = Some c -> c = Returned) ->
  forall events, run a events = Normal a.
Proof.
  intros Hst Hopen Hret events. induction events as [|e events IH]; [done|].
  simpl. assert (step a e = Normal a) as ->; [|done].
  unfold step. assert (handle e a = a) as ->; [|by apply commit_unchanged].
  assert (disabled a = true) as Hd by (unfold disabled; by rewrite Hst).
  destruct e as [v|f| | |k r|k r|i d|i]; simpl; rewrite ?Hd; try done.
  - rewrite Hst. done.
  - destruct (calls a !! k) as [c|] eqn:Hk; [|done]. by rewrite (Hret k c Hk).
  - destruct (calls a !! k) as [c|] eqn:Hk; [|done]. by rewrite (Hret k c Hk).
  - specialize (Hopen i). unfold is_open in Hopen.
    destruct (sources a !! i) as [es|]; [|done]. by destruct (es_closed es).
  - by rewrite Hopen.
Qed.

(** C9, as the code has it: a 2xx answer whose body parses to a value other
    than null that has no job_id property sets the job identifier to
    undefined; no stream is opened, no error is reported, the status is
    loading, and no event whatsoever changes the state from then on. *)
Theorem C9_missing_job_id_hangs events a k r v :
  run initial events = Normal a ->
  calls a !! k = Some AtFetch ->
  ok r = true ->
  json r = Normal v -> v <> JNull -> v <> JUndefined ->
  has_property v "job_id" = false ->
  exists a',
    step a (FetchSettled k (Normal r)) = Normal a' /\
    jobId a' = JUndefined /\
    sources a' = sources a /\ (forall i, is_open a' i = false) /\
    errorMessage a' = JString "" /\ status a' = loading /\
    forall later, run a' later = Normal a'.
Proof.
  intros Hreach Hk Hok Hv Hn Hu Hp.
  pose proof (Inv_reachable _ _ Hreach) as HI.
  pose proof HI as [Ho Hc Hcalls _].
  destruct (Hcalls k _ Hk) as (_ & Hst & Hj & He & _); [done|].
  assert (forall i, is_open a i = false) as Hopen
    by (apply Inv_no_job; [done|by rewrite Hj]).
  assert (cleanup a = None) as Hcl.
  { destruct (cleanup a) as [c|] eqn:E; [|done].
    apply Hc in E. by rewrite Hj in E. }
  assert (job_id_of (Normal r) = Normal JUndefined) as Hid.
  { unfold job_id_of. simpl. rewrite Hok, Hv. simpl. by apply get_absent. }
  eexists. unfold step. simpl. rewrite Hk.
  unfold handleSubmit_fetch. rewrite Hid. unfold setJobId. simpl.
  rewrite Hj. simpl. rewrite commit_changed by (simpl; lia).
  unfold run_cleanup. simpl. rewrite Hcl. unfold stream_effect. simpl.
  split; [done|]. simpl. split_and!; try done.
  apply stuck; simpl.
  - done.
  - intros i. exact (Hopen i).
  - by apply (one_call_returned a k AtFetch).
Qed.

End Properties.

(** * The claims on concrete runs *)

(** A run of the demo host: the form is filled and submitted, the request
    goes out anonymously, the server answers with the job identifier abc, and
    the stream is open; unmounting the component closes it. Then, from a
    state in which that stream is open while an answer to the job-start
    request is awaited, the answer with the identifier xyz: the change of the
    job identifier closes the stream of abc and opens the one of xyz. *)
Lemma C1_witness :
  (@run Demo.engine initial Demo.started
     = Normal (Demo.state_after Demo.started) /\
   is_open (Demo.state_after Demo.started) 0 = true /\
   (forall i j,
      is_open (Demo.state_after Demo.started) i = true ->
      is_open (Demo.state_after Demo.started) j = true -> i = j) /\
   is_open (unmount (Demo.state_after Demo.started)) 0 = false) /\
  (open_is_registered Demo3.racing /\
   is_open Demo3.racing 0 = true /\
   jobId_rev (@handle Demo.engine Demo3.answered Demo3.racing) <> jobId_rev Demo3.racing /\
   is_open (run_cleanup
              (@handle Demo.engine Demo3.answered Demo3.racing)) 0 = false /\
   exists a',
     @step Demo.engine Demo3.racing Demo3.answered = Normal a' /\
     jobId a' = JString "xyz" /\
     is_open a' 0 = false /\ is_open a' 1 = true /\
     forall i j, is_open a' i = true -> is_open a' j = true -> i = j).
Proof.
  destruct (@C1_one_stream Demo.engine) as [Hreachable Hregistered].
  split.
  - destruct (Hreachable Demo.started (Demo.state_after Demo.started))
      as (_ & Hone & _ & _ & Hunmount & _); [vm_compute; reflexivity|].
    split; [vm_compute; reflexivity|]. split; [vm_compute; reflexivity|].
    split; [exact Hone|exact (Hunmount 0)].
  - assert (open_is_registered Demo3.racing) as Hreg.
    { intros [|i]; vm_compute; [reflexivity|discriminate]. }
    assert (jobId_rev (@handle Demo.engine Demo3.answered Demo3.racing) <> jobId_rev Demo3.racing) as Hrev.
    { vm_compute. discriminate. }
    destruct (Hregistered Demo3.racing Demo3.answered Hreg)
      as (_ & _ & Hcleanup & Hstep).
    destruct (Hcleanup Hrev) as [_ Hclosed].
    split; [exact Hreg|]. split; [vm_compute; reflexivity|].
    split; [exact Hrev|]. split; [exact (Hclosed 0)|].
    set (a' := set_cleanup (Some 1)
      (set_sources
         (alter close_source 0 (sources Demo3.racing) ++
          [{| es_url := "https://api.example/api/stream-job/xyz";
              es_jobId := JString "xyz"; es_closed := false |}])%list
         (setJobId (JString "xyz") (set_calls [Returned] Demo3.racing)))).
    assert (@step Demo.engine Demo3.racing Demo3.answered = Normal a')
      as Hrun by (vm_compute; reflexivity).
    destruct (Hstep a' Hrun) as (_ & Hone & Hchanged).
    destruct (Hchanged Hrev) as (Hold & _).
    exists a'. split; [exact Hrun|]. split; [vm_compute; reflexivity|].
    split; [apply Hold; vm_compute; lia|].
    split; [vm_compute; reflexivity|exact Hone].
Defined.



(** Scenario B of the specification: submitting the empty form. *)
Lemma C5_witness :
  (url initial = "" \/ resumeFile initial = None) /\
  status (handleSubmit initial) = error /\
  errorMessage (handleSubmit initial) = validation_message /\
  requests (handleSubmit initial) = [] /\
  calls (handleSubmit initial) = [] /\
  jobId (handleSubmit initial) = JNull /\
  @step Demo.engine initial Submit = Normal (handleSubmit initial).
Proof.
  split; [left; reflexivity|].
  destruct (@C5_missing_input_rejected Demo.engine initial)
    as (Hs & Hm & Hr & Hc & _ & Hj & _ & Hstep).
  - left; reflexivity.
  - split; [exact Hs|]. split; [exact Hm|]. split; [exact Hr|].
    split; [exact Hc|]. split; [exact Hj|]. apply Hstep. reflexivity.
Defined.

(** A payload that is no JSON, on the open stream of the job abc. *)
Lemma C6_witness :
  @JSON_parse Demo.engine "not json" = Throw Demo.syntax_error /\
  exists a',
    @step Demo.engine (Demo.state_after Demo.started) (Message 0 "not json")
      = Normal a' /\
    status a' = loading /\ logs a' = [] /\ report a' = JNull /\
    errorMessage a' = JString "" /\
    console a' = [("SSE Parse logic error", Demo.syntax_error)].
Proof.
  split; [vm_compute; reflexivity|].
  destruct (@C6_malformed_message_dropped Demo.engine
              (Demo.state_after Demo.started) 0 "not json" Demo.syntax_error)
    as (a' & Hstep & Hs & Hl & Hr & Hm & _ & _ & _ & _ & Hc).
  - vm_compute; reflexivity.
  - exists a'. split; [exact Hstep|].
    split; [rewrite Hs; vm_compute; reflexivity|].
    split; [rewrite Hl; vm_compute; reflexivity|].
    split; [rewrite Hr; vm_compute; reflexivity|].
    split; [rewrite Hm; vm_compute; reflexivity|].
    rewrite Hc; vm_compute; reflexivity.
Defined.

(** Submitting the filled form. *)
Lemma C7_witness :
  disabled (Demo.state_after [ChangeUrl "https://x"; ChangeFile (Some Demo.resume_pdf)])
    = false /\
  url (Demo.state_after [ChangeUrl "https://x"; ChangeFile (Some Demo.resume_pdf)])
    = "https://x" /\
  exists a',
    @step Demo.engine
      (Demo.state_after [ChangeUrl "https://x"; ChangeFile (Some Demo.resume_pdf)])
      Submit = Normal a' /\
    status a' = loading /\ logs a' = [] /\ report a' = JNull /\
    jobId a' = JNull /\ errorMessage a' = JString "" /\ requests a' = [] /\
    calls a' = [AtGetSession "https://x" Demo.resume_pdf].
Proof.
  split; [vm_compute; reflexivity|]. split; [vm_compute; reflexivity|].
  destruct (@C7_valid_submission_resets Demo.engine
              (Demo.state_after [ChangeUrl "https://x"; ChangeFile (Some Demo.resume_pdf)])
              Demo.resume_pdf)
    as (a' & Hstep & Hs & Hl & Hr & Hj & Hm & Hq & Hc).
  - vm_compute; reflexivity.
  - vm_compute; discriminate.
  - vm_compute; reflexivity.
  - exists a'. split; [exact Hstep|]. split; [exact Hs|]. split; [exact Hl|].
    split; [exact Hr|]. split; [exact Hj|]. split; [exact Hm|].
    split; [rewrite Hq; vm_compute; reflexivity|].
    rewrite Hc; vm_compute; reflexivity.
Defined.

(** The server refuses the job: with 429 and a structured error; with 500
    and an error that is an object; with 500 and an error that does not
    convert to a string. *)
Lemma C8_witness :
  @run Demo.engine initial Demo.submitted = Normal (Demo.state_after Demo.submitted) /\
  calls (Demo.state_after Demo.submitted) !! 0 = Some AtFetch /\
  ok (Demo.response 429 "Too Many Requests" Demo.quota_text) = false /\
  ok (Demo3.rejected Demo3.coded_error) = false /\
  (exists a',
     @step Demo.engine (Demo.state_after Demo.submitted)
       (FetchSettled 0 (Normal (Demo.response 429 "Too Many Requests" Demo.quota_text)))
       = Normal a' /\
     status a' = error /\ jobId a' = JNull /\
     errorMessage a' = JString "quota exceeded") /\
  (exists a',
     @step Demo.engine (Demo.state_after Demo.submitted)
       (FetchSettled 0 (Normal (Demo3.rejected Demo3.coded_error))) = Normal a' /\
     status a' = error /\ jobId a' = JNull /\
     errorMessage a' = JString "[object Object]") /\
  (exists a',
     @step Demo.engine (Demo.state_after Demo.submitted)
       (FetchSettled 0 (Normal (Demo3.rejected Demo3.opaque_error))) = Normal a' /\
     status a' = error /\ jobId a' = JNull /\
     errorMessage a' = JString "Cannot convert object to primitive value").
Proof.
  assert (@run Demo.engine initial Demo.submitted
          = Normal (Demo.state_after Demo.submitted)) as Hrun
    by (vm_compute; reflexivity).
  assert (calls (Demo.state_after Demo.submitted) !! 0 = Some AtFetch) as Hk
    by (vm_compute; reflexivity).
  split; [exact Hrun|]. split; [exact Hk|].
  split; [vm_compute; reflexivity|]. split; [vm_compute; reflexivity|].
  split; [|split].
  - destruct (@C8_rejected_job_start Demo.engine Demo.submitted
                (Demo.state_after Demo.submitted) 0
                (Demo.response 429 "Too Many Requests" Demo.quota_text) Hrun Hk)
      as (a' & Hstep & Hs & Hj & _ & _ & _ & _ & Hfield & _);
      [vm_compute; reflexivity|].
    exists a'. split; [exact Hstep|]. split; [exact Hs|]. split; [exact Hj|].
    apply (Hfield Demo.quota_value).
    + vm_compute; reflexivity.
    + vm_compute; reflexivity.
    + discriminate.
  - destruct (@C8_rejected_job_start Demo.engine Demo.submitted
                (Demo.state_after Demo.submitted) 0
                (Demo3.rejected Demo3.coded_error) Hrun Hk)
      as (a' & Hstep & Hs & Hj & _ & _ & _ & _ & _ & Hobject & _);
      [vm_compute; reflexivity|].
    exists a'. split; [exact Hstep|]. split; [exact Hs|]. split; [exact Hj|].
    apply (Hobject (JObject (<["error" := Demo3.coded_error]> ∅))
             (<["code" := JNumber 1%float]> ∅)).
    + vm_compute; reflexivity.
    + vm_compute; reflexivity.
    + vm_compute; reflexivity.
  - destruct (@C8_rejected_job_start Demo.engine Demo.submitted
                (Demo.state_after Demo.submitted) 0
                (Demo3.rejected Demo3.opaque_error) Hrun Hk)
      as (a' & Hstep & Hs & Hj & _ & _ & _ & _ & _ & _ & Hthrows & _);
      [vm_compute; reflexivity|].
    exists a'. split; [exact Hstep|]. split; [exact Hs|]. split; [exact Hj|].
    apply (Hthrows (JObject (<["error" := Demo3.opaque_error]> ∅))
             Demo3.opaque_error (@to_primitive_error Demo.engine)).
    + vm_compute; reflexivity.
    + vm_compute; reflexivity.
    + vm_compute; reflexivity.
    + vm_compute; reflexivity.
Defined.

(** The server refuses the job with 500 and the body {}: the message is the
    fixed one, which is neither a field of the body nor derived from the
    status. *)
Lemma C8_counterexample :
  @run Demo.engine initial Demo.submitted = Normal (Demo.state_after Demo.submitted) /\
  ok (Demo.response 500 "Internal Server Error" "{}") = false /\
  json (Demo.response 500 "Internal Server Error" "{}") = Normal (JObject ∅) /\
  claimed_error_message (Demo.response 500 "Internal Server Error" "{}")
    = JString "Server error: Internal Server Error" /\
  exists a',
    @step Demo.engine (Demo.state_after Demo.submitted)
      (FetchSettled 0 (Normal (Demo.response 500 "Internal Server Error" "{}")))
      = Normal a' /\
    status a' = error /\
    errorMessage a' = JString "Failed to start optimization job." /\
    errorMessage a' <>
      claimed_error_message (Demo.response 500 "Internal Server Error" "{}").
Proof.
  split; [vm_compute; reflexivity|]. split; [vm_compute; reflexivity|].
  split; [vm_compute; reflexivity|]. split; [vm_compute; reflexivity|].
  exists (Demo.state_after
            (Demo.submitted ++
             [FetchSettled 0
                (Normal (Demo.response 500 "Internal Server Error" "{}"))])).
  split; [vm_compute; reflexivity|]. split; [vm_compute; reflexivity|].
  split; [vm_compute; reflexivity|]. vm_compute. discriminate.
Qed.

(** The server accepts the job but answers {}. *)
Lemma C9_witness :
  @run Demo.engine initial Demo.submitted = Normal (Demo.state_after Demo.submitted) /\
  calls (Demo.state_after Demo.submitted) !! 0 = Some AtFetch /\
  ok (Demo.response 200 "OK" "{}") = true /\
  json (Demo.response 200 "OK" "{}") = Normal (JObject ∅) /\
  has_property (JObject ∅) "job_id" = false /\
  exists a',
    @step Demo.engine (Demo.state_after Demo.submitted)
      (FetchSettled 0 (Normal (Demo.response 200 "OK" "{}"))) = Normal a' /\
    jobId a' = JUndefined /\ sources a' = [] /\
    errorMessage a' = JString "" /\ status a' = loading /\
    @run Demo.engine a'
      [Submit; StartNewJob; Message 0 Demo.complete_text; ConnectionError 0]
      = Normal a'.
Proof.
  split; [vm_compute; reflexivity|]. split; [vm_compute; reflexivity|].
  split; [vm_compute; reflexivity|]. split; [vm_compute; reflexivity|].
  split; [vm_compute; reflexivity|].
  destruct (@C9_missing_job_id_hangs Demo.engine Demo.submitted
              (Demo.state_after Demo.submitted) 0
              (Demo.response 200 "OK" "{}") (JObject ∅))
    as (a' & Hstep & Hj & Hsrc & _ & Hm & Hs & Hstuck).
  - vm_compute; reflexivity.
  - vm_compute; reflexivity.
  - vm_compute; reflexivity.
  - vm_compute; reflexivity.
  - discriminate.
  - discriminate.
  - vm_compute; reflexivity.
  - exists a'. split; [exact Hstep|]. split; [exact Hj|].
    split; [rewrite Hsrc; vm_compute; reflexivity|].
    split; [exact Hm|]. split; [exact Hs|]. apply Hstuck.
Defined.

(** The server accepts the job but answers null: reading job_id throws, and
    the submission ends in status error with the message of the TypeError. *)
Lemma C9_counterexample :
  @run Demo.engine initial Demo.submitted = Normal (Demo.state_after Demo.submitted) /\
  calls (Demo.state_after Demo.submitted) !! 0 = Some AtFetch /\
  ok (Demo.response 200 "OK" "null") = true /\
  json (Demo.response 200 "OK" "null") = Normal JNull /\
  has_property JNull "job_id" = false /\
  exists a',
    @step Demo.engine (Demo.state_after Demo.submitted)
      (FetchSettled 0 (Normal (Demo.response 200 "OK" "null"))) = Normal a' /\
    status a' = error /\ status a' <> loading /\
    errorMessage a' = JString "Cannot read properties of null (reading 'job_id')" /\
    errorMessage a' <> JString "" /\
    jobId a' = JNull /\ jobId a' <> JUndefined.
Proof.
  split; [vm_compute; reflexivity|]. split; [vm_compute; reflexivity|].
  split; [vm_compute; reflexivity|]. split; [vm_compute; reflexivity|].
  split; [vm_compute; reflexivity|].
  exists (Demo.state_after
            (Demo.submitted ++
             [FetchSettled 0 (Normal (Demo.response 200 "OK" "null"))])).
  split; [vm_compute; reflexivity|]. split; [vm_compute; reflexivity|].
  split; [vm_compute; discriminate|]. split; [vm_compute; reflexivity|].
  split; [vm_compute; discriminate|]. split; [vm_compute; reflexivity|].
  vm_compute; discriminate.
Qed.

(** A job whose stream failed after one log line; the file is then taken out
    of the form and the form is submitted: the line and the job identifier
    are still there. *)
Lemma C10_witness :
  resumeFile
    (Demo.state_after
       (Demo.started ++
        [Message 0 (Demo.log_text "parsing");
         Message 0 (Demo.error_text "upstream timeout"); ChangeFile None]))
    = None /\
  logs (handleSubmit
    (Demo.state_after
       (Demo.started ++
        [Message 0 (Demo.log_text "parsing");
         Message 0 (Demo.error_text "upstream timeout"); ChangeFile None])))
    = [JString "parsing"] /\
  jobId (handleSubmit
    (Demo.state_after
       (Demo.started ++
        [Message 0 (Demo.log_text "parsing");
         Message 0 (Demo.error_text "upstream timeout"); ChangeFile None])))
    = JString "abc" /\
  report (handleSubmit
    (Demo.state_after
       (Demo.started ++
        [Message 0 (Demo.log_text "parsing");
         Message 0 (Demo.error_text "upstream timeout"); ChangeFile None])))
    = JNull.
Proof.
  split; [vm_compute; reflexivity|].
  destruct (@C10_validation_failure_frame Demo.engine
    (Demo.state_after
       (Demo.started ++
        [Message 0 (Demo.log_text "parsing");
         Message 0 (Demo.error_text "upstream timeout"); ChangeFile None])))
    as (Hj & Hl & Hr & _).
  - right. vm_compute; reflexivity.
  - split; [rewrite Hl; vm_compute; reflexivity|].
    split; [rewrite Hj; vm_compute; reflexivity|].
    rewrite Hr; vm_compute; reflexivity.
Defined.


(** * Further properties *)

Section MoreProperties.
Context `{Engine}.

(** ** Helpers *)

Lemma has_pending_lookup a :
  has_pending a = true <-> exists k c, calls a !! k = Some c /\ c <> Returned.
Proof.
  unfold has_pending. rewrite existsb_exists. split.
  - intros (c & Hin & Hr). apply list_elem_of_In, list_elem_of_lookup in Hin as [k Hk].
    exists k, c. split; [done|]. by intros ->.
  - intros (k & c & Hk & Hne). exists c. split.
    + apply list_elem_of_In. by eapply list_elem_of_lookup_2.
    + by destruct c.
Qed.

Lemma any_open_lookup a :
  any_open a = true <-> exists i, is_open a i = true.
Proof.
  unfold any_open, is_open. rewrite existsb_exists. split.
  - intros (es & Hin & Ho). apply list_elem_of_In, list_elem_of_lookup in Hin as [i Hi].
    exists i. by rewrite Hi.
  - intros (i & Hi). destruct (sources a !! i) as [es|] eqn:Hl; [|done].
    exists es. split; [|done]. apply list_elem_of_In. by eapply list_elem_of_lookup_2.
Qed.

Lemma truthy_js_or v w : truthy w = true -> truthy (js_or v w) = true.
Proof. unfold js_or. intros Hw. by destruct (truthy v) eqn:Hv. Qed.

Lemma Object_is_from_null v : Object_is JNull v = true -> v = JNull.
Proof. by destruct v. Qed.


(** ** The second invariant *)

Lemma Inv2_initial : Inv2 initial.
Proof.
  split; try done. all: intros; done.
Qed.

Lemma Inv2_frame a b :
  Inv2 a ->
  status b = status a -> errorMessage b = errorMessage a ->
  jobId b = jobId a -> logs b = logs a -> report b = report a ->
  sources b = sources a -> cleanup b = cleanup a -> calls b = calls a ->
  requests b = requests a ->
  Inv2 b.
Proof.
  intros [Hi Hr Hs Hl Hc Hq] Hst He Hj Hlg Hrp Hsrc Hcl Hca Hrq. split.
  - unfold idle_is_clean. rewrite Hst, Hlg, Hrp, Hj, He. apply Hi.
  - unfold report_with_success. rewrite Hst, Hrp. apply Hr.
  - unfold success_has_job. rewrite Hst, He, Hcl. apply Hs.
  - unfold loading_has_cause, has_pending, any_open.
    rewrite Hst, He, Hca, Hsrc, Hj. apply Hl.
  - unfold cleanup_is_current. rewrite Hcl, Hsrc, Hj. apply Hc.
  - unfold requests_follow_calls. rewrite Hrq, Hca. apply Hq.
Qed.

Lemma cleanup_is_current_close a b j :
  cleanup_is_current a ->
  sources b = alter close_source j (sources a) ->
  cleanup b = cleanup a -> jobId b = jobId a ->
  cleanup_is_current b.
Proof.
  intros Hc Hs Hcl Hj i. rewrite Hcl, Hs, Hj. intros Hi.
  destruct (Hc i Hi) as (es & id & Hl & Hjob & Hid & Hu).
  destruct (decide (j = i)) as [->|Hne].
  - exists (close_source es), id. rewrite list_lookup_alter_eq, Hl. by split_and!.
  - exists es, id. rewrite list_lookup_alter_ne by done. by split_and!.
Qed.

(** The effect, run on a change of the job identifier while the status is
    not success, re-establishes the second invariant. *)
Lemma stream_effect_Inv2 b a' :
  idle_is_clean b -> report_with_success b -> requests_follow_calls b ->
  status b <> success ->
  (status b = loading -> errorMessage b = JString "") ->
  stream_effect (run_cleanup b) = Normal a' -> Inv2 a'.
Proof.
  intros Hi Hr Hq Hns Hl.
  rewrite run_cleanup_eq. set (srcs := sources (run_cleanup b)).
  unfold stream_effect. simpl.
  destruct (truthy (jobId b)) eqn:Ht; simpl.
  2:{ intros [= <-]. split; [done|done| | | |done].
      - intros Hs. simpl in Hs. done.
      - intros Hs. simpl in *. split; [by apply Hl|]. by right; right.
      - intros i Hc. done. }
  case_bool_decide as Hs; simpl.
  { intros [= <-]. split; [done|done| | | |done].
    - intros Hs'. simpl in Hs'. done.
    - intros Hs'. simpl in Hs'. congruence.
    - intros i Hc. done. }
  destruct (ToString (jobId b)) as [id|] eqn:Hid; [simpl|done].
  destruct (EventSource_ctor _) as [[]|]; [simpl|done].
  intros [= <-]. split; [done|done| | | |done].
  - intros Hs'. simpl in Hs'. done.
  - intros Hs'. simpl in *. split; [by apply Hl|]. right; left.
    unfold any_open. simpl. rewrite existsb_app. simpl. apply orb_true_r.
  - intros i. simpl. intros [= <-].
    eexists _, id. rewrite list_lookup_middle by done. by split_and!.
Qed.

Lemma has_pending_snoc a c cs :
  running c = true -> calls a = (cs ++ [c])%list -> has_pending a = true.
Proof.
  intros Hr Hc. unfold has_pending. rewrite Hc, existsb_app. simpl.
  rewrite Hr. by rewrite orb_true_r.
Qed.

Lemma report_not_success a :
  Inv2 a -> status a <> success -> report a = JNull.
Proof.
  intros [_ Hr _ _ _ _] Hs. unfold report_with_success in Hr.
  by rewrite bool_decide_eq_false_2 in Hr.
Qed.

Lemma Inv2_handleSubmit a a' :
  Inv a -> Inv2 a -> disabled a = false ->
  commit a (handleSubmit a) = Normal a' -> Inv2 a'.
Proof.
  intros HI HI2 Hd. apply disabled_false in Hd as [Hl Hs].
  destruct (Inv_idle a HI Hl) as [Hopen Hret].
  pose proof (report_not_success a HI2 Hs) as Hrep.
  pose proof HI2 as [Hidle Hr Hsucc Hload Hcur Hreq].
  assert (forall msg, Inv2 (setStatus error (setErrorMessage msg a))) as Hinvalid.
  { intros msg. split; [done| |done|done|done|done].
    unfold report_with_success. simpl. done. }
  unfold handleSubmit.
  destruct (String.eqb_spec (url a) "") as [Hu|Hu];
    [|destruct (resumeFile a) as [file|]].
  1,3: rewrite commit_unchanged by done; intros [= <-]; apply Hinvalid.
  assert (requests_follow_calls
            (set_calls (calls a ++ [AtGetSession (url a) file]) a)) as Hreq'.
  { destruct Hreq as (Hall & Hlen & Hget). split; [done|]. simpl.
    rewrite length_app. simpl. split; [lia|].
    intros k u f [[_ Hk]|[-> [= <- <-]]]%lookup_snoc_Some.
    - by eapply Hget.
    - done. }
  unfold setJobId. simpl.
  destruct (Object_is (jobId a) JNull) eqn:Hj.
  - rewrite commit_unchanged by done. intros [= <-].
    split; [done|done|done| |done|done].
    intros _. split; [done|]. left.
    by apply (has_pending_snoc _ (AtGetSession (url a) file) (calls a)).
  - rewrite commit_changed by (simpl; lia).
    apply stream_effect_Inv2; try done.
Qed.

Lemma Inv2_start_new_job a a' :
  Inv a -> Inv2 a -> status a = success ->
  commit a (start_new_job a) = Normal a' -> Inv2 a'.
Proof.
  intros HI HI2 Hs.
  pose proof HI as [_ Hclean _ _].
  pose proof HI2 as [Hidle Hr Hsucc Hload Hcur Hreq].
  destruct (Hsucc Hs) as [Hem [c Hc]].
  pose proof (Hclean c Hc) as Ht.
  unfold start_new_job, setJobId. simpl.
  destruct (Object_is (jobId a) JNull) eqn:Hj.
  { apply Object_is_null in Hj. by rewrite Hj in Ht. }
  rewrite commit_changed by (simpl; lia).
  apply stream_effect_Inv2; try done.
Qed.

Lemma has_pending_insert a b k c :
  running c = true -> k < length (calls a) ->
  calls b = <[k := c]> (calls a) -> has_pending b = true.
Proof.
  intros Hr Hk Hc. apply has_pending_lookup. exists k, c.
  rewrite Hc, list_lookup_insert_eq by done. split; [done|]. by destruct c.
Qed.

Lemma Inv2_handleSubmit_getSession a k url resumeFile settled :
  Inv a -> Inv2 a -> calls a !! k = Some (AtGetSession url resumeFile) ->
  Inv2 (handleSubmit_getSession k url resumeFile settled a).
Proof.
  intros HI HI2 Hk.
  assert (AtGetSession url resumeFile <> Returned) as Hne by done.
  pose proof HI as [_ _ Hcalls _].
  destruct (Hcalls k _ Hk Hne) as (Hlen & Hst & Hj & Hem & Hlg & Hrp).
  pose proof (one_call_returned a k _ Hcalls Hk Hne) as Hret.
  pose proof HI2 as [Hidle Hr Hsucc Hload Hcur (Hall & Hcount & Hget)].
  destruct (Hget k _ _ Hk) as [Hurl Hk'].
  unfold handleSubmit_getSession. destruct settled as [session|err].
  - split; [done|done|done| |done|].
    + intros _. split; [done|]. left.
      apply (has_pending_insert a _ k AtFetch); [done| |done].
      by eapply lookup_lt_Some.
    + split; [|split].
      * simpl. apply Forall_app. split; [done|]. apply Forall_singleton.
        split_and!; try done. simpl.
        destruct session as [[token]|]; simpl; [|by left].
        destruct (String.eqb_spec token "") as [->|Htok]; [by left|].
        right. by exists token.
      * simpl. rewrite length_app, length_insert. simpl. lia.
      * simpl. intros k' u f Hl.
        apply list_lookup_insert_Some in Hl as [(_ & [=] & _)|[Hkk Hl]].
        assert (AtGetSession u f <> Returned) as Hne' by done.
        destruct (Hcalls k' _ Hl Hne') as (Hlen' & _). lia.
  - split; [done| |done|done|done|].
    + unfold report_with_success. simpl. done.
    + split; [done|]. simpl. rewrite length_insert. split; [done|].
      intros k' u f Hl. by apply Hret in Hl.
Qed.

Lemma Inv2_handleSubmit_fetch a a' k settled :
  Inv a -> Inv2 a -> calls a !! k = Some AtFetch ->
  commit a (handleSubmit_fetch k settled a) = Normal a' -> Inv2 a'.
Proof.
  intros HI HI2 Hk.
  assert (AtFetch <> Returned) as Hne by done.
  pose proof HI as [_ _ Hcalls _].
  destruct (Hcalls k _ Hk Hne) as (Hlen & Hst & Hj & Hem & Hlg & Hrp).
  pose proof (one_call_returned a k _ Hcalls Hk Hne) as Hret.
  pose proof HI2 as [Hidle Hr Hsucc Hload Hcur (Hall & Hcount & Hget)].
  assert (requests_follow_calls (set_calls (<[k:=Returned]> (calls a)) a))
    as Hreq'.
  { split; [done|]. simpl. rewrite length_insert. split; [done|].
    intros k' u f Hl. by apply Hret in Hl. }
  unfold handleSubmit_fetch. destruct (job_id_of settled) as [job_id|err].
  - unfold setJobId. simpl. destruct (Object_is (jobId a) job_id).
    + rewrite commit_unchanged by done. intros [= <-].
      split; [done|done|done| |done|done].
      intros _. split; [done|]. right; right. simpl. by rewrite Hj.
    + rewrite commit_changed by (simpl; lia).
      apply stream_effect_Inv2; try done.
      * intros Hs. simpl in Hs. congruence.
      * simpl. by rewrite Hst.
  - rewrite commit_unchanged by done. intros [= <-].
    split; [done| |done|done|done|done].
    unfold report_with_success. simpl. done.
Qed.

Lemma trigger_download_cells i j filename a :
  let a' := trigger_download i j filename a in
  status a' = status a /\ errorMessage a' = errorMessage a /\
  jobId a' = jobId a /\ logs a' = logs a /\ report a' = report a /\
  sources a' = sources a /\ cleanup a' = cleanup a /\ calls a' = calls a /\
  requests a' = requests a.
Proof. simpl. unfold trigger_download. by repeat case_match. Qed.

Lemma any_open_is_open a i : is_open a i = true -> any_open a = true.
Proof. intros Hi. apply any_open_lookup. eauto. Qed.

(** Closing the stream with a terminal status. *)
Lemma Inv2_terminal a b i :
  Inv a -> Inv2 a -> is_open a i = true ->
  sources b = alter close_source i (sources a) -> cleanup b = cleanup a ->
  jobId b = jobId a -> calls b = calls a -> requests b = requests a ->
  (status b = error /\ report b = report a) \/
  (status b = success /\ truthy (report b) = true /\
   errorMessage b = errorMessage a) ->
  Inv2 b.
Proof.
  intros HI HI2 Hi Hs Hcl Hj Hca Hrq Hcase.
  pose proof HI as [Ho _ _ _]. destruct (Ho i Hi) as [Hc Hload].
  pose proof HI2 as [Hidle Hr Hsucc Hloading Hcur Hreq].
  destruct (Hloading Hload) as [Hem _].
  assert (report a = JNull) as Hrep
    by (apply report_not_success; [done|by rewrite Hload]).
  assert (cleanup_is_current b) as Hcur'
    by by eapply cleanup_is_current_close.
  assert (requests_follow_calls b) as Hreq'
    by (unfold requests_follow_calls; by rewrite Hrq, Hca).
  destruct Hcase as [[Hst Hrp]|(Hst & Hrp & Hem')].
  - split; [| | | |done|done].
    + intros Hx. congruence.
    + unfold report_with_success. rewrite Hst, Hrp. simpl. done.
    + intros Hx. congruence.
    + intros Hx. congruence.
  - split; [| | | |done|done].
    + intros Hx. congruence.
    + unfold report_with_success. rewrite Hst. simpl. done.
    + intros _. rewrite Hem', Hcl, Hc. split; [done|by eexists].
    + intros Hx. congruence.
Qed.

Lemma Inv2_onmessage a i es data :
  Inv a -> Inv2 a -> sources a !! i = Some es -> es_closed es = false ->
  Inv2 (onmessage i (es_jobId es) data a).
Proof.
  intros HI HI2 Hl Hcl. pose proof (is_open_lookup a i es Hl Hcl) as Hi.
  pose proof HI as [Ho _ _ _]. destruct (Ho i Hi) as [Hc Hload].
  pose proof HI2 as [Hidle Hr Hsucc Hloading Hcur Hreq].
  apply onmessage_cases; intros.
  - split; [|done|done| |done|done].
    + intros Hx. simpl in Hx. congruence.
    + intros _. destruct (Hloading Hload) as [Hem _]. split; [done|].
      right; left. by apply (any_open_is_open _ i).
  - match goal with |- Inv2 (trigger_download ?i ?j ?f ?x) =>
      destruct (trigger_download_cells i j f x)
        as (Hst & Hem & Hj & Hlg & Hrp & Hsrc & Hcln & Hca & Hrq) end.
    simpl in *. eapply (Inv2_terminal a _ i); try done.
    right. rewrite Hst, Hrp, Hem. split_and!; try done.
    by apply truthy_js_or.
  - eapply (Inv2_terminal a _ i); try done. by left.
  - done.
  - by eapply Inv2_frame.
Qed.

Theorem Inv2_step a e a' : Inv a -> Inv2 a -> step a e = Normal a' -> Inv2 a'.
Proof.
  intros HI HI2. unfold step. destruct e as [v|f| | |k r|k r|i d|i]; simpl.
  - destruct (disabled a); rewrite commit_unchanged by done; intros [= <-];
      [done|by eapply Inv2_frame].
  - destruct (disabled a); rewrite commit_unchanged by done; intros [= <-];
      [done|by eapply Inv2_frame].
  - destruct (disabled a) eqn:Hd.
    + rewrite commit_unchanged by done. by intros [= <-].
    + by apply Inv2_handleSubmit.
  - case_bool_decide as Hs.
    + by apply Inv2_start_new_job.
    + rewrite commit_unchanged by done. by intros [= <-].
  - destruct (calls a !! k) as [[u f| |]|] eqn:Hk;
      rewrite commit_unchanged by (try done; by destruct r);
      intros [= <-]; try done.
    by apply Inv2_handleSubmit_getSession.
  - destruct (calls a !! k) as [[u f| |]|] eqn:Hk;
      try (rewrite commit_unchanged by done; by intros [= <-]).
    by apply Inv2_handleSubmit_fetch.
  - destruct (sources a !! i) as [es|] eqn:Hl;
      [destruct (es_closed es) eqn:Hcl|];
      try (rewrite commit_unchanged by done; by intros [= <-]).
    rewrite commit_unchanged by (symmetry; apply onmessage_frame).
    intros [= <-]. by apply Inv2_onmessage.
  - destruct (is_open a i) eqn:Hi;
      rewrite commit_unchanged by done; intros [= <-]; [|done].
    eapply (Inv2_terminal a _ i); try done. by left.
Qed.

Theorem Inv_both_run events : forall a a',
  Inv a -> Inv2 a -> run a events = Normal a' -> Inv a' /\ Inv2 a'.
Proof.
  induction events as [|e events IH]; intros a a' HI HI2; simpl.
  - by intros [= <-].
  - destruct (step a e) as [b|err] eqn:Hs; [simpl|done].
    intros Hr. eapply IH; [| |exact Hr].
    + by eapply Inv_step.
    + by eapply Inv2_step.
Qed.

Corollary Inv2_reachable events a : run initial events = Normal a -> Inv2 a.
Proof.
  intros Hr. by destruct (Inv_both_run events initial a Inv_initial Inv2_initial Hr).
Qed.

End MoreProperties.

Section LifecycleProperties.
Context `{Engine}.

(** ** The status machine *)

(** X1: one event moves the status along an arrow of the machine, or leaves
    it. Loading is entered only by a submit from idle or error, success only
    by a complete event on the open stream, idle only by the reset button in
    success; every other change ends in error. *)
Theorem status_transitions events a e a' :
  run initial events = Normal a ->
  step a e = Normal a' ->
  transition (status a) (status a') = true /\
  (status a' <> status a ->
   (status a' = loading -> e = Submit /\ status a <> success) /\
   (status a' = success ->
      exists i data, e = Message i data /\ is_open a i = true /\
        event_type data = Some "complete" /\ status a = loading) /\
   (status a' = idle -> e = StartNewJob /\ status a = success)).
Proof.
  intros Hreach Hstep. pose proof (Inv_reachable _ _ Hreach) as HI.
  pose proof HI as [Ho _ Hcalls _]. unfold step in Hstep.
  pose proof (commit_frame _ _ _ Hstep) as (_ & _ & -> & _). clear Hstep.
  assert (forall s, transition s s = true) as Hrefl by by intros [].
  destruct e as [v|f| | |k r|k r|i d|i]; simpl.
  - destruct (disabled a); by rewrite Hrefl.
  - destruct (disabled a); by rewrite Hrefl.
  - destruct (disabled a) eqn:Hd; [by rewrite Hrefl|].
    apply disabled_false in Hd as [Hl Hs].
    unfold handleSubmit, setJobId.
    destruct (String.eqb (url a) ""); [|destruct (resumeFile a)];
      repeat case_match; simpl; destruct (status a); done.
  - case_bool_decide as Hs; [|by rewrite Hrefl].
    unfold start_new_job, setJobId. repeat case_match; simpl; by rewrite Hs.
  - destruct (calls a !! k) as [[u f| |]|] eqn:Hk; try by rewrite Hrefl.
    destruct (Hcalls k _ Hk) as (_ & Hst & _); [done|].
    destruct r; simpl; by rewrite Hst.
  - destruct (calls a !! k) as [[u f| |]|] eqn:Hk; try by rewrite Hrefl.
    destruct (Hcalls k _ Hk) as (_ & Hst & _); [done|].
    unfold handleSubmit_fetch, setJobId.
    repeat case_match; simpl; by rewrite Hst.
  - destruct (sources a !! i) as [es|] eqn:Hl; [|by rewrite Hrefl].
    destruct (es_closed es) eqn:Hcl; [by rewrite Hrefl|].
    pose proof (is_open_lookup a i es Hl Hcl) as Hi.
    destruct (Ho i Hi) as [_ Hst].
    apply onmessage_cases; intros; try by rewrite Hrefl.
    + match goal with |- context [trigger_download ?i ?j ?f ?x] =>
        destruct (trigger_download_cells i j f x) as (-> & _) end.
      simpl. rewrite Hst. split; [done|]. intros _. split_and!; try done.
      intros _. by exists i, d.
    + simpl. by rewrite Hst.
  - destruct (is_open a i) eqn:Hi; [|by rewrite Hrefl].
    destruct (Ho i Hi) as [_ Hst]. simpl. by rewrite Hst.
Qed.

(** X2: the status is loading exactly while something is awaited, but for
    one hang: a call of [handleSubmit] suspended at an await or an open
    stream make the status loading (never both), and in status loading with
    neither of them the job identifier is falsy, so nothing will follow. *)
Theorem loading_means_waiting events a :
  run initial events = Normal a ->
  (has_pending a = true -> status a = loading) /\
  (any_open a = true -> status a = loading) /\
  (has_pending a = true -> any_open a = false) /\
  (status a = loading ->
   has_pending a = true \/ any_open a = true \/ truthy (jobId a) = false).
Proof.
  intros Hreach. pose proof (Inv_reachable _ _ Hreach) as HI.
  pose proof (Inv2_reachable _ _ Hreach) as [_ _ _ Hload _ _].
  pose proof HI as [Ho _ Hcalls _]. split_and!.
  - intros (k & c & Hk & Hne)%has_pending_lookup.
    by destruct (Hcalls k c Hk Hne) as (_ & ? & _).
  - intros [i Hi]%any_open_lookup. by destruct (Ho i Hi).
  - intros (k & c & Hk & Hne)%has_pending_lookup.
    destruct (Hcalls k c Hk Hne) as (_ & _ & Hj & _).
    destruct (any_open a) eqn:Hany; [|done].
    apply any_open_lookup in Hany as [i Hi].
    rewrite (Inv_no_job a HI) in Hi; [done|by rewrite Hj].
  - intros Hs. by destruct (Hload Hs).
Qed.

(** X3: a report is held exactly in status success: there it is truthy
    (an object, or whatever truthy value the complete event carried), and in
    every other status it is null. *)
Theorem report_only_in_success events a :
  run initial events = Normal a ->
  (status a = success -> truthy (report a) = true) /\
  (status a <> success -> report a = JNull).
Proof.
  intros Hreach. pose proof (Inv2_reachable _ _ Hreach) as HI2.
  pose proof HI2 as [_ Hr _ _ _ _]. unfold report_with_success in Hr. split.
  - intros Hs. by rewrite bool_decide_eq_true_2 in Hr.
  - by apply report_not_success.
Qed.

(** X4: outside of status error the error message is the empty string, and
    in status idle the log buffer and the job identifier are empty too. *)
Theorem error_message_only_in_error events a :
  run initial events = Normal a ->
  (status a <> error -> errorMessage a = JString "") /\
  (status a = idle -> logs a = [] /\ jobId a = JNull).
Proof.
  intros Hreach. pose proof (Inv2_reachable _ _ Hreach) as HI2.
  pose proof HI2 as [Hidle _ Hsucc Hload _ _]. split.
  - intros Hne. destruct (status a) eqn:Hs; [| | |done].
    + by destruct Hidle as (_ & _ & _ & ?).
    + by destruct Hload.
    + by destruct Hsucc.
  - intros Hs. by destruct (Hidle Hs) as (? & _ & ? & _).
Qed.

(** X5: an open stream is the stream of the current job: its EventSource
    was made for the job identifier the component holds now, at the URL of
    that job under the API base. *)
Theorem open_stream_is_current_job events a i :
  run initial events = Normal a ->
  is_open a i = true ->
  exists es id,
    sources a !! i = Some es /\ es_jobId es = jobId a /\
    ToString (jobId a) = Normal id /\
    es_url es = API_URL ++ "/api/stream-job/" ++ id.
Proof.
  intros Hreach Hi. pose proof (Inv_reachable _ _ Hreach) as [Ho _ _ _].
  pose proof (Inv2_reachable _ _ Hreach) as [_ _ _ _ Hcur _].
  destruct (Ho i Hi) as [Hc _]. by apply Hcur.
Qed.

(** X6: every request the component has sent is a POST to the job-start
    endpoint under the API base, carries a non-empty job URL, and carries
    either no Authorization header or "Bearer " followed by a non-empty
    token; there are never more requests than submissions that passed the
    validation. *)
Theorem requests_wellformed events a :
  run initial events = Normal a ->
  Forall request_ok (requests a) /\
  length (requests a) <= length (calls a).
Proof.
  intros Hreach. pose proof (Inv2_reachable _ _ Hreach) as [_ _ _ _ _ Hq].
  by destruct Hq as (? & ? & _).
Qed.

(** ** The awaits of handleSubmit *)

Lemma has_pending_none a :
  (forall k c, calls a !! k = Some c -> c = Returned) -> has_pending a = false.
Proof.
  intros Hret. destruct (has_pending a) eqn:Hp; [|done].
  apply has_pending_lookup in Hp as (k & c & Hk & Hne). by apply Hret in Hk.
Qed.

Lemma any_open_none a : (forall i, is_open a i = false) -> any_open a = false.
Proof.
  intros Hno. destruct (any_open a) eqn:Hp; [|done].
  apply any_open_lookup in Hp as [i Hi]. by rewrite Hno in Hi.
Qed.

(** What a call suspended at an await finds, in a reachable state. *)
Lemma awaiting a k c :
  Inv a -> calls a !! k = Some c -> c <> Returned ->
  status a = loading /\ jobId a = JNull /\ cleanup a = None /\
  (forall i, is_open a i = false) /\
  (forall k' c', <[k := Returned]> (calls a) !! k' = Some c' -> c' = Returned).
Proof.
  intros HI Hk Hne. pose proof HI as [_ Hclean Hcalls _].
  destruct (Hcalls k c Hk Hne) as (_ & Hst & Hj & _).
  split_and!; try done.
  - destruct (cleanup a) as [i|] eqn:Hc; [|done].
    apply Hclean in Hc. by rewrite Hj in Hc.
  - apply Inv_no_job; [done|by rewrite Hj].
  - by apply (one_call_returned a k c).
Qed.

(** X7: a 2xx answer whose body carries a truthy job_id that converts to a
    string, for a stream URL the EventSource constructor accepts, stores
    that identifier and opens exactly one stream for it, at
    API_URL/api/stream-job/<id>; the status stays loading. The guard
    [status === 'error'] of the effect (line 35) never stands in the way. *)
Theorem job_id_opens_stream events a k r data id s :
  run initial events = Normal a ->
  calls a !! k = Some AtFetch ->
  ok r = true -> json r = Normal data -> get data "job_id" = Normal id ->
  truthy id = true -> ToString id = Normal s ->
  EventSource_ctor (API_URL ++ "/api/stream-job/" ++ s) = Normal tt ->
  exists a',
    step a (FetchSettled k (Normal r)) = Normal a' /\
    jobId a' = id /\ status a' = loading /\
    sources a' =
      (sources a ++ [{| es_url := API_URL ++ "/api/stream-job/" ++ s;
                        es_jobId := id; es_closed := false |}])%list /\
    is_open a' (length (sources a)) = true /\
    has_pending a' = false /\ requests a' = requests a.
Proof.
  intros Hreach Hk Hok Hjson Hget Ht Hs Hctor.
  pose proof (Inv_reachable _ _ Hreach) as HI.
  destruct (awaiting a k AtFetch HI Hk) as (Hst & Hj & Hcl & Hopen & Hret);
    [done|].
  assert (job_id_of (Normal r) = Normal id) as Hid.
  { unfold job_id_of. simpl. by rewrite Hok, Hjson. }
  assert (Object_is JNull id = false) as Hnew.
  { destruct (Object_is JNull id) eqn:E; [|done].
    apply Object_is_from_null in E. by subst. }
  eexists. unfold step. simpl. rewrite Hk.
  unfold handleSubmit_fetch. rewrite Hid. unfold setJobId. simpl.
  rewrite Hj, Hnew. rewrite commit_changed by (simpl; lia).
  unfold run_cleanup. simpl. rewrite Hcl. unfold stream_effect. simpl.
  rewrite Ht, Hst. simpl. rewrite Hs. simpl. rewrite Hctor. simpl.
  split; [done|]. simpl. split_and!; try done.
  - unfold is_open. simpl. by rewrite list_lookup_middle.
  - by apply has_pending_none.
Qed.

(** X8: when the promise a submission awaits is rejected (the session
    lookup, the fetch, or the reading of a 2xx body that is no JSON) the
    status becomes error with the message of the rejection; no job
    identifier is set, no stream is opened, nothing stays pending, and a
    failed session lookup sends no request. *)
Theorem rejected_promises events a k err :
  run initial events = Normal a ->
  (forall url file, calls a !! k = Some (AtGetSession url file) ->
   exists a',
     step a (SessionSettled k (Throw err)) = Normal a' /\
     status a' = error /\ errorMessage a' = JString (err_message err) /\
     jobId a' = JNull /\ requests a' = requests a /\
     has_pending a' = false /\ any_open a' = false) /\
  (calls a !! k = Some AtFetch ->
   forall settled,
     settled = Throw err \/
     (exists r, settled = Normal r /\ ok r = true /\ json r = Throw err) ->
     exists a',
       step a (FetchSettled k settled) = Normal a' /\
       status a' = error /\ errorMessage a' = JString (err_message err) /\
       jobId a' = JNull /\ requests a' = requests a /\
       has_pending a' = false /\ any_open a' = false).
Proof.
  intros Hreach. pose proof (Inv_reachable _ _ Hreach) as HI. split.
  - intros u f Hk.
    destruct (awaiting a k _ HI Hk) as (Hst & Hj & Hcl & Hopen & Hret);
      [done|].
    eexists. unfold step. simpl. rewrite Hk. simpl.
    rewrite commit_unchanged by done. split; [done|]. simpl.
    split_and!; try done.
    + by apply has_pending_none.
    + by apply any_open_none.
  - intros Hk settled Hsettled.
    destruct (awaiting a k _ HI Hk) as (Hst & Hj & Hcl & Hopen & Hret);
      [done|].
    assert (job_id_of settled = Throw err) as Hthrow.
    { destruct Hsettled as [->|(r & -> & Hok & Hjson)]; [done|].
      unfold job_id_of. simpl. by rewrite Hok, Hjson. }
    eexists. unfold step. simpl. rewrite Hk.
    unfold handleSubmit_fetch. rewrite Hthrow.
    rewrite commit_unchanged by done. split; [done|]. simpl.
    split_and!; try done.
    + by apply has_pending_none.
    + by apply any_open_none.
Qed.

(** ** The reset button *)

Lemma invalid_submit a :
  url a = "" \/ resumeFile a = None ->
  status (handleSubmit a) = error /\
  errorMessage (handleSubmit a) = validation_message /\
  requests (handleSubmit a) = requests a /\
  calls (handleSubmit a) = calls a /\
  (disabled a = false -> step a Submit = Normal (handleSubmit a)).
Proof.
  intros Hm. rewrite (handleSubmit_invalid a Hm). split_and!; try done.
  intros Hd. unfold step. simpl. rewrite Hd, (handleSubmit_invalid a Hm).
  by rewrite commit_unchanged.
Qed.


Lemma stream_effect_falsy b :
  truthy (jobId b) = false ->
  stream_effect (run_cleanup b) = Normal (run_cleanup b).
Proof.
  intros Ht. rewrite run_cleanup_eq at 1 2. unfold stream_effect. simpl.
  rewrite Ht. simpl. by rewrite <- run_cleanup_eq.
Qed.

(** X9: the "Start a new job" button closes the stream of the finished job
    and clears the URL, the job identifier, the report and the log buffer,
    but keeps the selected file. Submitting the form right after is
    therefore turned down by the local validation, with no request sent,
    although a file is still selected. *)
Theorem reset_then_submit events a :
  run initial events = Normal a ->
  status a = success ->
  exists a1 a2,
    step a StartNewJob = Normal a1 /\
    status a1 = idle /\ url a1 = "" /\ resumeFile a1 = resumeFile a /\
    jobId a1 = JNull /\ report a1 = JNull /\ logs a1 = [] /\
    any_open a1 = false /\
    step a1 Submit = Normal a2 /\
    status a2 = error /\ errorMessage a2 = validation_message /\
    requests a2 = requests a /\ has_pending a2 = false.
Proof.
  intros Hreach Hs. pose proof (Inv_reachable _ _ Hreach) as HI.
  pose proof (Inv2_reachable _ _ Hreach) as [_ _ Hsucc _ _ _].
  pose proof HI as [_ Hclean _ _].
  destruct (Hsucc Hs) as [_ [c Hc]]. pose proof (Hclean c Hc) as Ht.
  assert (Object_is (jobId a) JNull = false) as Hnew.
  { destruct (Object_is (jobId a) JNull) eqn:E; [|done].
    apply Object_is_null in E. by rewrite E in Ht. }
  set (b := setLogs [] (setReport JNull
              {| url := ""; resumeFile := resumeFile a; status := idle;
                 errorMessage := errorMessage a; jobId := JNull;
                 logs := logs a; report := report a;
                 jobId_rev := S (jobId_rev a); sources := sources a;
                 cleanup := cleanup a; calls := calls a;
                 requests := requests a; downloads := downloads a;
                 console := console a |})).
  assert (step a StartNewJob = Normal (run_cleanup b)) as Hstep.
  { unfold step. simpl. rewrite bool_decide_eq_true_2 by done.
    unfold start_new_job, setJobId. simpl. rewrite Hnew.
    rewrite commit_changed by (simpl; lia). by apply stream_effect_falsy. }
  pose proof (Inv_step _ _ _ HI Hstep) as HI1.
  set (a1 := run_cleanup b) in *.
  assert (status a1 = idle /\ url a1 = "" /\ resumeFile a1 = resumeFile a /\
          jobId a1 = JNull /\ report a1 = JNull /\ logs a1 = [] /\
          calls a1 = calls a /\ requests a1 = requests a)
    as (Hst1 & Hu1 & Hf1 & Hj1 & Hrp1 & Hlg1 & Hca1 & Hrq1).
  { unfold a1. rewrite run_cleanup_eq. by split_and!. }
  assert (status a1 <> loading) as Hl by (rewrite Hst1; done).
  destruct (Inv_idle a1 HI1 Hl) as [Hopen Hret].
  assert (disabled a1 = false) as Hd by (unfold disabled; by rewrite Hst1).
  destruct (invalid_submit a1) as (Hs2 & Hm2 & Hq2 & Hc2 & Hstep2);
    [by left|].
  exists a1, (handleSubmit a1). split_and!; try done.
  - by apply any_open_none.
  - by apply Hstep2.
  - by rewrite Hq2, Hrq1.
  - apply has_pending_none. by rewrite Hc2.
Qed.

(** ** The log buffer and the effect *)

(** X10: the log buffer is append-only within a job: one event either leaves
    it, or empties it (a submit or the reset button), or is a log event on an
    open stream, which appends its line at the end. *)
Theorem logs_append_only a e a' :
  step a e = Normal a' ->
  logs a' = logs a \/
  (logs a' = [] /\ (e = Submit \/ e = StartNewJob)) \/
  (exists i data,
     e = Message i data /\ is_open a i = true /\
     event_type data = Some "log" /\
     logs a' = (logs a ++ [event_field data "data"])%list).
Proof.
  intros Hstep. unfold step in Hstep.
  pose proof (commit_frame _ _ _ Hstep) as (_&_&_&_&_& -> &_). clear Hstep.
  destruct e as [v|f| | |k r|k r|i d|i]; simpl.
  - left. by destruct (disabled a).
  - left. by destruct (disabled a).
  - destruct (disabled a); [by left|]. unfold handleSubmit, setJobId.
    repeat case_match; simpl; auto.
  - case_bool_decide; [|by left]. unfold start_new_job, setJobId.
    repeat case_match; simpl; auto.
  - left. destruct (calls a !! k) as [[u f| |]|]; try done. by destruct r.
  - left. destruct (calls a !! k) as [[u f| |]|]; try done.
    unfold handleSubmit_fetch, setJobId. by repeat case_match.
  - destruct (sources a !! i) as [es|] eqn:Hl; [|by left].
    destruct (es_closed es) eqn:Hcl; [by left|].
    pose proof (is_open_lookup a i es Hl Hcl) as Hi.
    apply onmessage_cases; intros; try by left.
    + right; right. by exists i, d.
    + left. match goal with |- context [trigger_download ?i ?j ?f ?x] =>
        by destruct (trigger_download_cells i j f x) as (_&_&_& -> &_) end.
  - left. by destruct (is_open a i).
Qed.

(** The effects that follow a handler throw only after the handler that
    stores a truthy job identifier for which the stream cannot be set up: the
    identifier does not convert to a string, or the EventSource constructor
    turns the URL down. *)
Lemma effect_throws a e err :
  step a e = Throw err ->
  exists k r id,
    e = FetchSettled k (Normal r) /\ calls a !! k = Some AtFetch /\
    job_id_of (Normal r) = Normal id /\ truthy id = true /\
    (ToString id = Throw err \/
     exists s, ToString id = Normal s /\
       EventSource_ctor (API_URL ++ "/api/stream-job/" ++ s) = Throw err).
Proof.
  unfold step, commit.
  assert (forall b, stream_effect (run_cleanup b) = Throw err ->
            truthy (jobId b) = true /\
            (ToString (jobId b) = Throw err \/
             exists s, ToString (jobId b) = Normal s /\
               EventSource_ctor (API_URL ++ "/api/stream-job/" ++ s) = Throw err))
    as Heffect.
  { intros b. rewrite run_cleanup_eq. unfold stream_effect. simpl.
    destruct (truthy (jobId b)); simpl; [|done].
    case_bool_decide; simpl; [done|].
    destruct (ToString (jobId b)) as [s|e'] eqn:Hs; simpl.
    - destruct (EventSource_ctor _) eqn:Hc; simpl; [done|].
      intros [= ->]. split; [done|]. right. by exists s.
    - intros [= ->]. split; [done|]. by left. }
  destruct (Nat.eqb _ _) eqn:Hrev; [done|].
  intros Hthrow. apply Heffect in Hthrow as [Ht Hwhy]. clear Heffect.
  apply Nat.eqb_neq in Hrev.
  destruct e as [v|f| | |k r|k r|i d|i]; simpl in *.
  - by destruct (disabled a).
  - by destruct (disabled a).
  - destruct (disabled a); [done|]. revert Ht Hrev.
    unfold handleSubmit, setJobId. repeat case_match; simpl; try done.
  - revert Ht Hrev. case_bool_decide; [|done].
    unfold start_new_job, setJobId. repeat case_match; simpl; try done.
  - destruct (calls a !! k) as [[u f| |]|]; try done. by destruct r.
  - destruct (calls a !! k) as [[u f| |]|] eqn:Hk; try done.
    revert Ht Hrev Hwhy. unfold handleSubmit_fetch.
    destruct (job_id_of r) as [id|e'] eqn:Hid; [|done].
    unfold setJobId. simpl. destruct (Object_is (jobId a) id); [done|]. simpl.
    intros Ht _ Hwhy. destruct r as [r|e']; [|done].
    by exists k, r, id.
  - destruct (sources a !! i) as [es|]; [|done].
    destruct (es_closed es); [done|].
    by destruct (onmessage_frame i (es_jobId es) d a) as (_ & Hr & _).
  - by destruct (is_open a i).
Qed.

End LifecycleProperties.

(** ** What is rendered *)

Section RenderingProperties.
Context `{Engine}.

(** X12: nothing the component holds is hidden: in every state it reaches,
    a non-empty log buffer means the log panel is rendered, a non-empty
    error message means the error box is rendered, and a report other than
    null means the report card is rendered. *)
Theorem held_data_is_shown events a :
  run initial events = Normal a ->
  (logs a <> [] -> log_panel_visible a = true) /\
  (errorMessage a <> JString "" -> error_box_visible a = true) /\
  (report a <> JNull -> report_card_visible a = true) /\
  (waiting_note_visible a = true -> logs a = [] /\ status a = loading).
Proof.
  intros Hreach. pose proof (Inv2_reachable _ _ Hreach) as HI2.
  pose proof HI2 as [Hidle _ Hsucc Hload _ _].
  unfold log_panel_visible, error_box_visible, report_card_visible,
    waiting_note_visible.
  split_and!.
  - intros Hlogs. destruct (status a) eqn:Hs; simpl; try done.
    + by destruct Hidle as (? & _).
    + destruct (logs a); [done|]. done.
  - intros Hem. apply bool_decide_eq_true_2.
    destruct (status a) eqn:Hs; [| | |done]; exfalso; apply Hem.
    + by destruct Hidle as (_ & _ & _ & ?).
    + by destruct Hload.
    + by destruct Hsucc.
  - intros Hrep. apply bool_decide_eq_true_2.
    destruct (decide (status a = success)) as [|Hne]; [done|].
    by rewrite (report_not_success a HI2 Hne) in Hrep.
  - intros [Hlen Hst]%andb_true_iff. apply Nat.eqb_eq in Hlen.
    apply bool_decide_eq_true in Hst. split; [|done].
    by destruct (logs a).
Qed.

(** X13: the grid has three columns exactly when three boxes are rendered
    and two columns only when two are; with the single narrow column there
    is one box, or, in status error with log lines, two. *)
Theorem grid_and_boxes a :
  (getGridCols a = "grid-cols-1 lg:grid-cols-3" <-> boxes a = 3) /\
  (getGridCols a = "grid-cols-1 lg:grid-cols-2" -> boxes a = 2) /\
  (getGridCols a = "grid-cols-1 max-w-2xl mx-auto" ->
   boxes a = 1 \/ (boxes a = 2 /\ status a = error /\ logs a <> [])).
Proof.
  unfold getGridCols, boxes, log_panel_visible, report_card_visible.
  destruct (status a) eqn:Hs; destruct (logs a) as [|line rest]; simpl;
    split_and!; try done; try (split; done); intros _; auto.
Qed.

(** X14: when the report card shows the raw output, there is something to
    show: reading [report.raw || report.error] does not throw and gives a
    truthy value, the raw text when there is one and the error otherwise.
    A report that is null (or no object) never takes this branch. *)
Theorem raw_output_is_there report :
  raw_output_shown report = true ->
  exists v,
    raw_output report = Normal v /\ truthy v = true /\
    v = js_or (get_optional report "raw") (get_optional report "error") /\
    exists m, report = JObject m.
Proof.
  unfold raw_output_shown, raw_output, js_or.
  destruct report; simpl; try done.
  destruct (truthy (default JUndefined (m !! "error"))) eqn:He;
    destruct (truthy (default JUndefined (m !! "raw"))) eqn:Hr;
    intros Ht; try done; eexists; split_and!; eauto.
Qed.

End RenderingProperties.

Section RenderingListsProperties.
Context `{Engine}.
Variable toLowerCase : string -> string.
Variable not_a_function : JSValue -> string -> JSError.

Lemma prefix_app sub s :
  String.prefix sub s = true <-> exists post, s = sub ++ post.
Proof.
  revert sub. induction s as [|d s IH]; intros [|c sub]; simpl.
  - split; [intros _; by exists ""|done].
  - split; [done|]. by intros [post [=]].
  - split; [intros _; by eexists|done].
  - destruct (Ascii.ascii_dec c d) as [->|Hne].
    + rewrite IH. split; intros [post Hp]; exists post.
      * by rewrite Hp.
      * by injection Hp.
    + split; [done|]. intros [post [= ? ?]]. done.
Qed.

Lemma includes_app s sub :
  includes s sub = true <-> exists pre post, s = pre ++ sub ++ post.
Proof.
  induction s as [|c s IH].
  - change (includes "" sub) with (String.prefix sub "" || false).
    rewrite orb_false_r, prefix_app. split.
    + intros [post Hp]. by exists "", post.
    + intros (pre & post & Hp). destruct pre; [by exists post|done].
  - change (includes (String c s) sub)
      with (String.prefix sub (String c s) || includes s sub).
    rewrite orb_true_iff, prefix_app, IH. split.
    + intros [[post Hp]|(pre & post & Hp)].
      * by exists "", post.
      * exists (String c pre), post. simpl. by rewrite Hp.
    + intros (pre & post & Hp). destruct pre as [|d pre]; simpl in Hp.
      * left. by exists post.
      * right. exists pre, post. by injection Hp.
Qed.

(** A log line is marked as an error line exactly when its lower-cased text
    contains "error" somewhere. *)
Lemma error_lines_are_marked s :
  log_class toLowerCase not_a_function (JString s) = Normal "text-rose-400" <->
  exists pre post, toLowerCase s = pre ++ "error" ++ post.
Proof.
  simpl. rewrite <- includes_app.
  destruct (includes (toLowerCase s) "error"); split; (done || by intros [=]).
Qed.

Lemma log_class_string log c :
  log_class toLowerCase not_a_function log = Normal c ->
  exists s, log = JString s.
Proof. destruct log; simpl; try done. eauto. Qed.

Lemma log_classes_snoc_throw logs log :
  (forall s, log <> JString s) ->
  exists err,
    log_classes toLowerCase not_a_function (logs ++ [log]) = Throw err.
Proof.
  intros Hlog. induction logs as [|l logs [err IH]]; simpl.
  - destruct (log_class toLowerCase not_a_function log) as [c|err] eqn:Hc;
      [|by exists err].
    apply log_class_string in Hc as [s ->]. by destruct (Hlog s).
  - rewrite IH.
    destruct (log_class toLowerCase not_a_function l); simpl; eauto.
Qed.

(** X15: the log panel can only render strings. A log event whose data field
    is absent or is no string is appended all the same, and from then on
    computing the classes of the lines of the (visible) log panel throws. *)
Theorem log_lines_must_be_strings events a i data :
  run initial events = Normal a ->
  is_open a i = true ->
  event_type data = Some "log" ->
  (forall s, event_field data "data" <> JString s) ->
  exists a' err,
    step a (Message i data) = Normal a' /\
    logs a' = (logs a ++ [event_field data "data"])%list /\
    log_panel_visible a' = true /\
    log_classes toLowerCase not_a_function (logs a') = Throw err.
Proof.
  intros Hreach Hi Hlog Hdata.
  pose proof (Inv_reachable _ _ Hreach) as [Ho _ _ _].
  destruct (Ho i Hi) as [_ Hst].
  destruct (is_open_inv a i Hi) as (es & Hl & Hc).
  destruct (log_classes_snoc_throw (logs a) _ Hdata) as [err Herr].
  exists (onmessage i (es_jobId es) data a), err.
  rewrite (step_message a i es data Hl Hc), onmessage_log by done.
  split_and!; try done.
  unfold log_panel_visible. simpl. by rewrite Hst.
Qed.

(** X16: the keyword lists of the report card, after a complete event with
    an object as report: a missing or null list shows the placeholder, an
    array shows one chip per element (none at all, and no placeholder, when
    it is empty), and any other value makes the rendering throw, since only
    an array has [map]. *)
Theorem keyword_chips_of_report a i c m k :
  is_open a i = true ->
  event_type c = Some "complete" ->
  event_field c "report" = JObject m ->
  exists a',
    step a (Message i c) = Normal a' /\
    report_card_visible a' = true /\ report a' = JObject m /\
    match m !! k with
    | None | Some JUndefined | Some JNull =>
        keyword_chips not_a_function (report a') k = Normal None
    | Some (JArray kws) =>
        keyword_chips not_a_function (report a') k = Normal (Some kws)
    | Some v =>
        keyword_chips not_a_function (report a') k
        = Throw (not_a_function v "map")
    end.
Proof.
  intros Hi Hc Hm.
  destruct (is_open_inv a i Hi) as (es & Hl & Hcl).
  exists (onmessage i (es_jobId es) c a).
  rewrite (step_message a i es c Hl Hcl), onmessage_complete by done.
  match goal with |- context [trigger_download ?i ?j ?f ?x] =>
    destruct (trigger_download_cells i j f x) as (Hst & _ & _ & _ & Hr & _) end.
  unfold report_card_visible. rewrite Hst, Hr. simpl. rewrite Hm. simpl.
  split_and!; try done.
  unfold keyword_chips. simpl. by destruct (m !! k) as [[]|].
Qed.

End RenderingListsProperties.

(** ** The login form *)

Module LoginProperties.
Import Login.

Lemma form_Inv_initial : Inv initial.
Proof. split; try done. split; by left. Qed.

Lemma form_Inv_edit s e : is_edit e = true -> Inv s -> Inv (step s e).
Proof. destruct e; try done; intros _ [? ? ? ?]; by split. Qed.

Lemma form_Inv_step s e : Inv s -> Inv (step s e).
Proof.
  intros HI. destruct (is_edit e) eqn:He; [by apply form_Inv_edit|].
  pose proof HI as [Hl Hp Hm Hc].
  destruct e as [| | | |k settled]; try done; simpl.
  - destruct (loading s) eqn:Hload; [done|].
    split; simpl.
    + intros _. eexists. by rewrite last_snoc.
    + intros k method [[_ Hk]|[-> _]]%lookup_snoc_Some.
      * destruct (Hp k method Hk) as (_ & ? & _). congruence.
      * rewrite length_app. simpl. split_and!; try done. lia.
    + split; by left.
    + rewrite !length_app. simpl. lia.
  - destruct (invocations s !! k) as [[method|]|] eqn:Hk; try done.
    destruct (Hp k method Hk) as (Hlen & Hload & He' & Hs').
    assert (forall k' m, <[k:=Finished]> (invocations s) !! k' = Some (AtAuth m)
              -> False) as Hnone.
    { intros k' m [(_ & [=] & _)|[Hne Hk']]%list_lookup_insert_Some.
      destruct (Hp k' m Hk') as (Hlen' & _). lia. }
    unfold handleAuth_settled.
    destruct settled as [[err|]|err]; [|destruct method|]; split; simpl;
      try done;
      try (intros k' m Hk'; by destruct (Hnone k' m));
      try (by rewrite length_insert);
      rewrite ?He', ?Hs'; split; auto.
Qed.

Lemma form_Inv_run events : forall s, Inv s -> Inv (run s events).
Proof.
  induction events as [|e events IH]; intros s HI; [done|].
  apply IH. by apply form_Inv_step.
Qed.

(** X17: the form is loading exactly while a call to the identity provider
    is awaited, whatever the outcome of the earlier ones (the [finally]
    ends the loading on success, on a returned error and on a rejection);
    only one call is awaited at a time, and every submission that went
    through made exactly one call. *)
Theorem loading_iff_awaiting events :
  let s := run initial events in
  (loading s = true <->
   exists k method, invocations s !! k = Some (AtAuth method)) /\
  (forall k k' m m', invocations s !! k = Some (AtAuth m) ->
     invocations s !! k' = Some (AtAuth m') -> k = k') /\
  length (auth_calls s) = length (invocations s).
Proof.
  simpl. destruct (form_Inv_run events initial form_Inv_initial) as [Hl Hp Hm Hc].
  split_and!; [split| |done].
  - intros Hload. destruct (Hl Hload) as [method Hlast].
    rewrite last_lookup in Hlast. eauto.
  - intros (k & method & Hk). by destruct (Hp k method Hk) as (_ & ? & _).
  - intros k k' m m' Hk Hk'.
    destruct (Hp k m Hk) as (? & _), (Hp k' m' Hk') as (? & _). lia.
Qed.

(** X18: the error message and the confirmation never show together, the
    only success message is the confirmation of a sign-up, and while the
    form is loading both are empty. *)
Theorem messages_exclusive events :
  let s := run initial events in
  (errorMsg s = "" \/ successMsg s = "") /\
  (successMsg s = "" \/ successMsg s = confirmation) /\
  (loading s = true -> errorMsg s = "" /\ successMsg s = "").
Proof.
  simpl. destruct (form_Inv_run events initial form_Inv_initial) as [Hl Hp [Hm Hs] Hc].
  split_and!; try done.
  intros Hload. destruct (Hl Hload) as [method Hlast].
  rewrite last_lookup in Hlast.
  by destruct (Hp _ method Hlast) as (_ & _ & ? & ?).
Qed.

Lemma form_run_edits edits : forall s,
  Forall (fun e => is_edit e = true) edits ->
  loading (run s edits) = loading s /\
  errorMsg (run s edits) = errorMsg s /\
  successMsg (run s edits) = successMsg s /\
  auth_calls (run s edits) = auth_calls s /\
  invocations (run s edits) = invocations s.
Proof.
  induction edits as [|e edits IH]; intros s Hall; [done|].
  inversion Hall as [|? ? He Hall']; subst. simpl.
  destruct (IH (step s e) Hall') as (-> & -> & -> & -> & ->).
  by destruct e.
Qed.

Lemma form_run_app xs ys s : run s (xs ++ ys) = run (run s xs) ys.
Proof. apply foldl_app. Qed.

(** X19: the outcome of a submission is fixed when the form is submitted.
    The call carries the email, the password and the mode of that moment;
    whatever is typed or toggled while it is awaited, a success sets the
    confirmation exactly when the mode was sign-up then (even if the form
    shows sign-in by now), and a failure, returned or thrown, sets its
    message; either way the loading ends. *)
Theorem outcome_fixed_at_submit s edits settled :
  loading s = false ->
  Forall (fun e => is_edit e = true) edits ->
  let method := if isSignUp s then signUp else signInWithPassword in
  let s' := run s (Submit :: edits ++ [Settled (length (invocations s)) settled]) in
  loading s' = false /\
  auth_calls s' =
    (auth_calls s ++ [{| call_method := method; call_email := email s;
                         call_password := password s |}])%list /\
  (settled = Normal None ->
   errorMsg s' = "" /\
   successMsg s' = if isSignUp s then confirmation else "") /\
  (forall err, settled = Normal (Some err) \/ settled = Throw err ->
   errorMsg s' = err_message err /\ successMsg s' = "").
Proof.
  intros Hload Hedits. simpl. rewrite Hload, form_run_app.
  destruct (form_run_edits edits (handleAuth s) Hedits)
    as (Hl & He & Hs & Hc & Hi).
  set (t := run (handleAuth s) edits) in *. clearbody t.
  simpl in Hl, He, Hs, Hc, Hi.
  simpl. rewrite Hi, list_lookup_middle by done.
  unfold handleAuth_settled.
  destruct settled as [[err|]|err]; [|destruct (isSignUp s)|]; simpl;
    rewrite ?He, ?Hs, ?Hc; split_and!; try done;
    intros err' [[=]|[=]]; by subst.
Qed.

End LoginProperties.

(** * The further properties on concrete runs *)

(** The complete event takes the started job from loading to success. *)
Lemma status_transitions_witness :
  @run Demo.engine initial Demo.started = Normal (Demo.state_after Demo.started) /\
  @step Demo.engine (Demo.state_after Demo.started) (Message 0 Demo.complete_text)
    = Normal (Demo.state_after Demo2.completed) /\
  transition (status (Demo.state_after Demo.started))
             (status (Demo.state_after Demo2.completed)) = true.
Proof.
  assert (H1 : @run Demo.engine initial Demo.started
               = Normal (Demo.state_after Demo.started))
    by (vm_compute; reflexivity).
  assert (H2 : @step Demo.engine (Demo.state_after Demo.started)
                 (Message 0 Demo.complete_text)
               = Normal (Demo.state_after Demo2.completed))
    by (vm_compute; reflexivity).
  split; [exact H1|]. split; [exact H2|].
  exact (proj1 (@status_transitions Demo.engine _ _ _ _ H1 H2)).
Defined.

(** With the stream of job abc open, the status is loading. *)
Lemma loading_means_waiting_witness :
  @run Demo.engine initial Demo.started = Normal (Demo.state_after Demo.started) /\
  any_open (Demo.state_after Demo.started) = true /\
  status (Demo.state_after Demo.started) = loading.
Proof.
  assert (H1 : @run Demo.engine initial Demo.started
               = Normal (Demo.state_after Demo.started))
    by (vm_compute; reflexivity).
  assert (H2 : any_open (Demo.state_after Demo.started) = true)
    by (vm_compute; reflexivity).
  split; [exact H1|]. split; [exact H2|].
  destruct (@loading_means_waiting Demo.engine _ _ H1) as (_ & Hopen & _).
  exact (Hopen H2).
Defined.

(** After the complete event the report is held. *)
Lemma report_only_in_success_witness :
  @run Demo.engine initial Demo2.completed
    = Normal (Demo.state_after Demo2.completed) /\
  status (Demo.state_after Demo2.completed) = success /\
  truthy (report (Demo.state_after Demo2.completed)) = true.
Proof.
  assert (H1 : @run Demo.engine initial Demo2.completed
               = Normal (Demo.state_after Demo2.completed))
    by (vm_compute; reflexivity).
  assert (H2 : status (Demo.state_after Demo2.completed) = success)
    by (vm_compute; reflexivity).
  split; [exact H1|]. split; [exact H2|].
  exact (proj1 (@report_only_in_success Demo.engine _ _ H1) H2).
Defined.

(** While the job runs there is no error message. *)
Lemma error_message_only_in_error_witness :
  @run Demo.engine initial Demo.started = Normal (Demo.state_after Demo.started) /\
  status (Demo.state_after Demo.started) <> error /\
  errorMessage (Demo.state_after Demo.started) = JString "".
Proof.
  assert (H1 : @run Demo.engine initial Demo.started
               = Normal (Demo.state_after Demo.started))
    by (vm_compute; reflexivity).
  assert (H2 : status (Demo.state_after Demo.started) <> error)
    by (vm_compute; discriminate).
  split; [exact H1|]. split; [exact H2|].
  exact (proj1 (@error_message_only_in_error Demo.engine _ _ H1) H2).
Defined.

(** The stream of the started job is the one of job abc. *)
Lemma open_stream_is_current_job_witness :
  @run Demo.engine initial Demo.started = Normal (Demo.state_after Demo.started) /\
  is_open (Demo.state_after Demo.started) 0 = true /\
  exists es id,
    sources (Demo.state_after Demo.started) !! 0 = Some es /\
    es_jobId es = jobId (Demo.state_after Demo.started) /\
    @ToString Demo.engine (jobId (Demo.state_after Demo.started)) = Normal id /\
    es_url es = @API_URL Demo.engine ++ "/api/stream-job/" ++ id.
Proof.
  assert (H1 : @run Demo.engine initial Demo.started
               = Normal (Demo.state_after Demo.started))
    by (vm_compute; reflexivity).
  assert (H2 : is_open (Demo.state_after Demo.started) 0 = true)
    by (vm_compute; reflexivity).
  split; [exact H1|]. split; [exact H2|].
  exact (@open_stream_is_current_job Demo.engine _ _ 0 H1 H2).
Defined.

(** The request of the demo submission. *)
Lemma requests_wellformed_witness :
  @run Demo.engine initial Demo.submitted
    = Normal (Demo.state_after Demo.submitted) /\
  length (requests (Demo.state_after Demo.submitted)) = 1 /\
  Forall (@request_ok Demo.engine) (requests (Demo.state_after Demo.submitted)).
Proof.
  assert (H1 : @run Demo.engine initial Demo.submitted
               = Normal (Demo.state_after Demo.submitted))
    by (vm_compute; reflexivity).
  split; [exact H1|]. split; [vm_compute; reflexivity|].
  exact (proj1 (@requests_wellformed Demo.engine _ _ H1)).
Defined.

(** The answer with job identifier abc opens the stream of abc. *)
Lemma job_id_opens_stream_witness :
  @run Demo.engine initial Demo.submitted
    = Normal (Demo.state_after Demo.submitted) /\
  calls (Demo.state_after Demo.submitted) !! 0 = Some AtFetch /\
  exists a',
    @step Demo.engine (Demo.state_after Demo.submitted)
      (FetchSettled 0 (Normal (Demo.response 200 "OK" (Demo.job_text "abc"))))
      = Normal a' /\
    jobId a' = JString "abc" /\ status a' = loading /\
    is_open a' (length (sources (Demo.state_after Demo.submitted))) = true.
Proof.
  assert (H1 : @run Demo.engine initial Demo.submitted
               = Normal (Demo.state_after Demo.submitted))
    by (vm_compute; reflexivity).
  assert (H2 : calls (Demo.state_after Demo.submitted) !! 0 = Some AtFetch)
    by (vm_compute; reflexivity).
  split; [exact H1|]. split; [exact H2|].
  destruct (@job_id_opens_stream Demo.engine Demo.submitted
              (Demo.state_after Demo.submitted) 0
              (Demo.response 200 "OK" (Demo.job_text "abc"))
              (Demo.job_value "abc") (JString "abc") "abc" H1 H2)
    as (a' & Hstep & Hid & Hst & _ & Hopen & _).
  - vm_compute; reflexivity.
  - vm_compute; reflexivity.
  - vm_compute; reflexivity.
  - vm_compute; reflexivity.
  - vm_compute; reflexivity.
  - vm_compute; reflexivity.
  - exists a'. split; [exact Hstep|]. split; [exact Hid|].
    split; [exact Hst|exact Hopen].
Defined.

(** The network is down: the fetch of the demo submission is rejected. *)
Lemma rejected_promises_witness :
  @run Demo.engine initial Demo.submitted
    = Normal (Demo.state_after Demo.submitted) /\
  calls (Demo.state_after Demo.submitted) !! 0 = Some AtFetch /\
  exists a',
    @step Demo.engine (Demo.state_after Demo.submitted)
      (FetchSettled 0 (Throw Demo2.failed_to_fetch)) = Normal a' /\
    status a' = error /\ errorMessage a' = JString "Failed to fetch" /\
    jobId a' = JNull.
Proof.
  assert (H1 : @run Demo.engine initial Demo.submitted
               = Normal (Demo.state_after Demo.submitted))
    by (vm_compute; reflexivity).
  assert (H2 : calls (Demo.state_after Demo.submitted) !! 0 = Some AtFetch)
    by (vm_compute; reflexivity).
  split; [exact H1|]. split; [exact H2|].
  destruct (proj2 (@rejected_promises Demo.engine Demo.submitted
                     (Demo.state_after Demo.submitted) 0
                     Demo2.failed_to_fetch H1)
              H2 (Throw Demo2.failed_to_fetch) (or_introl eq_refl))
    as (a' & Hstep & Hst & Hmsg & Hid & _).
  exists a'. split; [exact Hstep|]. split; [exact Hst|].
  split; [exact Hmsg|exact Hid].
Defined.

(** Resetting after the completed job, then submitting at once. *)
Lemma reset_then_submit_witness :
  @run Demo.engine initial Demo2.completed
    = Normal (Demo.state_after Demo2.completed) /\
  status (Demo.state_after Demo2.completed) = success /\
  exists a1 a2,
    @step Demo.engine (Demo.state_after Demo2.completed) StartNewJob = Normal a1 /\
    resumeFile a1 = Some Demo.resume_pdf /\
    @step Demo.engine a1 Submit = Normal a2 /\
    status a2 = error /\ errorMessage a2 = validation_message.
Proof.
  assert (H1 : @run Demo.engine initial Demo2.completed
               = Normal (Demo.state_after Demo2.completed))
    by (vm_compute; reflexivity).
  assert (H2 : status (Demo.state_after Demo2.completed) = success)
    by (vm_compute; reflexivity).
  split; [exact H1|]. split; [exact H2|].
  destruct (@reset_then_submit Demo.engine _ _ H1 H2)
    as (a1 & a2 & Hs1 & _ & _ & Hfile & _ & _ & _ & _ & Hs2 & Hst & Hmsg & _).
  exists a1, a2. split; [exact Hs1|].
  split; [rewrite Hfile; vm_compute; reflexivity|].
  split; [exact Hs2|]. split; [exact Hst|exact Hmsg].
Defined.

(** A log line on the open stream is appended. *)
Lemma logs_append_only_witness :
  @step Demo.engine (Demo.state_after Demo.started)
    (Message 0 (Demo.log_text "parsing"))
    = Normal (Demo.state_after
                (Demo.started ++ [Message 0 (Demo.log_text "parsing")])) /\
  logs (Demo.state_after
          (Demo.started ++ [Message 0 (Demo.log_text "parsing")]))
    = (logs (Demo.state_after Demo.started) ++ [JString "parsing"])%list.
Proof.
  assert (H1 : @step Demo.engine (Demo.state_after Demo.started)
                 (Message 0 (Demo.log_text "parsing"))
               = Normal (Demo.state_after
                   (Demo.started ++ [Message 0 (Demo.log_text "parsing")])))
    by (vm_compute; reflexivity).
  split; [exact H1|].
  destruct (@logs_append_only Demo.engine _ _ _ H1)
    as [Hsame|[[Hnil _]|(i & data & _ & _ & _ & Happ)]].
  - vm_compute; reflexivity.
  - vm_compute; reflexivity.
  - vm_compute; reflexivity.
Defined.

(** After the failed stream the log line is still on the page, beside the
    error box. *)
Lemma held_data_is_shown_witness :
  @run Demo.engine initial Demo2.failed = Normal (Demo.state_after Demo2.failed) /\
  logs (Demo.state_after Demo2.failed) <> [] /\
  log_panel_visible (Demo.state_after Demo2.failed) = true.
Proof.
  assert (H1 : @run Demo.engine initial Demo2.failed
               = Normal (Demo.state_after Demo2.failed))
    by (vm_compute; reflexivity).
  assert (H2 : logs (Demo.state_after Demo2.failed) <> [])
    by (vm_compute; discriminate).
  split; [exact H1|]. split; [exact H2|].
  exact (proj1 (@held_data_is_shown Demo.engine _ _ H1) H2).
Defined.

(** Scenario E of the specification: the raw text wins over the error. *)
Lemma raw_output_is_there_witness :
  raw_output_shown Demo2.fallback_report = true /\
  exists v,
    @raw_output Demo.engine Demo2.fallback_report = Normal v /\ truthy v = true.
Proof.
  assert (H1 : raw_output_shown Demo2.fallback_report = true)
    by (vm_compute; reflexivity).
  split; [exact H1|].
  destruct (@raw_output_is_there Demo.engine _ H1) as (v & Hv & Ht & _).
  exists v. split; [exact Hv|exact Ht].
Defined.

(** A log event without a data field. *)
Lemma log_lines_must_be_strings_witness :
  @run Demo2.engine initial Demo.started
    = Normal (Demo2.state_after Demo.started) /\
  is_open (Demo2.state_after Demo.started) 0 = true /\
  @event_type Demo2.engine Demo2.bare_log_text = Some "log" /\
  exists a' err,
    @step Demo2.engine (Demo2.state_after Demo.started)
      (Message 0 Demo2.bare_log_text) = Normal a' /\
    log_panel_visible a' = true /\
    @log_classes Demo2.engine Demo2.toLowerCase Demo2.not_a_function (logs a')
      = Throw err.
Proof.
  assert (H1 : @run Demo2.engine initial Demo.started
               = Normal (Demo2.state_after Demo.started))
    by (vm_compute; reflexivity).
  assert (H2 : is_open (Demo2.state_after Demo.started) 0 = true)
    by (vm_compute; reflexivity).
  assert (H3 : @event_type Demo2.engine Demo2.bare_log_text = Some "log")
    by (vm_compute; reflexivity).
  split; [exact H1|]. split; [exact H2|]. split; [exact H3|].
  destruct (@log_lines_must_be_strings Demo2.engine Demo2.toLowerCase
              Demo2.not_a_function _ _ 0 Demo2.bare_log_text H1 H2 H3)
    as (a' & err & Hstep & _ & Hvis & Hthrow).
  - intros s. vm_compute. discriminate.
  - exists a', err. split; [exact Hstep|]. split; [exact Hvis|exact Hthrow].
Defined.

(** A report whose chosen keywords are a string and whose missing keywords
    are an empty array. *)
Lemma keyword_chips_of_report_witness :
  is_open (Demo2.state_after Demo.started) 0 = true /\
  exists a',
    @step Demo2.engine (Demo2.state_after Demo.started)
      (Message 0 Demo2.odd_complete_text) = Normal a' /\
    keyword_chips Demo2.not_a_function (report a') "chosen_keywords"
      = Throw (Demo2.not_a_function (JString "SQL") "map").
Proof.
  assert (H2 : is_open (Demo2.state_after Demo.started) 0 = true)
    by (vm_compute; reflexivity).
  split; [exact H2|].
  destruct (@keyword_chips_of_report Demo2.engine Demo2.not_a_function
              (Demo2.state_after Demo.started) 0 Demo2.odd_complete_text
              Demo2.odd_report "chosen_keywords" H2)
    as (a' & Hstep & _ & _ & Hchips).
  - vm_compute; reflexivity.
  - vm_compute; reflexivity.
  - exists a'. split; [exact Hstep|]. exact Hchips.
Defined.

(** Signing up, and switching to sign-in while the call is awaited: the
    confirmation of the sign-up shows all the same. *)
Lemma outcome_fixed_at_submit_witness :
  Login.loading Demo2.signing_up = false /\
  Login.isSignUp
    (Login.run Demo2.signing_up
       [Login.Submit; Login.Toggle; Login.Settled 0 (Normal None)]) = false /\
  Login.successMsg
    (Login.run Demo2.signing_up
       [Login.Submit; Login.Toggle; Login.Settled 0 (Normal None)])
    = Login.confirmation.
Proof.
  assert (H1 : Login.loading Demo2.signing_up = false) by reflexivity.
  split; [exact H1|]. split; [reflexivity|].
  destruct (LoginProperties.outcome_fixed_at_submit Demo2.signing_up
              [Login.Toggle] (Normal None) H1) as (_ & _ & Hok & _).
  - repeat constructor.
  - exact (proj2 (Hok eq_refl)).
Defined.

(** * The component in the page *)

Section TreeProperties.
Context `{Engine}.
Variable toLowerCase : string -> string.
Variable not_a_function : JSValue -> string -> JSError.
Variable invalid_child : JSValue -> JSError.

#[local] Abbreviation log_classes := (log_classes toLowerCase not_a_function).
#[local] Abbreviation report_card := (report_card not_a_function).
#[local] Abbreviation child := (child invalid_child).
#[local] Abbreviation children := (children invalid_child).
#[local] Abbreviation render := (render toLowerCase not_a_function invalid_child).
#[local] Abbreviation mount_step :=
  (mount_step toLowerCase not_a_function invalid_child).
#[local] Abbreviation tree_step :=
  (tree_step toLowerCase not_a_function invalid_child).
#[local] Abbreviation tree_run := (tree_run toLowerCase not_a_function invalid_child).

(** ** What the render looks at *)

Lemma log_classes_strings l :
  Forall (fun v => is_string v = true) l <->
  exists cs, log_classes l = Normal cs.
Proof.
  induction l as [|v l IH]; simpl.
  - split; [by eexists|constructor].
  - split.
    + intros Hall. inversion Hall as [|? ? Hv Hl]; subst.
      destruct v; try done. simpl.
      apply IH in Hl as [cs ->]. simpl. by eexists.
    + intros [cs Hcs].
      destruct (log_class toLowerCase not_a_function v) as [c|] eqn:Hc;
        [|done].
      apply log_class_string in Hc as [s ->]. simpl in Hcs.
      constructor; [done|]. apply IH.
      destruct (log_classes l); [by eexists|done].
Qed.

(** The render reads the status, the error message, the log buffer and the
    report, and nothing else. *)
Lemma render_cells a b :
  status a = status b -> errorMessage a = errorMessage b ->
  logs a = logs b -> report a = report b -> render a = render b.
Proof.
  intros Hs He Hl Hr.
  unfold render, log_panel_visible, report_card_visible, error_box_visible.
  by rewrite Hs, He, Hl, Hr.
Qed.


Lemma render_loading a :
  status a = loading ->
  render a = (_ ← log_classes (logs a); Normal tt).
Proof.
  intros Hs.
  unfold render, log_panel_visible, report_card_visible, error_box_visible.
  rewrite Hs. simpl. by destruct (log_classes (logs a)).
Qed.

Lemma render_success a :
  status a = success -> Forall (fun v => is_string v = true) (logs a) ->
  render a = (card ← report_card (report a); children card).
Proof.
  intros Hs [cs Hl]%log_classes_strings.
  unfold render, log_panel_visible, report_card_visible, error_box_visible.
  rewrite Hs, Hl. simpl. by destruct (report_card (report a)).
Qed.

Lemma render_error a :
  status a = error -> Forall (fun v => is_string v = true) (logs a) ->
  render a = child (errorMessage a).
Proof.
  intros Hs [cs Hl]%log_classes_strings.
  unfold render, log_panel_visible, report_card_visible, error_box_visible.
  rewrite Hs, Hl. simpl.
  destruct (Nat.ltb 0 (length (logs a))); simpl;
    by destruct (child (errorMessage a)) as [[]|].
Qed.

Lemma render_idle a : status a = idle -> render a = Normal tt.
Proof.
  intros Hs.
  unfold render, log_panel_visible, report_card_visible, error_box_visible.
  by rewrite Hs.
Qed.

Lemma render_loading_strings a :
  status a = loading ->
  render a = Normal tt <-> Forall (fun v => is_string v = true) (logs a).
Proof.
  intros Hs. rewrite (render_loading a Hs), log_classes_strings.
  destruct (log_classes (logs a)); simpl; split; try done; eauto.
  by intros [? ?].
Qed.

(** A state that renders while the log panel shows holds strings as log
    lines. *)
Lemma render_logs a :
  render a = Normal tt -> log_panel_visible a = true ->
  Forall (fun v => is_string v = true) (logs a).
Proof.
  unfold render. intros Hr Hv. rewrite Hv in Hr. apply log_classes_strings.
  destruct (log_classes (logs a)); [by eexists|done].
Qed.

(** ** The tree and the event loop *)

Lemma unmount_cells a :
  status (unmount a) = status a /\ errorMessage (unmount a) = errorMessage a /\
  logs (unmount a) = logs a /\ report (unmount a) = report a /\
  jobId (unmount a) = jobId a /\ downloads (unmount a) = downloads a /\
  requests (unmount a) = requests a /\ calls (unmount a) = calls a.
Proof. unfold unmount, run_cleanup. by destruct (cleanup a). Qed.

Lemma unmount_open a i : is_open (unmount a) i = true -> is_open a i = true.
Proof.
  unfold unmount, run_cleanup. destruct (cleanup a) as [c|]; [|done].
  change (is_open (close c a) i = true -> is_open a i = true).
  rewrite is_open_close. by intros [? _]%andb_true_iff.
Qed.

Lemma handle_closed i e a :
  is_open a i = false -> on_source i e -> handle e a = a.
Proof.
  intros Hi He. destruct e; simpl in He; try done; subst; simpl.
  - unfold is_open in Hi. destruct (sources a !! i) as [es|]; [|done].
    by destruct (es_closed es).
  - by rewrite Hi.
Qed.

Lemma after_unmount_id e a : handle e a = a -> after_unmount e a = a.
Proof. destruct e; simpl; try done; intros ->; by destruct a. Qed.

Lemma tree_run_app t xs ys :
  tree_run t (xs ++ ys) = tree_run (tree_run t xs) ys.
Proof. apply foldl_app. Qed.

Lemma tree_run_unmounted events : forall a err,
  is_mounted (tree_run (Unmounted a err) events) = false.
Proof. induction events as [|e events IH]; intros a err; simpl; [done|apply IH]. Qed.

(** A step of the mounted tree is a step of the event loop whose state
    renders. *)
Lemma mount_step_spec a e a' :
  step a e = Normal a' ->
  match render a' with
  | Normal _ => mount_step a e = Mounted a'
  | Throw err => mount_step a e = Unmounted (unmount (handle e a)) err
  end.
Proof.
  unfold step, mount_step. intros Hc.
  pose proof (commit_frame _ _ _ Hc) as (_ & _ & Hs & He & _ & Hl & Hr & _).
  rewrite (render_cells a' (handle e a)) by done.
  rewrite Hc. by destruct (render (handle e a)).
Qed.

Lemma mount_step_mounted a e a' :
  mount_step a e = Mounted a' -> step a e = Normal a' /\ render a' = Normal tt.
Proof.
  unfold step, mount_step.
  destruct (render (handle e a)) as [[]|] eqn:Hr; [|done].
  destruct (commit a (handle e a)) as [b|] eqn:Hc; [|done].
  intros [= <-]. split; [done|].
  pose proof (commit_frame _ _ _ Hc) as (_ & _ & Hs & He & _ & Hl & Hrp & _).
  by rewrite (render_cells b (handle e a)).
Qed.

(** What the mounted tree reaches, the event loop reaches. *)
Lemma tree_reachable events : forall a0 a,
  tree_run (Mounted a0) events = Mounted a ->
  run a0 events = Normal a /\ (render a0 = Normal tt -> render a = Normal tt).
Proof.
  induction events as [|e events IH]; intros a0 a.
  { simpl. by intros [= <-]. }
  change (tree_run (Mounted a0) (e :: events))
    with (tree_run (mount_step a0 e) events).
  destruct (mount_step a0 e) as [b|b err] eqn:Hstep.
  - apply mount_step_mounted in Hstep as [Hs Hr]. simpl. rewrite Hs. simpl.
    intros Hrun. destruct (IH b a Hrun) as [Hb Hrender]. auto.
  - intros Hrun.
    pose proof (tree_run_unmounted events b err) as Hm.
    by rewrite Hrun in Hm.
Qed.

Lemma render_initial : render initial = Normal tt.
Proof. by apply render_idle. Qed.

Lemma tree_reachable_initial events a :
  tree_run (Mounted initial) events = Mounted a ->
  run initial events = Normal a /\ render a = Normal tt.
Proof.
  intros [Hrun Hr]%tree_reachable. split; [done|]. apply Hr, render_initial.
Qed.

(** A closed EventSource delivers nothing, mounted or not. *)
Lemma tree_closed i events : forall t,
  is_open (tree_state t) i = false ->
  (is_mounted t = true -> render (tree_state t) = Normal tt) ->
  Forall (on_source i) events ->
  tree_run t events = t.
Proof.
  induction events as [|e events IH]; intros t Hi Hr Hall; simpl; [done|].
  inversion Hall as [|? ? He Hall']; subst.
  assert (tree_step t e = t) as ->; [|by apply IH].
  destruct t as [a|a err]; simpl in *.
  - unfold mount_step. rewrite (handle_closed i e a Hi He), Hr by done.
    by rewrite commit_unchanged.
  - by rewrite after_unmount_id by by apply (handle_closed i).
Qed.

(** Log lines that are strings keep the tree mounted. *)
Lemma tree_nonterminal i pre : forall a,
  is_open a i = true -> status a = loading ->
  Forall (fun v => is_string v = true) (logs a) ->
  Forall (fun data => terminal data = false) pre ->
  Forall (fun v => is_string v = true) (log_lines pre) ->
  exists a',
    tree_run (Mounted a) (on_stream i pre) = Mounted a' /\
    run a (on_stream i pre) = Normal a' /\
    Forall (fun v => is_string v = true) (logs a').
Proof.
  induction pre as [|data pre IH]; intros a Hi Hst Hlogs Hall Hstr.
  { exists a. by split_and!. }
  inversion Hall as [|? ? Ht Hall']; subst.
  rewrite log_lines_cons in Hstr. apply Forall_app in Hstr as [Hd Hstr].
  destruct (is_open_inv a i Hi) as (es & Hl & Hc).
  destruct (step_nonterminal a i es data Hl Hc Ht)
    as (b & Hstep & Hs & Hlg & Hstb & _).
  assert (Forall (fun v => is_string v = true) (logs b)) as Hlogsb.
  { rewrite Hlg. by apply Forall_app. }
  pose proof (mount_step_spec a _ b Hstep) as Hm.
  rewrite (proj2 (render_loading_strings b ltac:(congruence)) Hlogsb) in Hm.
  destruct (IH b) as (a' & Htree & Hrun & Hlogs'); try done.
  { by rewrite (is_open_sources b a). }
  { congruence. }
  exists a'. simpl. rewrite Hm, Hstep. by split_and!.
Qed.


(** ** Terminal events *)

(** C2, as the code has it: on the stream of a running job, when the log
    events that arrive before the first terminal event carry strings and
    that terminal event is a complete event, its handler records the report
    of the event (an empty object when the field is absent, or falsy), sets
    the status to success and closes the connection, the log buffer holding
    the lines received; whatever the stream delivers afterwards changes
    nothing. The tree stays mounted when the report renders; otherwise
    the render of the report card throws and the tree is unmounted with this
    state. *)
Theorem C2_complete_is_final events a i pre c post :
  tree_run (Mounted initial) events = Mounted a ->
  is_open a i = true ->
  Forall (fun data => terminal data = false) pre ->
  Forall (fun line => is_string line = true) (log_lines pre) ->
  event_type c = Some "complete" ->
  Forall (on_source i) post ->
  exists a1 t,
    tree_run (Mounted a) (on_stream i pre) = Mounted a1 /\
    tree_run (Mounted a) (on_stream i pre ++ [Message i c]) = t /\
    report (tree_state t) = js_or (event_field c "report") (JObject ∅) /\
    (event_field c "report" = JUndefined -> report (tree_state t) = JObject ∅) /\
    (forall m, event_field c "report" = JObject m ->
       report (tree_state t) = JObject m) /\
    status (tree_state t) = success /\
    logs (tree_state t) = (logs a ++ log_lines pre)%list /\
    (forall j, is_open (tree_state t) j = false) /\
    tree_run t post = t /\
    tree_run (Mounted a) (on_stream i pre ++ Message i c :: post) = t /\
    render (tree_state t)
      = (card ← report_card (report (tree_state t)); children card) /\
    match render (tree_state t) with
    | Normal _ => t = Mounted (tree_state t)
    | Throw err => t = Unmounted (tree_state t) err
    end.
Proof.
  intros Hreach Hi Hpre Hstr Hc Hpost.
  destruct (tree_reachable_initial _ _ Hreach) as [Hrun Hra].
  pose proof (Inv_reachable _ _ Hrun) as [Ho _ _ _].
  destruct (Ho i Hi) as [_ Hst].
  pose proof (proj1 (render_loading_strings a Hst) Hra) as Hlogs.
  destruct (tree_nonterminal i pre a Hi Hst Hlogs Hpre Hstr)
    as (a1 & Htree & Hrun1 & Hlogs1).
  destruct (run_nonterminal i pre a Hi Hpre)
    as (a1' & Hrun1' & Ho1 & Hlg & _).
  rewrite Hrun1 in Hrun1'. injection Hrun1' as <-.
  assert (run initial (events ++ on_stream i pre) = Normal a1) as Hreach1
    by (rewrite run_app, Hrun; done).
  pose proof (Inv_reachable _ _ Hreach1) as [Hopen1 _ _ _].
  destruct (is_open_inv a1 i Ho1) as (es & Hl & Hcl).
  set (b := onmessage i (es_jobId es) c a1).
  assert (step a1 (Message i c) = Normal b) as Hstep by by apply step_message.
  assert (handle (Message i c) a1 = b) as Hh by (simpl; by rewrite Hl, Hcl).
  pose proof (trigger_download_frame i (es_jobId es) (event_field c "filename")
    (close i (setStatus success (setReport
      (js_or (event_field c "report") (JObject ∅)) a1))))
    as (Hsb & Hrb & Hlb & _ & Hsrc).
  rewrite <- onmessage_complete in Hsb, Hrb, Hlb, Hsrc by done.
  fold b in Hsb, Hrb, Hlb, Hsrc. simpl in Hsb, Hrb, Hlb, Hsrc.
  assert (forall j, is_open b j = false) as Hclosed.
  { intros j. rewrite (is_open_sources b (close i a1)) by done.
    rewrite is_open_close. destruct (is_open a1 j) eqn:Hj; [|done].
    destruct (Hopen1 j Hj) as [Hcj _], (Hopen1 i Ho1) as [Hci _].
    assert (i = j) as -> by congruence. by rewrite Nat.eqb_refl. }
  assert (Forall (fun v => is_string v = true) (logs b)) as Hlogsb
    by by rewrite Hlb.
  pose proof (render_success b Hsb Hlogsb) as Hrender.
  pose proof (mount_step_spec a1 _ b Hstep) as Hm. rewrite Hh in Hm.
  destruct (unmount_cells b) as (Hus & Hue & Hul & Hur & _).
  assert (render (unmount b) = render b) as Hru by by apply render_cells.
  set (t := mount_step a1 (Message i c)) in *.
  assert (tree_run (Mounted a) (on_stream i pre ++ [Message i c]) = t) as Ht
    by (by rewrite tree_run_app, Htree).
  assert (status (tree_state t) = success /\
          report (tree_state t) = report b /\ logs (tree_state t) = logs b /\
          (forall j, is_open (tree_state t) j = false) /\
          render (tree_state t) = render b /\
          match render b with
          | Normal _ => t = Mounted (tree_state t)
          | Throw err => t = Unmounted (tree_state t) err
          end) as (Hts & Htr & Htl & Hto & Htrender & Htm).
  { destruct (render b) as [[]|err] eqn:Hb; rewrite Hm; simpl;
      rewrite ?Hus, ?Hur, ?Hul; split_and!; try done.
    intros j. destruct (is_open (unmount b) j) eqn:Hj; [|done].
    apply unmount_open in Hj. by rewrite Hclosed in Hj. }
  assert (tree_run t post = t) as Hafter.
  { apply (tree_closed i); [apply Hto| |done].
    intros Hmt. rewrite Htrender.
    destruct (render b) as [[]|err]; [done|]. by rewrite Htm in Hmt. }
  exists a1, t. rewrite Htrender, Htr, Htl, Hrb, Hlb, Hlg.
  split_and!; try done.
  - intros Hu. by rewrite Hu.
  - intros m Hm'. by rewrite Hm'.
  - replace (Message i c :: post) with ([Message i c] ++ post)%list by done.
    by rewrite app_assoc, tree_run_app, Ht.
  - by rewrite <- Hrb.
Qed.


(** C3, as the code has it: on a stream just opened, when the log events
    that arrive before the first terminal event carry strings and that
    terminal event is an error event or a failure of the connection, the
    status ends as error, the connection is closed, and the log buffer holds
    the lines of those log events, in order, and nothing else. The error
    message is the data of the error event when that is non-empty, the
    generic fallback when the data is absent or empty, and "Lost connection
    to server" for the connection failure. Whatever the stream delivers
    afterwards changes nothing. The tree stays mounted unless the data of
    the error event is (or holds) an object, which the error box cannot
    show. *)
Theorem C3_error_is_final events a0 e a i pre post :
  tree_run (Mounted initial) events = Mounted a0 ->
  tree_step (Mounted a0) e = Mounted a ->
  is_open a0 i = false -> is_open a i = true ->
  Forall (fun data => terminal data = false) pre ->
  Forall (fun line => is_string line = true) (log_lines pre) ->
  Forall (on_source i) post ->
  (forall data, event_type data = Some "error" ->
     exists t,
       tree_run (Mounted a) (on_stream i pre ++ [Message i data]) = t /\
       tree_run (Mounted a) (on_stream i pre ++ Message i data :: post) = t /\
       status (tree_state t) = error /\
       errorMessage (tree_state t) =
         js_or (event_field data "data")
           (JString "Unknown error during streaming") /\
       (forall s, event_field data "data" = JString s -> s <> "" ->
          errorMessage (tree_state t) = JString s) /\
       (truthy (event_field data "data") = false ->
          errorMessage (tree_state t)
          = JString "Unknown error during streaming") /\
       (event_field data "data" = JUndefined \/
        event_field data "data" = JString "" ->
          errorMessage (tree_state t)
          = JString "Unknown error during streaming") /\
       (forall j, is_open (tree_state t) j = false) /\
       logs (tree_state t) = log_lines pre /\
       if valid_child (errorMessage (tree_state t))
       then t = Mounted (tree_state t)
       else t = Unmounted (tree_state t)
                  (invalid_child (errorMessage (tree_state t)))) /\
  (exists a',
     tree_run (Mounted a) (on_stream i pre ++ [ConnectionError i]) = Mounted a' /\
     tree_run (Mounted a) (on_stream i pre ++ ConnectionError i :: post)
       = Mounted a' /\
     status a' = error /\
     errorMessage a' = JString "Lost connection to server" /\
     (forall j, is_open a' j = false) /\
     logs a' = log_lines pre).
Proof.
  intros Hreach Hopenstep Hc Hi Hpre Hstr Hpost.
  destruct (tree_reachable_initial _ _ Hreach) as [Hrun0 Hra0].
  apply mount_step_mounted in Hopenstep as [Hstep Hra].
  assert (run initial (events ++ [e]) = Normal a) as Hrun
    by (rewrite run_app, Hrun0; simpl; by rewrite Hstep).
  pose proof (opened_logs a0 e a i (Inv_reachable _ _ Hrun0) Hstep Hc Hi)
    as Hempty.
  pose proof (Inv_reachable _ _ Hrun) as [Ho _ _ _].
  destruct (Ho i Hi) as [_ Hst].
  assert (Forall (fun v => is_string v = true) (logs a)) as Hlogs
    by (rewrite Hempty; constructor).
  destruct (tree_nonterminal i pre a Hi Hst Hlogs Hpre Hstr)
    as (a1 & Htree & Hrun1 & Hlogs1).
  destruct (run_nonterminal i pre a Hi Hpre)
    as (a1' & Hrun1' & Ho1 & Hlg & _).
  rewrite Hrun1 in Hrun1'. injection Hrun1' as <-.
  rewrite Hempty in Hlg. simpl in Hlg.
  assert (run initial ((events ++ [e]) ++ on_stream i pre) = Normal a1)
    as Hreach1 by (rewrite run_app, Hrun; done).
  pose proof (Inv_reachable _ _ Hreach1) as [Hopen1 _ _ _].
  destruct (is_open_inv a1 i Ho1) as (es & Hl & Hcl).
  assert (forall b, sources b = alter close_source i (sources a1) ->
          forall j, is_open b j = false) as Hclosed.
  { intros b Hsrc j. rewrite (is_open_sources b (close i a1)) by done.
    rewrite is_open_close. destruct (is_open a1 j) eqn:Hj; [|done].
    destruct (Hopen1 j Hj) as [Hcj _], (Hopen1 i Ho1) as [Hci _].
    assert (i = j) as -> by congruence. by rewrite Nat.eqb_refl. }
  assert (forall ev b, step a1 ev = Normal b -> handle ev a1 = b ->
          on_source i ev ->
          status b = error -> logs b = logs a1 ->
          sources b = alter close_source i (sources a1) ->
          exists t,
            tree_run (Mounted a) (on_stream i pre ++ [ev]) = t /\
            tree_run (Mounted a) (on_stream i pre ++ ev :: post) = t /\
            status (tree_state t) = error /\
            errorMessage (tree_state t) = errorMessage b /\
            (forall j, is_open (tree_state t) j = false) /\
            logs (tree_state t) = log_lines pre /\
            if valid_child (errorMessage b)
            then t = Mounted b
            else t = Unmounted (unmount b) (invalid_child (errorMessage b)))
    as Hterminal.
  { intros ev b Hev Hh Hon Hsb Hlb Hsrc.
    assert (Forall (fun v => is_string v = true) (logs b)) as Hlogsb
      by by rewrite Hlb.
    pose proof (render_error b Hsb Hlogsb) as Hrender.
    pose proof (mount_step_spec a1 _ b Hev) as Hm. rewrite Hh, Hrender in Hm.
    destruct (unmount_cells b) as (Hus & Hue & Hul & Hur & _).
    set (t := mount_step a1 ev) in *.
    assert (tree_run (Mounted a) (on_stream i pre ++ [ev]) = t) as Ht
      by (by rewrite tree_run_app, Htree).
    assert (tree_state t = b \/ tree_state t = unmount b) as Hstate.
    { unfold child in Hm. destruct (valid_child (errorMessage b));
        rewrite Hm; auto. }
    assert (forall j, is_open (tree_state t) j = false) as Hto.
    { intros j. destruct Hstate as [->| ->]; [by apply Hclosed|].
      destruct (is_open (unmount b) j) eqn:Hj; [|done].
      apply unmount_open in Hj. by rewrite (Hclosed b Hsrc) in Hj. }
    assert (tree_run t post = t) as Hafter.
    { apply (tree_closed i); [apply Hto| |done].
      intros Hmt. rewrite (render_cells _ b), Hrender.
      - unfold child in *. destruct (valid_child (errorMessage b)); [done|].
        by rewrite Hm in Hmt.
      - destruct Hstate as [->| ->]; done.
      - destruct Hstate as [->| ->]; done.
      - destruct Hstate as [->| ->]; done.
      - destruct Hstate as [->| ->]; done. }
    exists t. split_and!; try done.
    - replace (ev :: post) with ([ev] ++ post)%list by done.
      by rewrite app_assoc, tree_run_app, Ht.
    - destruct Hstate as [->| ->]; congruence.
    - destruct Hstate as [->| ->]; congruence.
    - destruct Hstate as [->| ->]; congruence.
    - unfold child in Hm. by destruct (valid_child (errorMessage b)). }
  split.
  - intros data Ht.
    pose proof (step_message a1 i es data Hl Hcl) as Hs.
    assert (handle (Message i data) a1 = onmessage i (es_jobId es) data a1)
      as Hh by (simpl; by rewrite Hl, Hcl).
    rewrite onmessage_error in Hs, Hh by done.
    set (b := close i _) in Hs, Hh.
    destruct (Hterminal (Message i data) b Hs Hh) as
      (t & Ht1 & Ht2 & Hts & Hte & Hto & Htl & Htm); try done.
    assert (tree_state t = b \/ tree_state t = unmount b) as Hstate.
    { destruct (valid_child (errorMessage b)); rewrite Htm; auto. }
    exists t. rewrite Hte. simpl. split_and!; try done.
    + intros s Hd Hne. rewrite Hd. unfold js_or. simpl.
      apply String.eqb_neq in Hne. by rewrite Hne.
    + intros Hf. unfold js_or. by rewrite Hf.
    + intros [Hd|Hd]; by rewrite Hd.
    + simpl in Htm.
      by destruct (valid_child (js_or _ _)); rewrite Htm.
  - pose proof (step_connection_error a1 i Ho1) as Hs.
    assert (handle (ConnectionError i) a1 = onerror i a1) as Hh
      by (simpl; by rewrite Ho1).
    destruct (Hterminal (ConnectionError i) (onerror i a1) Hs Hh) as
      (t & Ht1 & Ht2 & Hts & Hte & Hto & Htl & Htm); try done.
    simpl in Htm. rewrite Htm in Ht1, Ht2, Hts, Hte, Hto, Htl.
    exists (onerror i a1). by split_and!.
Qed.


(** ** Uncaught errors *)

(** The log lines of a mounted state are strings. *)
Lemma mounted_strings a :
  Inv2 a -> render a = Normal tt ->
  Forall (fun v => is_string v = true) (logs a).
Proof.
  intros [Hidle _ _ _ _ _] Hr.
  destruct (logs a) as [|line rest] eqn:Hl; [constructor|].
  rewrite <- Hl. apply render_logs; [done|].
  unfold log_panel_visible. rewrite Hl. simpl.
  destruct (status a) eqn:Hs; try done.
  destruct Hidle as (Hempty & _); [done|]. congruence.
Qed.

Lemma render_message a msg :
  status a = error -> errorMessage a = JString msg ->
  Forall (fun v => is_string v = true) (logs a) ->
  render a = Normal tt.
Proof. intros Hs He Hl. rewrite render_error by done. by rewrite He. Qed.

Lemma handleSubmit_catch_renders err a :
  Forall (fun v => is_string v = true) (logs a) ->
  render (handleSubmit_catch err a) = Normal tt.
Proof. intros Hl. by apply (render_message _ (err_message err)). Qed.

(** What the form, the reset button and the promises of a submission leave
    behind always renders. *)
Lemma render_handled a e :
  Inv2 a -> render a = Normal tt ->
  match e with
  | Message _ _ => True
  | _ => render (handle e a) = Normal tt
  end.
Proof.
  intros HI2 Hr. pose proof (mounted_strings a HI2 Hr) as Hl.
  destruct e as [v|f| | |k r|k r|i d|i]; simpl; try done.
  - destruct (disabled a); [done|]. by rewrite <- Hr; apply render_cells.
  - destruct (disabled a); [done|]. by rewrite <- Hr; apply render_cells.
  - destruct (disabled a); [done|]. unfold handleSubmit.
    destruct (String.eqb (url a) "");
      [by apply (render_message _
         "Please provide both a Job URL and your base Resume PDF.")|].
    destruct (resumeFile a);
      [|by apply (render_message _
          "Please provide both a Job URL and your base Resume PDF.")].
    apply render_loading_strings; unfold setJobId; by case_match.
  - case_bool_decide; [|done]. apply render_idle.
    unfold start_new_job, setJobId. by case_match.
  - destruct (calls a !! k) as [[u f| |]|]; try done.
    destruct r as [session|err]; simpl.
    + by rewrite <- Hr; apply render_cells.
    + by apply handleSubmit_catch_renders.
  - destruct (calls a !! k) as [[u f| |]|]; try done.
    unfold handleSubmit_fetch. destruct (job_id_of r) as [id|err].
    + rewrite <- Hr. apply render_cells; unfold setJobId; by case_match.
    + by apply handleSubmit_catch_renders.
  - destruct (is_open a i); [|done].
    by apply (render_message _ "Lost connection to server").
Qed.

(** X11: what unmounts the component. From a state the mounted component
    reaches, an event ends in an uncaught error only in two ways. Either it
    is the answer to the job-start request with a truthy job identifier for
    which the stream cannot be set up (the identifier does not convert to a
    string, or the EventSource constructor turns the URL down). Or it is a
    message on the open stream that puts into the state what the render
    cannot show: a log event whose data is no string, a complete event whose
    report card throws, or an error event whose data is, or holds, an
    object. The unmount runs the cleanup of the effect, so that no
    connection stays open. Every other event is handled. *)
Theorem uncaught_errors events a e b err :
  tree_run (Mounted initial) events = Mounted a ->
  mount_step a e = Unmounted b err ->
  b = unmount (handle e a) /\
  (forall j, is_open b j = false) /\
  ((exists k r id,
      e = FetchSettled k (Normal r) /\ calls a !! k = Some AtFetch /\
      job_id_of (Normal r) = Normal id /\ truthy id = true /\
      (ToString id = Throw err \/
       exists s, ToString id = Normal s /\
         EventSource_ctor (API_URL ++ "/api/stream-job/" ++ s) = Throw err)) \/
   (exists i data,
      e = Message i data /\ is_open a i = true /\
      render (handle e a) = Throw err /\
      ((event_type data = Some "log" /\
        forall s, event_field data "data" <> JString s) \/
       (event_type data = Some "complete" /\
        (card ← report_card (js_or (event_field data "report") (JObject ∅));
         children card) = Throw err) \/
       (event_type data = Some "error" /\
        valid_child (event_field data "data") = false /\
        err = invalid_child (event_field data "data"))))).
Proof.
  intros Hreach Hstep.
  destruct (tree_reachable_initial _ _ Hreach) as [Hrun Hra].
  pose proof (Inv_reachable _ _ Hrun) as HI.
  pose proof (Inv2_reachable _ _ Hrun) as HI2.
  pose proof (mounted_strings a HI2 Hra) as Hlogs.
  pose proof HI as [Ho _ _ _].
  assert (open_is_registered a) as Hreg by (intros j Hj; by destruct (Ho j Hj)).
  assert (forall j, is_open (unmount (handle e a)) j = false) as Hclosed
    by by apply unmount_closes, handle_registered.
  unfold mount_step in Hstep.
  destruct (render (handle e a)) as [[]|err'] eqn:Hr.
  { destruct (commit a (handle e a)) as [a'|err'] eqn:Hc; [done|].
    injection Hstep as <- <-. split_and!; [done|done|].
    left. by apply effect_throws. }
  injection Hstep as <- <-. split_and!; [done|done|]. right.
  pose proof (render_handled a e HI2 Hra) as Hother.
  destruct e as [v|f| | |k r|k r|i d|i]; try congruence.
  exists i, d. simpl in Hr |- *.
  destruct (sources a !! i) as [es|] eqn:Hl; [|congruence].
  destruct (es_closed es) eqn:Hcl; [congruence|].
  pose proof (is_open_lookup a i es Hl Hcl) as Hi.
  destruct (Ho i Hi) as [_ Hst].
  split_and!; [done|done|done|]. revert Hr.
  apply onmessage_cases.
  - intros Hlog Hr. left. split; [done|]. intros s Hs.
    rewrite (proj2 (render_loading_strings
      (setLogs (logs a ++ [event_field d "data"]) a) Hst)) in Hr; [done|].
    simpl. apply Forall_app. split; [done|]. rewrite Hs. by repeat constructor.
  - intros Hcomplete Hr. right. left. split; [done|].
    match type of Hr with render ?x = _ =>
      destruct (trigger_download_cells i (es_jobId es)
                  (event_field d "filename")
                  (close i (setStatus success (setReport
                     (js_or (event_field d "report") (JObject ∅)) a))))
        as (Hs' & _ & _ & Hl' & Hr' & _);
      rewrite (render_success x) in Hr by (by rewrite ?Hs', ?Hl')
    end.
    by rewrite Hr' in Hr.
  - intros Herror Hr. right. right. split; [done|].
    rewrite render_error in Hr by done. simpl in Hr.
    unfold child, js_or in Hr.
    destruct (truthy (event_field d "data")); [|done].
    destruct (valid_child (event_field d "data")); [done|].
    by injection Hr as <-.
  - intros _ _ Hr. congruence.
  - intros err0 _ _ Hr.
    rewrite (render_cells _ a) in Hr by done. congruence.
Qed.

End TreeProperties.

(** * The component in the page, on concrete runs *)

(** Scenario A of the specification: two log lines, then the complete event
    with a report and the filename tailored.pdf; a late log line changes
    nothing, and the tree stays mounted. And a complete event whose report
    lists the chosen keywords as a string: the handler does the same, and
    the render of the report card unmounts the tree. *)
Lemma C2_witness :
  Demo3.tree_after Demo.started = Mounted Demo3.started /\
  is_open Demo3.started 0 = true /\
  (exists t,
    Demo3.run_tree (Mounted Demo3.started)
      (@on_stream 0 [Demo.log_text "parsing"; Demo.log_text "scoring"]
       ++ Message 0 Demo.complete_text :: [Message 0 (Demo.log_text "parsing")])
      = t /\
    is_mounted t = true /\
    report (tree_state t) = Demo.report_82 /\
    status (tree_state t) = success /\
    logs (tree_state t) = [JString "parsing"; JString "scoring"] /\
    is_open (tree_state t) 0 = false) /\
  (exists t,
    Demo3.run_tree (Mounted Demo3.started)
      (@on_stream 0 [Demo.log_text "parsing"]
       ++ Message 0 Demo2.odd_complete_text :: [Message 0 (Demo.log_text "parsing")])
      = t /\
    is_mounted t = false /\
    report (tree_state t) = JObject Demo2.odd_report /\
    status (tree_state t) = success /\
    logs (tree_state t) = [JString "parsing"] /\
    is_open (tree_state t) 0 = false).
Proof.
  split; [vm_compute; reflexivity|]. split; [vm_compute; reflexivity|].
  split.
  2:{ destruct (@C2_complete_is_final Demo3.engine Demo2.toLowerCase
                  Demo2.not_a_function Demo3.invalid_child
                  Demo.started Demo3.started 0
                  [Demo.log_text "parsing"]
                  Demo2.odd_complete_text [Message 0 (Demo.log_text "parsing")])
        as (a1 & t & _ & _ & _ & _ & Hm & Hs & Hl & Hc & _ & Hrun & _).
      - vm_compute; reflexivity.
      - vm_compute; reflexivity.
      - repeat constructor; vm_compute; reflexivity.
      - vm_compute. repeat constructor.
      - vm_compute; reflexivity.
      - repeat constructor.
      - exists t. split; [exact Hrun|].
        split; [rewrite <- Hrun; vm_compute; reflexivity|].
        split; [apply Hm; vm_compute; reflexivity|]. split; [exact Hs|].
        split; [rewrite Hl; vm_compute; reflexivity|exact (Hc 0)]. }
  destruct (@C2_complete_is_final Demo3.engine Demo2.toLowerCase
              Demo2.not_a_function Demo3.invalid_child
              Demo.started Demo3.started 0
              [Demo.log_text "parsing"; Demo.log_text "scoring"]
              Demo.complete_text [Message 0 (Demo.log_text "parsing")])
    as (a1 & t & _ & _ & _ & _ & Hm & Hs & Hl & Hc & _ & Hrun & _).
  - vm_compute; reflexivity.
  - vm_compute; reflexivity.
  - repeat constructor; vm_compute; reflexivity.
  - vm_compute. repeat constructor.
  - vm_compute; reflexivity.
  - repeat constructor.
  - exists t. split; [exact Hrun|].
    split; [rewrite <- Hrun; vm_compute; reflexivity|].
    split; [apply Hm; vm_compute; reflexivity|]. split; [exact Hs|].
    split; [rewrite Hl; vm_compute; reflexivity|exact (Hc 0)].
Defined.

(** A log event without data, then the complete event: the render of the
    log line throws, the tree is unmounted with the status still loading,
    and the complete event finds the connection closed. *)
Lemma C2_counterexample :
  Demo3.tree_after Demo.started = Mounted Demo3.started /\
  is_open Demo3.started 0 = true /\
  @terminal Demo3.engine Demo2.bare_log_text = false /\
  @event_type Demo3.engine Demo.complete_text = Some "complete" /\
  exists s err,
    Demo3.run_tree (Mounted Demo3.started)
      (@on_stream 0 [Demo2.bare_log_text] ++ [Message 0 Demo.complete_text])
      = Unmounted s err /\
    status s = loading /\ status s <> success /\ report s = JNull /\
    is_open s 0 = false /\ downloads s = [].
Proof.
  split; [vm_compute; reflexivity|]. split; [vm_compute; reflexivity|].
  split; [vm_compute; reflexivity|]. split; [vm_compute; reflexivity|].
  exists (unmount (setLogs [JUndefined] Demo3.started)),
    (@null_read_error Demo3.engine JUndefined "toLowerCase").
  split; [vm_compute; reflexivity|]. split; [vm_compute; reflexivity|].
  split; [vm_compute; discriminate|]. split; [vm_compute; reflexivity|].
  split; vm_compute; reflexivity.
Qed.

(** Scenario C of the specification: after one log line the stream reports
    "upstream timeout"; the same with an error event that carries no data,
    empty data, and an object as data (which the error box cannot show);
    and scenario D, with the connection lost instead. *)
Lemma C3_witness :
  Demo3.tree_after Demo.submitted = Mounted (Demo3.state_after Demo.submitted) /\
  Demo3.step_tree (Demo3.state_after Demo.submitted)
    (FetchSettled 0 (Normal (Demo.response 200 "OK" (Demo.job_text "abc"))))
    = Mounted Demo3.started /\
  is_open (Demo3.state_after Demo.submitted) 0 = false /\
  is_open Demo3.started 0 = true /\
  (exists t,
     Demo3.run_tree (Mounted Demo3.started)
       (@on_stream 0 [Demo.log_text "parsing"]
        ++ Message 0 (Demo.error_text "upstream timeout")
           :: [Message 0 (Demo.log_text "scoring")]) = t /\
     is_mounted t = true /\
     status (tree_state t) = error /\
     errorMessage (tree_state t) = JString "upstream timeout" /\
     is_open (tree_state t) 0 = false /\
     logs (tree_state t) = [JString "parsing"]) /\
  (exists t,
     Demo3.run_tree (Mounted Demo3.started)
       (@on_stream 0 [Demo.log_text "parsing"]
        ++ Message 0 Demo3.bare_error_text
           :: [Message 0 (Demo.log_text "scoring")]) = t /\
     status (tree_state t) = error /\
     errorMessage (tree_state t) = JString "Unknown error during streaming" /\
     logs (tree_state t) = [JString "parsing"]) /\
  (exists t,
     Demo3.run_tree (Mounted Demo3.started)
       (@on_stream 0 [Demo.log_text "parsing"]
        ++ Message 0 (Demo.error_text "")
           :: [Message 0 (Demo.log_text "scoring")]) = t /\
     status (tree_state t) = error /\
     errorMessage (tree_state t) = JString "Unknown error during streaming" /\
     logs (tree_state t) = [JString "parsing"]) /\
  (exists t,
     Demo3.run_tree (Mounted Demo3.started)
       (@on_stream 0 [Demo.log_text "parsing"]
        ++ Message 0 Demo3.object_error_text
           :: [Message 0 (Demo.log_text "scoring")]) = t /\
     is_mounted t = false /\
     status (tree_state t) = error /\
     errorMessage (tree_state t) = JObject (<["code" := JNumber 1%float]> ∅) /\
     logs (tree_state t) = [JString "parsing"]) /\
  (exists a',
     Demo3.run_tree (Mounted Demo3.started)
       (@on_stream 0 [Demo.log_text "parsing"]
        ++ ConnectionError 0 :: [Message 0 (Demo.log_text "scoring")])
       = Mounted a' /\
     status a' = error /\ errorMessage a' = JString "Lost connection to server" /\
     is_open a' 0 = false /\ logs a' = [JString "parsing"]).
Proof.
  split; [vm_compute; reflexivity|]. split; [vm_compute; reflexivity|].
  split; [vm_compute; reflexivity|]. split; [vm_compute; reflexivity|].
  destruct (@C3_error_is_final Demo3.engine Demo2.toLowerCase
              Demo2.not_a_function Demo3.invalid_child
              Demo.submitted (Demo3.state_after Demo.submitted)
              (FetchSettled 0 (Normal (Demo.response 200 "OK" (Demo.job_text "abc"))))
              Demo3.started 0
              [Demo.log_text "parsing"] [Message 0 (Demo.log_text "scoring")])
    as [Hsemantic Htransport].
  - vm_compute; reflexivity.
  - vm_compute; reflexivity.
  - vm_compute; reflexivity.
  - vm_compute; reflexivity.
  - repeat constructor; vm_compute; reflexivity.
  - vm_compute. repeat constructor.
  - repeat constructor.
  - split; [|split; [|split; [|split]]].
    + destruct (Hsemantic (Demo.error_text "upstream timeout"))
        as (t & _ & Hrun & Hs & _ & Hm & _ & _ & Hc & Hl & _);
        [vm_compute; reflexivity|].
      exists t. split; [exact Hrun|].
      split; [rewrite <- Hrun; vm_compute; reflexivity|]. split; [exact Hs|].
      split; [apply Hm; [vm_compute; reflexivity|discriminate]|].
      split; [exact (Hc 0)|rewrite Hl; vm_compute; reflexivity].
    + destruct (Hsemantic Demo3.bare_error_text)
        as (t & _ & Hrun & Hs & _ & _ & _ & Hm & _ & Hl & _);
        [vm_compute; reflexivity|].
      exists t. split; [exact Hrun|]. split; [exact Hs|].
      split; [apply Hm; left; vm_compute; reflexivity|].
      rewrite Hl; vm_compute; reflexivity.
    + destruct (Hsemantic (Demo.error_text ""))
        as (t & _ & Hrun & Hs & _ & _ & _ & Hm & _ & Hl & _);
        [vm_compute; reflexivity|].
      exists t. split; [exact Hrun|]. split; [exact Hs|].
      split; [apply Hm; right; vm_compute; reflexivity|].
      rewrite Hl; vm_compute; reflexivity.
    + destruct (Hsemantic Demo3.object_error_text)
        as (t & _ & Hrun & Hs & Hm & _ & _ & _ & _ & Hl & _);
        [vm_compute; reflexivity|].
      exists t. split; [exact Hrun|].
      split; [rewrite <- Hrun; vm_compute; reflexivity|]. split; [exact Hs|].
      split; [rewrite Hm; vm_compute; reflexivity|].
      rewrite Hl; vm_compute; reflexivity.
    + destruct Htransport as (a' & _ & Hrun & Hs & Hm & Hc & Hl).
      exists a'. split; [exact Hrun|]. split; [exact Hs|].
      split; [exact Hm|].
      split; [exact (Hc 0)|rewrite Hl; vm_compute; reflexivity].
Defined.

(** A log event without data, then the error event "upstream timeout": the
    tree is unmounted by the render of the log line, the status is still
    loading and the error event is never handled. *)
Lemma C3_counterexample :
  Demo3.tree_after Demo.started = Mounted Demo3.started /\
  is_open Demo3.started 0 = true /\ logs Demo3.started = [] /\
  @terminal Demo3.engine Demo2.bare_log_text = false /\
  @event_type Demo3.engine (Demo.error_text "upstream timeout") = Some "error" /\
  exists s err,
    Demo3.run_tree (Mounted Demo3.started)
      (@on_stream 0 [Demo2.bare_log_text]
       ++ [Message 0 (Demo.error_text "upstream timeout")])
      = Unmounted s err /\
    status s = loading /\ status s <> error /\
    errorMessage s = JString "" /\
    errorMessage s <> JString "upstream timeout".
Proof.
  split; [vm_compute; reflexivity|]. split; [vm_compute; reflexivity|].
  split; [vm_compute; reflexivity|]. split; [vm_compute; reflexivity|].
  split; [vm_compute; reflexivity|].
  exists (unmount (setLogs [JUndefined] Demo3.started)),
    (@null_read_error Demo3.engine JUndefined "toLowerCase").
  split; [vm_compute; reflexivity|]. split; [vm_compute; reflexivity|].
  split; [vm_compute; discriminate|]. split; [vm_compute; reflexivity|].
  vm_compute; discriminate.
Qed.

(** A log event without data unmounts the tree, and the stream of the job
    is closed by the unmount. *)
Lemma uncaught_errors_witness :
  Demo3.tree_after Demo.started = Mounted Demo3.started /\
  is_open Demo3.started 0 = true /\
  Demo3.step_tree Demo3.started (Message 0 Demo2.bare_log_text)
    = Unmounted (unmount (setLogs [JUndefined] Demo3.started))
        (@null_read_error Demo3.engine JUndefined "toLowerCase") /\
  forall j, is_open (unmount (setLogs [JUndefined] Demo3.started)) j = false.
Proof.
  split; [vm_compute; reflexivity|]. split; [vm_compute; reflexivity|].
  split; [vm_compute; reflexivity|].
  destruct (@uncaught_errors Demo3.engine Demo2.toLowerCase
              Demo2.not_a_function Demo3.invalid_child
              Demo.started Demo3.started (Message 0 Demo2.bare_log_text)
              (unmount (setLogs [JUndefined] Demo3.started))
              (@null_read_error Demo3.engine JUndefined "toLowerCase"))
    as (_ & Hclosed & _).
  - vm_compute; reflexivity.
  - vm_compute; reflexivity.
  - exact Hclosed.
Defined.
